(** * The dialogue engine of the WhatsApp lead bot

    A shallow embedding of [dialogue_manager.py], [conversation_store.py] and
    the part of [llm_adapter.py] the engine consults, followed by the
    properties of the engine.

    Modelling conventions.
    - Text is a [string] of bytes, the UTF-8 encoding of the Python text.
      [str.lower], [str.strip] and [str.isdigit] are the ASCII ones: for
      them a byte of any other character is no capital, no blank and no
      digit.  The regular expression class [\d] and [int] go by characters:
      the bytes are read back as characters, and a digit is a decimal digit
      of Unicode, of any script.
    - Python [int] is [Z]; [int(s)] on a run of digits is taken without the
      interpreter's cap on the number of digits.
    - A JSON object of the flow document is a record with one optional field
      per key the engine reads; [d.get(k, default)] is [default] applied to
      the field.  A key that is present has the type the engine expects.
    - A conversation record is a record of its five keys; the in-memory
      dictionary [user_states] and the JSON file of the store are finite maps
      keyed by phone number.  The file holds copies: a record changed in
      memory reaches the file only through [ConversationStore.set].
    - The store carries, next to the content of its file, whether the file
      can be opened for writing and how many times [_write_all] ran, so that
      a swallowed write failure and the absence of a write can be stated.
    - A method is a function from the mutable world to a result and the new
      world; the result is a value or a raised exception.  The world reached
      when an exception is raised keeps the writes made before it.

    The second half of the development embeds [contact_manager.py],
    [whatsapp_sender.py], [send_outreach.py] and the webhook and statistics
    of [app.py] on the same conventions, with these additions.
    - The data frame of contacts is the list of its rows, each a record of
      the five columns; the cells are text, a missing phone cell is [None].
    - The Twilio client is a function telling whether a call returns or
      raises; the sender records the calls it makes.
    - [datetime.now()] is an argument of the functions that read it. *)

From Stdlib Require Import ZArith Ascii String.
From stdpp Require Import gmap strings list.

Local Open Scope Z_scope.

(** ** Python string primitives *)

Module PyStr.

Definition ord (c : ascii) : N := N_of_ascii c.

(** The ASCII digits: [c.isdigit()] on an ASCII character. *)
Definition is_digit (c : ascii) : bool :=
  ((48 <=? ord c) && (ord c <=? 57))%N.

(** Characters removed by [str.strip()]: TAB, LF, VT, FF, CR, the four
    separators FS, GS, RS, US and the space. *)
Definition is_space (c : ascii) : bool :=
  (((9 <=? ord c) && (ord c <=? 13)) || ((28 <=? ord c) && (ord c <=? 32)))%N.

Definition is_upper (c : ascii) : bool :=
  ((65 <=? ord c) && (ord c <=? 90))%N.

Definition lower_char (c : ascii) : ascii :=
  if is_upper c then ascii_of_N (ord c + 32) else c.

(** [s.lower()] *)
Fixpoint lower (s : string) : string :=
  match s with
  | EmptyString => EmptyString
  | String c s' => String (lower_char c) (lower s')
  end.

Fixpoint lstrip (s : string) : string :=
  match s with
  | EmptyString => EmptyString
  | String c s' => if is_space c then lstrip s' else s
  end.

Fixpoint rstrip (s : string) : string :=
  match s with
  | EmptyString => EmptyString
  | String c s' =>
      match rstrip s' with
      | EmptyString => if is_space c then EmptyString else String c EmptyString
      | r => String c r
      end
  end.

(** [s.strip()] *)
Definition strip (s : string) : string := rstrip (lstrip s).

(** [s.startswith(p)] *)
Fixpoint startswith (p s : string) : bool :=
  match p, s with
  | EmptyString, _ => true
  | String a p', String b s' => if ascii_dec a b then startswith p' s' else false
  | String _ _, EmptyString => false
  end.

(** [needle in hay] on two strings. *)
Fixpoint contains (needle hay : string) : bool :=
  startswith needle hay ||
  match hay with
  | EmptyString => false
  | String _ hay' => contains needle hay'
  end.

(** [any(keyword in message for keyword in keywords)] *)
Definition any_in (keywords : list string) (message : string) : bool :=
  existsb (fun keyword => contains keyword message) keywords.

(** [s.replace(old, new)] for a non-empty [old] (the engine only replaces
    the two placeholders): left to right, occurrences do not overlap.
    [skip] counts the characters of a matched occurrence still to drop. *)
Fixpoint replace_from (old new : string) (skip : nat) (s : string) : string :=
  match s with
  | EmptyString => EmptyString
  | String c s' =>
      match skip with
      | S k => replace_from old new k s'
      | O =>
          if startswith old s
          then new +:+ replace_from old new (String.length old - 1) s'
          else String c (replace_from old new O s')
      end
  end.

Definition replace (old new s : string) : string := replace_from old new O s.

(** *** Characters

    A text is held as the bytes of its UTF-8 encoding.  The regular
    expression class [\d] and [int] go by characters, so the bytes are read
    back as characters first. *)

(** A continuation byte [10xxxxxx], and the six bits it carries. *)
Definition is_cont (c : ascii) : bool :=
  ((128 <=? ord c) && (ord c <=? 191))%N.

Definition cont (c : ascii) : N := (ord c - 128)%N.

(** The bits of [n] continuation bytes at the head of [s], after the bits
    [acc] of the leading byte; [None] when one of them is missing. *)
Fixpoint payload (n : nat) (acc : N) (s : string) : option N :=
  match n with
  | O => Some acc
  | S k =>
      match s with
      | String c s' => if is_cont c then payload k (acc * 64 + cont c) s' else None
      | EmptyString => None
      end
  end.

(** The character that starts with the byte [c], [s] being the bytes after
    it, and the number of those bytes it takes.  Only the shortest encoding
    of a character counts, and U+D800..U+DFFF have none.  A byte that starts
    no character is read as U+DC00 + byte, as Python's [surrogateescape]
    reads it: a character that is no letter, no blank and no digit. *)
Definition code_point_at (c : ascii) (s : string) : N * nat :=
  (let b := ord c in
   let stray := (56320 + b, O) in
   let encoded (n : nat) (lead lo hi : N) :=
     match payload n lead s with
     | Some cp =>
         if (lo <=? cp) && (cp <=? hi) && negb ((55296 <=? cp) && (cp <=? 57343))
         then (cp, n)
         else stray
     | None => stray
     end in
   if b <? 128 then (b, O)
   else if b <? 192 then stray
   else if b <? 224 then encoded 1%nat (b - 192) 128 2047
   else if b <? 240 then encoded 2%nat (b - 224) 2048 65535
   else if b <? 248 then encoded 3%nat (b - 240) 65536 1114111
   else stray)%N.

(** The characters of a text; [skip] counts the bytes of the character just
    read that are still to pass. *)
Fixpoint code_points_from (skip : nat) (s : string) : list N :=
  match s with
  | EmptyString => []
  | String c s' =>
      match skip with
      | S k => code_points_from k s'
      | O =>
          fst (code_point_at c s')
            :: code_points_from (snd (code_point_at c s')) s'
      end
  end.

Definition code_points (s : string) : list N := code_points_from O s.

(** The decimal digits of Unicode (general category Nd) come in runs of ten,
    the digits 0 to 9 of one script in order.  These are the zeros of the
    runs in Unicode 14.0, the database of CPython 3.11: ASCII, Arabic-Indic,
    Extended Arabic-Indic, NKo, Devanagari and so on. *)
Definition decimal_zeros : list N :=
  [48; 1632; 1776; 1984; 2406; 2534; 2662; 2790;
   2918; 3046; 3174; 3302; 3430; 3558; 3664; 3792;
   3872; 4160; 4240; 6112; 6160; 6470; 6608; 6784;
   6800; 6992; 7088; 7232; 7248; 42528; 43216; 43264;
   43472; 43504; 43600; 44016; 65296; 66720; 68912; 69734;
   69872; 69942; 70096; 70384; 70736; 70864; 71248; 71360;
   71472; 71904; 72016; 72784; 73040; 73120; 92768; 92864;
   93008; 120782; 120792; 120802; 120812; 120822; 123200; 123632;
   125264; 130032
  ]%N.

(** [unicodedata.decimal(c, None)]: the value of a decimal digit, [None]
    for any other character.  [\d] matches the characters that have one
    and [int] reads them by it. *)
Definition decimal (cp : N) : option Z :=
  match List.find (fun zero => (zero <=? cp) && (cp <? zero + 10))%N decimal_zeros with
  | Some zero => Some (Z.of_N (cp - zero))
  | None => None
  end.

Definition is_decimal (cp : N) : bool :=
  match decimal cp with
  | Some _ => true
  | None => false
  end.

Definition flush (cur : list N) : list (list N) :=
  match cur with
  | [] => []
  | _ => [cur]
  end.

(** The maximal runs of decimal digits of a sequence of characters, left to
    right.  [cur] is the run being read. *)
Fixpoint findall_digits_from (cur text : list N) : list (list N) :=
  match text with
  | [] => flush cur
  | cp :: text' =>
      if is_decimal cp then findall_digits_from (cur ++ [cp]) text'
      else flush cur ++ findall_digits_from [] text'
  end.

(** [re.findall(r'\d+', s)]: each match as the sequence of its characters. *)
Definition findall_digits (s : string) : list (list N) :=
  findall_digits_from [] (code_points s).

Definition digit_value (cp : N) : Z := default 0 (decimal cp).

Fixpoint int_from (acc : Z) (run : list N) : Z :=
  match run with
  | [] => acc
  | cp :: run' => int_from (10 * acc + digit_value cp) run'
  end.

(** [int(s)] on a run of decimal digits. *)
Definition int (run : list N) : Z := int_from 0 run.

Definition all_digits (text : list N) : bool := forallb is_decimal text.

Definition no_digit (text : list N) : bool :=
  forallb (fun cp => negb (is_decimal cp)) text.

Definition starts_with_digit (text : list N) : bool :=
  match text with
  | [] => false
  | cp :: _ => is_decimal cp
  end.

End PyStr.

(** ** Data model *)

(** A collected answer: the engine stores canonical strings and the income
    as an integer. *)
Inductive scalar :=
| SStr (s : string)
| SInt (n : Z).

Global Instance scalar_eq_dec : EqDecision scalar.
Proof. solve_decision. Defined.

(** One conversation record, the dictionary built at lines 70-76 of
    [dialogue_manager.py]. *)
Record UserState := mkUserState {
  current_state : string;
  conversation_data : gmap string scalar;
  message_count : Z;
  retry_count : Z;
  outcome : option string
}.

Global Instance UserState_eq_dec : EqDecision UserState.
Proof. solve_decision. Defined.

Definition set_current_state (v : string) (u : UserState) : UserState :=
  mkUserState v (conversation_data u) (message_count u) (retry_count u) (outcome u).
Definition set_conversation_data (v : gmap string scalar) (u : UserState) : UserState :=
  mkUserState (current_state u) v (message_count u) (retry_count u) (outcome u).
Definition set_message_count (v : Z) (u : UserState) : UserState :=
  mkUserState (current_state u) (conversation_data u) v (retry_count u) (outcome u).
Definition set_retry_count (v : Z) (u : UserState) : UserState :=
  mkUserState (current_state u) (conversation_data u) (message_count u) v (outcome u).
Definition set_outcome (v : option string) (u : UserState) : UserState :=
  mkUserState (current_state u) (conversation_data u) (message_count u) (retry_count u) v.

(** The record of a sender seen for the first time. *)
Definition new_user_state : UserState :=
  mkUserState "INITIAL" ∅ 0 0 None.

(** *** The flow document *)

(** A branch object such as [on_positive] or [on_invalid]. *)
Record Branch := mkBranch {
  br_message : option string;
  br_message_template : option string;
  br_next_state : option string
}.

(** The [{}] default of [state.get('on_...', {})]. *)
Definition no_branch : Branch := mkBranch None None None.

Record Rules := mkRules {
  r_employment_type : option (list string);
  r_monthly_income_minimum : option Z;
  r_residency_status : option (list string)
}.

Definition no_rules : Rules := mkRules None None None.

(** A state definition: every key the engine reads in some state. *)
Record StateDef := mkStateDef {
  sd_message_template : option string;
  sd_message : option string;
  sd_next_state : option string;
  sd_positive_keywords : option (list string);
  sd_negative_keywords : option (list string);
  sd_on_positive : option Branch;
  sd_on_negative : option Branch;
  sd_on_unclear : option Branch;
  sd_valid_responses : option (gmap string (list string));
  sd_store_as : option string;
  sd_on_valid : option Branch;
  sd_on_invalid : option Branch;
  sd_minimum_income : option Z;
  sd_on_below_minimum : option Branch;
  sd_qualification_rules : option Rules;
  sd_on_qualified : option Branch;
  sd_on_not_qualified : option Branch
}.

(** The [{}] default of [self.states.get(state_id, {})]. *)
Definition no_state : StateDef :=
  mkStateDef None None None None None None None None None None None None None
             None None None None.

Record ErrorHandling := mkErrorHandling {
  eh_max_retries : option Z;
  eh_technical_error_message : option string
}.

Record FlowDoc := mkFlowDoc {
  fd_states : option (gmap string StateDef);
  fd_calendly_link : option string;
  fd_error_handling : option ErrorHandling;
  fd_product_hook : option string
}.

(** *** The clarification generator, as far as the engine looks at it *)

Record GeminiAdapter := mkGeminiAdapter {
  enabled : bool;
  _model : option unit
}.

(** [GeminiAdapter.is_enabled] *)
Definition is_enabled (llm : GeminiAdapter) : bool :=
  enabled llm && bool_decide (is_Some (_model llm)).

(** ** The conversation store *)

(** [file] is the parsed content of the day's JSON file, [None] when the
    file is missing or does not parse.  [writable] tells whether opening the
    file for writing succeeds; [writes] counts the calls of [_write_all]. *)
Record ConversationStore := mkStore {
  file : option (gmap string UserState);
  writable : bool;
  writes : nat
}.

Module Store.

(** [_read_all]: any failure yields the empty dictionary. *)
Definition _read_all (st : ConversationStore) : gmap string UserState :=
  default ∅ (file st).

(** [_write_all]: a failure is logged and swallowed, the file keeps its
    content. *)
Definition _write_all (data : gmap string UserState) (st : ConversationStore)
  : ConversationStore :=
  mkStore (if writable st then Some data else file st) (writable st) (S (writes st)).

Definition get (st : ConversationStore) (phone_number : string) : option UserState :=
  _read_all st !! phone_number.

Definition set (phone_number : string) (state : UserState) (st : ConversationStore)
  : ConversationStore :=
  let data := _read_all st in
  _write_all (<[phone_number := state]> data) st.

Definition delete (phone_number : string) (st : ConversationStore)
  : ConversationStore :=
  let data := _read_all st in
  if bool_decide (is_Some (data !! phone_number))
  then _write_all (base.delete phone_number data) st
  else st.

End Store.

(** ** The mutable world of a [DialogueManager] and its methods *)

Record World := mkWorld {
  user_states : gmap string UserState;
  store : ConversationStore
}.

Inductive exn :=
| NameError (name : string)
| TypeError (operator : string).

Inductive result (A : Type) :=
| Return (a : A)
| Raise (e : exn).
Arguments Return {A} a.
Arguments Raise {A} e.

Definition M (A : Type) : Type := World -> result A * World.

Definition ret {A} (a : A) : M A := fun w => (Return a, w).
Definition raise {A} (e : exn) : M A := fun w => (Raise e, w).
Definition bind {A B} (m : M A) (k : A -> M B) : M B :=
  fun w =>
    match m w with
    | (Return a, w') => k a w'
    | (Raise e, w') => (Raise e, w')
    end.

Notation "x <~ m ;; k" := (bind m (fun x => k))
  (at level 100, m at next level, right associativity).
Notation "m ;;; k" := (bind m (fun _ => k))
  (at level 100, right associativity).

(** The generator's raw answer to a prompt made of the product hook, the
    state id, the user's message and the expected reply; [None] stands for an
    exception or an answer without text. *)
Definition model_reply : Type := string -> string -> string -> string -> option string.

Fixpoint take_chars (n : nat) (s : string) : string :=
  match n, s with
  | S k, String c s' => String c (take_chars k s')
  | _, _ => EmptyString
  end.

(** [GeminiAdapter.generate_clarification] *)
Definition generate_clarification (llm : GeminiAdapter) (reply : model_reply)
    (product_hook state_id user_message next_expected : string) : option string :=
  if negb (is_enabled llm) then None
  else
    match reply product_hook state_id user_message next_expected with
    | None => None
    | Some EmptyString => None
    | Some text => Some (take_chars 500 (PyStr.strip text))
    end.

Section DialogueManager.

(** The immutable attributes of the manager. *)
Variable dialogue_data : FlowDoc.
Variable llm : GeminiAdapter.
Variable reply : model_reply.

Definition states : gmap string StateDef := default ∅ (fd_states dialogue_data).

Definition calendly_link : string :=
  default "https://calendly.com" (fd_calendly_link dialogue_data).

Definition error_handling : ErrorHandling :=
  default (mkErrorHandling None None) (fd_error_handling dialogue_data).

(** Assignment through the reference [get_user_state] returned: the record
    of [phone_number] in [user_states] is replaced. *)
Definition put_user_state (phone_number : string) (u : UserState) : M unit :=
  fun w => (Return tt, mkWorld (<[phone_number := u]> (user_states w)) (store w)).

(** [self.store.set(phone_number, state)] *)
Definition store_set (phone_number : string) (u : UserState) : M unit :=
  fun w => (Return tt, mkWorld (user_states w) (Store.set phone_number u (store w))).

(** [get_user_state], lines 52-79. *)
Definition get_user_state (phone_number : string) : M UserState :=
  fun w =>
    match user_states w !! phone_number with
    | Some u => (Return u, w)
    | None =>
        match Store.get (store w) phone_number with
        | Some persisted =>
            (Return persisted,
             mkWorld (<[phone_number := persisted]> (user_states w)) (store w))
        | None =>
            (Return new_user_state,
             mkWorld (<[phone_number := new_user_state]> (user_states w)) (store w))
        end
    end.

(** [if data: user_state['conversation_data'].update(data)] *)
Definition update_data (data : option (gmap string scalar)) (u : UserState)
  : UserState :=
  match data with
  | Some d =>
      if bool_decide (d = ∅) then u
      else set_conversation_data (d ∪ conversation_data u) u
  | None => u
  end.

(** [update_user_state], lines 81-99. *)
Definition update_user_state (phone_number state : string)
    (data : option (gmap string scalar)) : M unit :=
  user_state <~ get_user_state phone_number ;;
  let user_state :=
    update_data data
      (set_message_count (message_count user_state + 1)
         (set_current_state state user_state)) in
  put_user_state phone_number user_state ;;;
  store_set phone_number user_state.

(** [_handle_initial], lines 149-162. *)
Definition _handle_initial (phone_number : string) (user_name : option string)
  : M (string * bool) :=
  let initial_state := default no_state (states !! "INITIAL") in
  let message_template := default "" (sd_message_template initial_state) in
  let name :=
    match user_name with
    | Some n => if bool_decide (n = "") then "there" else n
    | None => "there"
    end in
  let message := PyStr.replace "{name}" name message_template in
  let next_state := default "AWAITING_INTEREST" (sd_next_state initial_state) in
  update_user_state phone_number next_state None ;;;
  ret (message, false).

(** The read of a name that neither the function nor the module binds. *)
Definition unbound_name {A} (name : string) : M A := raise (NameError name).

(** [_handle_interest_response], lines 164-203.  The test of line 189
    evaluates [self.llm.is_enabled()] first and, only when it holds, the name
    [user_state], which this method never assigns (contrast line 216 of
    [_handle_answer]). *)
Definition _handle_interest_response (phone_number message : string)
  : M (string * bool) :=
  let state := default no_state (states !! "AWAITING_INTEREST") in
  let positive_keywords := default [] (sd_positive_keywords state) in
  let negative_keywords := default [] (sd_negative_keywords state) in
  if PyStr.any_in positive_keywords message then
    let on_positive := default no_branch (sd_on_positive state) in
    let response :=
      default "Great! Let me ask you a few questions." (br_message on_positive) in
    let next_state := default "QUESTION_1" (br_next_state on_positive) in
    update_user_state phone_number next_state None ;;;
    ret (response, false)
  else if PyStr.any_in negative_keywords message then
    let on_negative := default no_branch (sd_on_negative state) in
    let response := default "No problem! Have a great day!" (br_message on_negative) in
    update_user_state phone_number "END" None ;;;
    ret (response, true)
  else
    let on_unclear := default no_branch (sd_on_unclear state) in
    let expected := "Reply with Yes or No" in
    let fallback :=
      ret (default "Please reply with Yes or No." (br_message on_unclear), false) in
    if is_enabled llm then
      user_state <~ unbound_name "user_state" ;;
      if retry_count user_state <? default 2 (eh_max_retries error_handling) then
        let user_state := set_retry_count (retry_count user_state + 1) user_state in
        put_user_state phone_number user_state ;;;
        store_set phone_number user_state ;;;
        match generate_clarification llm reply
                (default "" (fd_product_hook dialogue_data))
                "AWAITING_INTEREST" message expected with
        | Some (String c gen) => ret (String c gen, false)
        | _ => fallback
        end
      else fallback
    else fallback.

(** [_handle_question], lines 205-211. *)
Definition _handle_question (phone_number : string) (state : StateDef)
  : M (string * bool) :=
  let message := default "" (sd_message state) in
  let next_state := default "END" (sd_next_state state) in
  update_user_state phone_number next_state None ;;;
  ret (message, false).

(** [x in l] for a stored scalar and a list of strings. *)
Definition scalar_in (x : scalar) (l : list string) : bool :=
  match x with
  | SStr s => bool_decide (s ∈ l)
  | SInt _ => false
  end.

(** [x >= n] for a stored scalar and an integer: a string operand raises. *)
Definition scalar_ge (x : scalar) (n : Z) : M bool :=
  match x with
  | SInt i => ret (n <=? i)
  | SStr _ => raise (TypeError ">=")
  end.

(** [_handle_eligibility], lines 286-317. *)
Definition _handle_eligibility (phone_number : string) : M (string * bool) :=
  user_state <~ get_user_state phone_number ;;
  let conversation_data := conversation_data user_state in
  let state := default no_state (states !! "EVALUATE_ELIGIBILITY") in
  let qualification_rules := default no_rules (sd_qualification_rules state) in
  let employment := default (SStr "") (conversation_data !! "employment_type") in
  let income := default (SInt 0) (conversation_data !! "monthly_income") in
  let residency := default (SStr "") (conversation_data !! "residency_status") in
  let valid_employment :=
    scalar_in employment (default [] (r_employment_type qualification_rules)) in
  valid_income <~
    scalar_ge income (default 5000 (r_monthly_income_minimum qualification_rules)) ;;
  let valid_residency :=
    scalar_in residency (default [] (r_residency_status qualification_rules)) in
  if valid_employment && valid_income && valid_residency then
    let on_qualified := default no_branch (sd_on_qualified state) in
    let message_template := default "" (br_message_template on_qualified) in
    let message := PyStr.replace "{calendly_link}" calendly_link message_template in
    put_user_state phone_number (set_outcome (Some "qualified") user_state) ;;;
    update_user_state phone_number "END" None ;;;
    ret (message, true)
  else
    let on_not_qualified := default no_branch (sd_on_not_qualified state) in
    let message := default "Thank you for your time." (br_message on_not_qualified) in
    put_user_state phone_number (set_outcome (Some "disqualified") user_state) ;;;
    update_user_state phone_number "END" None ;;;
    ret (message, true).

(** [state.get('valid_responses', {}).get(key, [])] *)
Definition valid_keywords (state : StateDef) (key : string) : list string :=
  default [] (default ∅ (sd_valid_responses state) !! key).

(** Lines 243-249: the first run of digits read as an integer, [None] when
    the message has no digit. *)
Definition extract_income (message : string) : option Z :=
  match PyStr.findall_digits message with
  | [] => None
  | number :: _ => Some (PyStr.int number)
  end.

(** [_handle_answer], lines 213-284. *)
Definition _handle_answer (phone_number message state_id : string)
  : M (string * bool) :=
  let state := default no_state (states !! state_id) in
  user_state <~ get_user_state phone_number ;;
  if bool_decide (state_id = "AWAITING_ANSWER_1") then
    let store_as := default "employment_type" (sd_store_as state) in
    let on_valid := default no_branch (sd_on_valid state) in
    if PyStr.any_in (valid_keywords state "salaried") message then
      update_user_state phone_number "QUESTION_2"
        (Some {[ store_as := SStr "salaried" ]}) ;;;
      ret (default "Got it!" (br_message on_valid), false)
    else if PyStr.any_in (valid_keywords state "self-employed") message then
      update_user_state phone_number "QUESTION_2"
        (Some {[ store_as := SStr "self-employed" ]}) ;;;
      ret (default "Got it!" (br_message on_valid), false)
    else
      let on_invalid := default no_branch (sd_on_invalid state) in
      ret (default "Please specify Salaried or Self-employed." (br_message on_invalid),
           false)
  else if bool_decide (state_id = "AWAITING_ANSWER_2") then
    match extract_income message with
    | None =>
        let on_invalid := default no_branch (sd_on_invalid state) in
        ret (default "Please provide a numeric value." (br_message on_invalid), false)
    | Some income =>
        let minimum_income := default 5000 (sd_minimum_income state) in
        if income <? minimum_income then
          let on_below := default no_branch (sd_on_below_minimum state) in
          update_user_state phone_number "END" None ;;;
          ret (default "Thank you for your interest." (br_message on_below), true)
        else
          let store_as := default "monthly_income" (sd_store_as state) in
          update_user_state phone_number "QUESTION_3"
            (Some {[ store_as := SInt income ]}) ;;;
          let on_valid := default no_branch (sd_on_valid state) in
          ret (default "Thank you!" (br_message on_valid), false)
    end
  else if bool_decide (state_id = "AWAITING_ANSWER_3") then
    let store_as := default "residency_status" (sd_store_as state) in
    if PyStr.any_in (valid_keywords state "uae_national") message then
      update_user_state phone_number "EVALUATE_ELIGIBILITY"
        (Some {[ store_as := SStr "uae_national" ]}) ;;;
      _handle_eligibility phone_number
    else if PyStr.any_in (valid_keywords state "expatriate") message then
      update_user_state phone_number "EVALUATE_ELIGIBILITY"
        (Some {[ store_as := SStr "expatriate" ]}) ;;;
      _handle_eligibility phone_number
    else
      let on_invalid := default no_branch (sd_on_invalid state) in
      ret (default "Please specify UAE National or Expatriate." (br_message on_invalid),
           false)
  else ret ("I didn't understand. Please try again.", false).

(** [_handle_error], lines 319-325. *)
Definition _handle_error (phone_number : string) : M (string * bool) :=
  let message :=
    default "I'm experiencing technical difficulties."
      (eh_technical_error_message error_handling) in
  update_user_state phone_number "END" None ;;;
  ret (message, true).

Definition closing_message : string :=
  "Thank you! Your conversation has ended. Feel free to start a new conversation anytime.".

(** [process_message], lines 101-147. *)
Definition process_message (phone_number message : string)
    (user_name : option string) : M (string * bool) :=
  user_state <~ get_user_state phone_number ;;
  let current_state_id := current_state user_state in
  if bool_decide (current_state_id = "INITIAL") then
    _handle_initial phone_number user_name
  else if bool_decide (current_state_id = "END") then
    ret (closing_message, true)
  else
    match states !! current_state_id with
    | None => _handle_error phone_number
    | Some current_state =>
        let message_lower := PyStr.strip (PyStr.lower message) in
        if bool_decide (current_state_id = "AWAITING_INTEREST") then
          _handle_interest_response phone_number message_lower
        else if PyStr.startswith "AWAITING_ANSWER" current_state_id then
          _handle_answer phone_number message_lower current_state_id
        else if bool_decide (current_state_id = "EVALUATE_ELIGIBILITY") then
          _handle_eligibility phone_number
        else if PyStr.startswith "QUESTION" current_state_id then
          _handle_question phone_number current_state
        else _handle_error phone_number
    end.

(** [reset_user], lines 327-332. *)
Definition reset_user (phone_number : string) : M unit :=
  fun w =>
    (Return tt,
     mkWorld (delete phone_number (user_states w))
             (Store.delete phone_number (store w))).

(** The record the engine works on for a sender, and the world once it has
    been looked up. *)
Definition resolve (w : World) (phone_number : string) : UserState :=
  match get_user_state phone_number w with
  | (Return u, _) => u
  | (Raise _, _) => new_user_state
  end.

Definition loaded (w : World) (phone_number : string) : World :=
  snd (get_user_state phone_number w).

End DialogueManager.

Arguments resolve w phone_number : simpl never.
Arguments loaded w phone_number : simpl never.

(** ** A flow document and two adapters used in the examples *)

Module Sample.

Definition only_message (m : string) : option Branch :=
  Some (mkBranch (Some m) None None).

Definition greeting : StateDef :=
  mkStateDef (Some "Hi {name}! Interested in a home loan? Reply Yes or No.")
    None (Some "AWAITING_INTEREST") None None None None None None None None
    None None None None None None.

Definition gate : StateDef :=
  mkStateDef None None None
    (Some ["yes"; "sure"; "interested"]) (Some ["no"; "stop"])
    (Some (mkBranch (Some "Great! A few quick questions.") None (Some "QUESTION_1")))
    (only_message "No problem. Have a great day!")
    (only_message "Sorry, I did not get that. Please reply Yes or No.")
    None None None None None None None None None.

Definition prompt (m next : string) : StateDef :=
  mkStateDef None (Some m) (Some next) None None None None None None None None
    None None None None None None.

Definition employment_answer : StateDef :=
  mkStateDef None None None None None None None None
    (Some (list_to_map [("salaried", ["salaried"; "employee"]);
                        ("self-employed", ["self"; "business"])]))
    (Some "employment_type")
    (only_message "Got it!")
    (only_message "Please answer Salaried or Self-employed.")
    None None None None None.

Definition income_answer : StateDef :=
  mkStateDef None None None None None None None None None
    (Some "monthly_income")
    (only_message "Thank you!")
    (only_message "Please send your income as a number.")
    (Some 5000)
    (only_message "Thank you for your interest. We cannot help right now.")
    None None None.

Definition residency_answer : StateDef :=
  mkStateDef None None None None None None None None
    (Some (list_to_map [("uae_national", ["national"; "emirati"]);
                        ("expatriate", ["expat"; "resident"])]))
    (Some "residency_status")
    None
    (only_message "Please answer UAE National or Expatriate.")
    None None None None None.

Definition rules : Rules :=
  mkRules (Some ["salaried"; "self-employed"]) (Some 5000)
          (Some ["uae_national"; "expatriate"]).

Definition evaluator (r : Rules) : StateDef :=
  mkStateDef None None None None None None None None None None None None None None
    (Some r)
    (Some (mkBranch None (Some "You qualify! Book a call: {calendly_link}") None))
    (only_message "Thank you for your time.").

Definition flow_with (r : Rules) : FlowDoc :=
  mkFlowDoc
    (Some (list_to_map
       [("INITIAL", greeting);
        ("AWAITING_INTEREST", gate);
        ("QUESTION_1", prompt "Are you salaried or self-employed?" "AWAITING_ANSWER_1");
        ("AWAITING_ANSWER_1", employment_answer);
        ("QUESTION_2", prompt "What is your monthly income in AED?" "AWAITING_ANSWER_2");
        ("AWAITING_ANSWER_2", income_answer);
        ("QUESTION_3", prompt "UAE National or Expatriate?" "AWAITING_ANSWER_3");
        ("AWAITING_ANSWER_3", residency_answer);
        ("EVALUATE_ELIGIBILITY", evaluator r)]))
    (Some "https://calendly.com/advisor")
    (Some (mkErrorHandling (Some 2) (Some "I'm experiencing technical difficulties.")))
    (Some "Home loans for UAE residents").

Definition flow : FlowDoc := flow_with rules.

(** A product without an income requirement: the second question asks for
    the residency at once and the evaluator's minimum is 0. *)
Definition no_income_flow : FlowDoc :=
  mkFlowDoc
    (Some (list_to_map
       [("INITIAL", greeting);
        ("AWAITING_INTEREST", gate);
        ("QUESTION_1", prompt "Are you salaried or self-employed?" "AWAITING_ANSWER_1");
        ("AWAITING_ANSWER_1", employment_answer);
        ("QUESTION_2", prompt "UAE National or Expatriate?" "AWAITING_ANSWER_3");
        ("AWAITING_ANSWER_3", residency_answer);
        ("EVALUATE_ELIGIBILITY",
         evaluator (mkRules (Some ["salaried"; "self-employed"]) (Some 0)
                            (Some ["uae_national"; "expatriate"])))]))
    (Some "https://calendly.com/advisor")
    (Some (mkErrorHandling (Some 2) (Some "I'm experiencing technical difficulties.")))
    (Some "Credit cards for UAE residents").

Definition gemini_on : GeminiAdapter := mkGeminiAdapter true (Some tt).
Definition gemini_off : GeminiAdapter := mkGeminiAdapter false None.

Definition nudge : model_reply :=
  fun _ _ _ _ => Some "Could you tell me Yes or No? For example: Yes.".

Definition phone : string := "whatsapp:+971500000001".

(** A freshly started process over an empty, writable store. *)
Definition fresh : World := mkWorld ∅ (mkStore (Some ∅) true 0).

(** A world where [phone] holds the record [u], in memory and on file. *)
Definition at_record (u : UserState) : World :=
  mkWorld {[ phone := u ]} (mkStore (Some {[ phone := u ]}) true 0).

Definition at_state (state_id : string) (count : Z) : World :=
  at_record (mkUserState state_id ∅ count 0 None).

(** The answers collected by [no_income_flow]. *)
Definition two_answers : gmap string scalar :=
  list_to_map [("employment_type", SStr "salaried");
               ("residency_status", SStr "expatriate")].

Definition answers (income : Z) : gmap string scalar :=
  list_to_map [("employment_type", SStr "salaried");
               ("monthly_income", SInt income);
               ("residency_status", SStr "expatriate")].

End Sample.


(** ** Notions used to state the properties *)

(** The greeting template of a flow document. *)
Definition greeting_template (dialogue_data : FlowDoc) : string :=
  default "" (sd_message_template
                (default no_state (states dialogue_data !! "INITIAL"))).

(** The name put into the greeting: the display name when one is given and
    is not empty. *)
Inductive greeted_as : option string -> string -> Prop :=
| greeted_by_name n : n <> "" -> greeted_as (Some n) n
| greeted_empty : greeted_as (Some "") "there"
| greeted_anonymous : greeted_as None "there".

(** The engine fed the inbound messages of one sender in turn. *)
Fixpoint process_all (dialogue_data : FlowDoc) (llm : GeminiAdapter)
    (reply : model_reply) (phone_number : string)
    (inbound : list (string * option string)) (w : World)
  : list (result (string * bool)) * World :=
  match inbound with
  | [] => ([], w)
  | (message, user_name) :: rest =>
      let '(r, w1) := process_message dialogue_data llm reply phone_number
                        message user_name w in
      let '(rs, w2) := process_all dialogue_data llm reply phone_number rest w1 in
      (r :: rs, w2)
  end.

(** The store was written between two worlds. *)
Definition store_written (w w' : World) : Prop :=
  (writes (store w) < writes (store w'))%nat.

(** The record the store holds for a sender carries the counters of the
    record in memory. *)
Definition counters_on_file (w : World) (phone_number : string) : Prop :=
  exists u,
    Store.get (store w) phone_number = Some u /\
    message_count u = message_count (resolve w phone_number) /\
    retry_count u = retry_count (resolve w phone_number).

(** The three rule checks of the evaluator on a map of answers, each with its
    default for a missing field; [None] when the income comparison is not
    defined. *)
Definition employment_ok (r : Rules) (d : gmap string scalar) : bool :=
  scalar_in (default (SStr "") (d !! "employment_type"))
            (default [] (r_employment_type r)).

Definition residency_ok (r : Rules) (d : gmap string scalar) : bool :=
  scalar_in (default (SStr "") (d !! "residency_status"))
            (default [] (r_residency_status r)).

Definition income_ok (r : Rules) (d : gmap string scalar) : option bool :=
  match default (SInt 0) (d !! "monthly_income") with
  | SInt i => Some (default 5000 (r_monthly_income_minimum r) <=? i)
  | SStr _ => None
  end.

Definition rules_of (dialogue_data : FlowDoc) : Rules :=
  default no_rules
    (sd_qualification_rules
       (default no_state (states dialogue_data !! "EVALUATE_ELIGIBILITY"))).

Definition qualified_template (dialogue_data : FlowDoc) : string :=
  default ""
    (br_message_template
       (default no_branch
          (sd_on_qualified
             (default no_state (states dialogue_data !! "EVALUATE_ELIGIBILITY"))))).

Definition qualified_message (dialogue_data : FlowDoc) : string :=
  PyStr.replace "{calendly_link}" (calendly_link dialogue_data)
    (qualified_template dialogue_data).

Definition not_qualified_message (dialogue_data : FlowDoc) : string :=
  default "Thank you for your time."
    (br_message
       (default no_branch
          (sd_on_not_qualified
             (default no_state (states dialogue_data !! "EVALUATE_ELIGIBILITY"))))).

(** The record after a transition to [state] that stores nothing. *)
Definition moved_to (state : string) (u : UserState) : UserState :=
  set_message_count (message_count u + 1) (set_current_state state u).

(** The world after [update_user_state] wrote the record [u] for [p]. *)
Definition written (w : World) (p : string) (u : UserState) : World :=
  mkWorld (<[p := u]> (user_states (loaded w p))) (Store.set p u (store w)).

(** The message of a branch of a state, with the engine's fallback text. *)
Definition branch_reply (sd : StateDef) (pick : StateDef -> option Branch)
    (fallback : string) : string :=
  default fallback (br_message (default no_branch (pick sd))).

(** A call that only re-prompts: the state of the sender and the trimmed,
    lower-cased message for which the engine repeats its question, by the
    path of the code that answers.  The unclear reply at the gate is the one
    given while the generator is disabled. *)
Inductive reprompts (dialogue_data : FlowDoc) (llm : GeminiAdapter)
  : string -> string -> Prop :=
| reprompt_employment m sd :
    states dialogue_data !! "AWAITING_ANSWER_1" = Some sd ->
    PyStr.any_in (valid_keywords sd "salaried") m = false ->
    PyStr.any_in (valid_keywords sd "self-employed") m = false ->
    reprompts dialogue_data llm "AWAITING_ANSWER_1" m
| reprompt_income m sd :
    states dialogue_data !! "AWAITING_ANSWER_2" = Some sd ->
    extract_income m = None ->
    reprompts dialogue_data llm "AWAITING_ANSWER_2" m
| reprompt_residency m sd :
    states dialogue_data !! "AWAITING_ANSWER_3" = Some sd ->
    PyStr.any_in (valid_keywords sd "uae_national") m = false ->
    PyStr.any_in (valid_keywords sd "expatriate") m = false ->
    reprompts dialogue_data llm "AWAITING_ANSWER_3" m
| reprompt_other id m sd :
    states dialogue_data !! id = Some sd ->
    PyStr.startswith "AWAITING_ANSWER" id = true ->
    id <> "AWAITING_ANSWER_1" -> id <> "AWAITING_ANSWER_2" ->
    id <> "AWAITING_ANSWER_3" ->
    reprompts dialogue_data llm id m
| reprompt_gate m sd :
    states dialogue_data !! "AWAITING_INTEREST" = Some sd ->
    PyStr.any_in (default [] (sd_positive_keywords sd)) m = false ->
    PyStr.any_in (default [] (sd_negative_keywords sd)) m = false ->
    is_enabled llm = false ->
    reprompts dialogue_data llm "AWAITING_INTEREST" m.

(** The reading of "a call that only re-prompts still persists the counters":
    whenever the call answers without ending the conversation and leaves the
    sender in the state it was in, the store has been written and holds the
    counters of the record. *)
Definition reprompt_persists_counters (dialogue_data : FlowDoc)
    (llm : GeminiAdapter) (reply : model_reply) (w : World)
    (phone_number message : string) (user_name : option string) : Prop :=
  forall text w',
    process_message dialogue_data llm reply phone_number message user_name w
      = (Return (text, false), w') ->
    current_state (resolve w' phone_number) = current_state (resolve w phone_number) ->
    store_written w w' /\ counters_on_file w' phone_number.

(** The reading of "missing fields count as failing": answers that lack one
    of the three fields are never qualified by the evaluator. *)
Definition missing_field_fails (dialogue_data : FlowDoc) (w : World)
    (phone_number : string) : Prop :=
  (exists field,
     field ∈ ["employment_type"; "monthly_income"; "residency_status"] /\
     conversation_data (resolve w phone_number) !! field = None) ->
  forall text w',
    _handle_eligibility dialogue_data phone_number w = (Return (text, true), w') ->
    outcome (resolve w' phone_number) = Some "disqualified".

(** A record carries an outcome only once its conversation has ended, and a
    world is well kept when every record in memory and on file is so.  The
    engine keeps worlds well kept (see [process_message_well_kept]). *)
Definition open_or_ended (u : UserState) : Prop :=
  outcome u = None \/ current_state u = "END".

Definition well_kept (w : World) : Prop :=
  (forall q u, user_states w !! q = Some u -> open_or_ended u) /\
  (forall q u, Store.get (store w) q = Some u -> open_or_ended u).

(** ** Notions for the engine as a whole *)

(** One [update_user_state]: the message counter grows by one and the retry
    counter is left alone. *)
Definition advance (u u' : UserState) : Prop :=
  message_count u' = message_count u + 1 /\ retry_count u' = retry_count u.

(** The worlds a call for [p] can reach from [w]: the sender is looked up,
    then its record is rewritten and stored [n] times. *)
Inductive touched (w : World) (p : string) : nat -> World -> Prop :=
| touched_lookup : touched w p 0 (loaded w p)
| touched_update n w1 u :
    touched w p n w1 -> advance (resolve w1 p) u ->
    touched w p (S n) (written w1 p u).

(** A call rewrites the sender's record at most twice. *)
Definition reached (w : World) (p : string) (w' : World) : Prop :=
  exists n, (n <= 2)%nat /\ touched w p n w'.

(** The engine serving inbound messages of several senders in turn; each
    item is a sender, a message and a display name. *)
Fixpoint serve (dialogue_data : FlowDoc) (llm : GeminiAdapter) (reply : model_reply)
    (inbound : list (string * string * option string)) (w : World)
  : list (result (string * bool)) * World :=
  match inbound with
  | [] => ([], w)
  | (phone_number, message, user_name) :: rest =>
      let '(r, w1) := process_message dialogue_data llm reply phone_number
                        message user_name w in
      let '(rs, w2) := serve dialogue_data llm reply rest w1 in
      (r :: rs, w2)
  end.

(** The store holds the record the memory holds for a sender. *)
Definition coherent_at (w : World) (q : string) : Prop :=
  forall u, user_states w !! q = Some u -> Store.get (store w) q = Some u.

Definition coherent (w : World) : Prop := forall q, coherent_at w q.

(** The process started again over the same store. *)
Definition restarted (w : World) : World := mkWorld ∅ (store w).

Definition has_upper (s : string) : bool :=
  existsb PyStr.is_upper (list_ascii_of_string s).




(** A state identifier [process_message] cannot route: neither of the two
    reserved ones, and unknown to the flow document or of no kind the engine
    handles. *)
Definition unroutable (dialogue_data : FlowDoc) (id : string) : Prop :=
  id <> "INITIAL" /\ id <> "END" /\
  (states dialogue_data !! id = None \/
   (id <> "AWAITING_INTEREST" /\ PyStr.startswith "AWAITING_ANSWER" id = false /\
    id <> "EVALUATE_ELIGIBILITY" /\ PyStr.startswith "QUESTION" id = false)).

Definition technical_error_message (dialogue_data : FlowDoc) : string :=
  default "I'm experiencing technical difficulties."
    (eh_technical_error_message (error_handling dialogue_data)).

(** The residency matched by a message, [uae_national] tried first. *)
Definition matched_residency (sd : StateDef) (m : string) : option string :=
  if PyStr.any_in (valid_keywords sd "uae_national") m then Some "uae_national"
  else if PyStr.any_in (valid_keywords sd "expatriate") m then Some "expatriate"
  else None.

(** ** The contact manager ([contact_manager.py]) *)

(** A row of the contacts sheet.  [LastContacted] is empty until the contact
    is first updated. *)
Record Contact := mkContact {
  FullName : string;
  PhoneNumber : string;
  Status : string;
  LastContacted : option string;
  Product : string
}.

Global Instance Contact_eq_dec : EqDecision Contact.
Proof. solve_decision. Defined.

(** The data frame in memory ([None] before a load), the rows of the Excel
    file, and whether the file can be written. *)
Record ContactManager := mkContactManager {
  contacts_df : option (list Contact);
  excel : list Contact;
  excel_writable : bool
}.

Module Contacts.

Fixpoint filter_chars (keep : ascii -> bool) (s : string) : string :=
  match s with
  | EmptyString => EmptyString
  | String c s' =>
      if keep c then String c (filter_chars keep s') else filter_chars keep s'
  end.

(** [c.isdigit() or c == '+'] *)
Definition phone_char (c : ascii) : bool :=
  PyStr.is_digit c || bool_decide (c = "+"%char).

(** [s[1:]] *)
Definition tail (s : string) : string :=
  match s with
  | EmptyString => EmptyString
  | String _ s' => s'
  end.

(** [_clean_phone_number], lines 89-116; [None] is a missing cell
    ([pd.isna]). *)
Definition _clean_phone_number (phone : option string) : string :=
  match phone with
  | None => ""
  | Some phone =>
      let phone_str := PyStr.strip phone in
      let phone_clean := filter_chars phone_char phone_str in
      if negb (PyStr.startswith "+" phone_clean) then
        if PyStr.startswith "971" phone_clean then "+" +:+ phone_clean
        else if PyStr.startswith "0" phone_clean then "+971" +:+ tail phone_clean
        else "+971" +:+ phone_clean
      else phone_clean
  end.

(** [DataFrame.head(n)]: the first [n] rows, or all but the last [-n]. *)
Definition head (n : Z) (rows : list Contact) : list Contact :=
  if 0 <=? n then take (Z.to_nat n) rows
  else take (length rows - Z.to_nat (- n)) rows.

Definition is_pending (c : Contact) : bool := bool_decide (Status c = "pending").

(** [get_pending_contacts], lines 118-138. *)
Definition get_pending_contacts (limit : option Z) (cm : ContactManager)
  : list Contact :=
  match contacts_df cm with
  | None => []
  | Some df =>
      let pending_df := List.filter is_pending df in
      match limit with
      | Some n => if bool_decide (n = 0) then pending_df else head n pending_df
      | None => pending_df
      end
  end.

Definition has_phone (phone_clean : string) (c : Contact) : bool :=
  bool_decide (PhoneNumber c = phone_clean).

(** Lines 153-158 and 180-184: the number is cleaned, then a [whatsapp:]
    prefix is removed. *)
Definition search_key (phone_number : string) : string :=
  let phone_clean := _clean_phone_number (Some phone_number) in
  if PyStr.startswith "whatsapp:" phone_clean
  then PyStr.replace "whatsapp:" "" phone_clean
  else phone_clean.

(** [get_contact_by_phone], lines 140-166. *)
Definition get_contact_by_phone (phone_number : string) (cm : ContactManager)
  : option Contact :=
  match contacts_df cm with
  | None => None
  | Some df =>
      match List.filter (has_phone (search_key phone_number)) df with
      | [] => None
      | c :: _ => Some c
      end
  end.

(** [save_contacts], lines 212-221: a failed write is logged and dropped. *)
Definition save_contacts (cm : ContactManager) : ContactManager :=
  match contacts_df cm with
  | None => cm
  | Some df =>
      if excel_writable cm then mkContactManager (Some df) df (excel_writable cm)
      else cm
  end.

(** [df.loc[mask, 'Status'] = status; df.loc[mask, 'LastContacted'] = now] *)
Definition set_status (phone_clean status now : string) (c : Contact) : Contact :=
  if has_phone phone_clean c
  then mkContact (FullName c) (PhoneNumber c) status (Some now) (Product c)
  else c.

(** [update_contact_status], lines 168-195; [now] is
    [datetime.now().isoformat()]. *)
Definition update_contact_status (phone_number status : string) (save : bool)
    (now : string) (cm : ContactManager) : ContactManager :=
  match contacts_df cm with
  | None => cm
  | Some df =>
      let phone_clean := search_key phone_number in
      if existsb (has_phone phone_clean) df then
        let cm' :=
          mkContactManager (Some (map (set_status phone_clean status now) df))
            (excel cm) (excel_writable cm) in
        if save then save_contacts cm' else cm'
      else cm
  end.

(** [mark_replied], lines 197-210. *)
Definition mark_replied (phone_number : string) (save : bool) (now : string)
    (cm : ContactManager) : ContactManager :=
  match contacts_df cm with
  | None => cm
  | Some df =>
      let phone_clean :=
        PyStr.replace "whatsapp:" "" (_clean_phone_number (Some phone_number)) in
      match List.filter (has_phone phone_clean) df with
      | [] => cm
      | first :: _ =>
          let current := Status first in
          if bool_decide (current = "pending") || bool_decide (current = "contacted")
          then
            let cm' :=
              mkContactManager (Some (map (set_status phone_clean "replied" now) df))
                (excel cm) (excel_writable cm) in
            if save then save_contacts cm' else cm'
          else cm
      end
  end.

Definition count_status (status : string) (df : list Contact) : nat :=
  length (List.filter (fun c => bool_decide (Status c = status)) df).

Record Statistics := mkStatistics {
  total : nat;
  pending : nat;
  contacted : nat;
  qualified : nat;
  disqualified : nat
}.

(** [get_statistics], lines 223-236; [None] is the empty dictionary. *)
Definition get_statistics (cm : ContactManager) : option Statistics :=
  match contacts_df cm with
  | None => None
  | Some df =>
      Some (mkStatistics (length df) (count_status "pending" df)
              (count_status "contacted" df) (count_status "qualified" df)
              (count_status "disqualified" df))
  end.

End Contacts.

(** ** The WhatsApp sender ([whatsapp_sender.py]) *)

(** The two settings [send_message] reads. *)
Record SenderConfig := mkSenderConfig {
  TWILIO_SANDBOX : bool;
  TEST_RECIPIENT_NUMBER : option string
}.

(** The calls of [client.messages.create] made so far, oldest first, each
    with its recipient and its body. *)
Record WhatsAppSender := mkWhatsAppSender {
  api_calls : list (string * string)
}.

(** A recipient of [send_bulk_messages]: the four keys it looks for. *)
Record Recipient := mkRecipient {
  rc_PhoneNumber : option string;
  rc_phone_number : option string;
  rc_FullName : option string;
  rc_name : option string
}.

Record BulkResults := mkBulkResults {
  bulk_total : nat;
  bulk_successful : nat;
  bulk_failed : nat;
  bulk_errors : list (option string)
}.

Module Sender.

(** Python's truth value of an optional string. *)
Definition truthy (x : option string) : bool :=
  match x with
  | Some (String _ _) => true
  | _ => false
  end.

(** [a or b] on optional strings. *)
Definition or_else (a b : option string) : option string :=
  if truthy a then a else b.

Definition no_spaces (s : string) : string := PyStr.replace " " "" s.

Section Client.

Variable config : SenderConfig.

(** Whether [client.messages.create] returns for a recipient and a body; it
    raises otherwise. *)
Variable delivers : string -> string -> bool.

(** The recipient as sent to the API, lines 43-44. *)
Definition whatsapp_address (to_number : string) : string :=
  if PyStr.startswith "whatsapp:" to_number then to_number
  else "whatsapp:" +:+ to_number.

(** The sandbox guard of lines 47-52 lets the address through. *)
Definition sandbox_allows (address : string) : bool :=
  if TWILIO_SANDBOX config && truthy (TEST_RECIPIENT_NUMBER config) then
    bool_decide (no_spaces address
                 = no_spaces (default "" (TEST_RECIPIENT_NUMBER config)))
  else true.

(** [send_message], lines 30-77.  A recipient that is [None] makes
    [to_number.startswith] raise, which the last handler turns into
    [False]. *)
Definition send_message (to_number : option string) (message : string)
    (s : WhatsAppSender) : bool * WhatsAppSender :=
  match to_number with
  | None => (false, s)
  | Some to_number =>
      let address := whatsapp_address to_number in
      if sandbox_allows address then
        (delivers address message,
         mkWhatsAppSender (api_calls s ++ [(address, message)]))
      else (false, s)
  end.

(** One turn of the loop of [send_bulk_messages], lines 97-111. *)
Definition bulk_step (message_template : string) (recipient : Recipient)
    (acc : BulkResults * WhatsAppSender) : BulkResults * WhatsAppSender :=
  let '(results, s) := acc in
  let phone := or_else (rc_PhoneNumber recipient) (rc_phone_number recipient) in
  let name :=
    default "" (or_else (rc_FullName recipient)
                        (Some (default "there" (rc_name recipient)))) in
  let message := PyStr.replace "{name}" name message_template in
  let '(success, s') := send_message phone message s in
  if success then
    (mkBulkResults (bulk_total results) (S (bulk_successful results))
       (bulk_failed results) (bulk_errors results), s')
  else
    (mkBulkResults (bulk_total results) (bulk_successful results)
       (S (bulk_failed results)) (bulk_errors results ++ [phone]), s').

(** [send_bulk_messages], lines 79-115. *)
Definition send_bulk_messages (recipients : list Recipient)
    (message_template : string) (s : WhatsAppSender)
  : BulkResults * WhatsAppSender :=
  fold_left (fun acc recipient => bulk_step message_template recipient acc)
    recipients (mkBulkResults (length recipients) 0 0 [], s).

End Client.

End Sender.

(** ** The outreach script ([send_outreach.py]) *)

Module Outreach.

(** Lines 51-57: the greeting template of the flow, or the fixed text when
    the dialogue manager cannot be built. *)
Definition message_template (flow : option FlowDoc) : string :=
  match flow with
  | Some dialogue_data =>
      default "" (sd_message_template
                    (default no_state (states dialogue_data !! "INITIAL")))
  | None =>
      "Hello {name}! Are you open to a quick eligibility check for our mortgage offer?"
  end.

(** What the campaign leaves behind: the two counts of its summary, the
    contact manager and the sender. *)
Record Campaign := mkCampaign {
  successful : nat;
  failed : nat;
  contact_manager : ContactManager;
  whatsapp_sender : WhatsAppSender
}.

Section Script.

Variable config : SenderConfig.
Variable delivers : string -> string -> bool.

(** [datetime.now().isoformat()] at the turn of the loop with that index. *)
Variable clock : nat -> string.

(** One turn of the loop, lines 63-86; [i] counts from 1. *)
Definition outreach_step (template : string) (dry_run : bool)
    (acc : nat * Campaign) (contact : Contact) : nat * Campaign :=
  let '(i, run) := acc in
  let phone := PhoneNumber contact in
  let name := FullName contact in
  let message := PyStr.replace "{name}" name template in
  let '(success, sender) :=
    if dry_run then (true, whatsapp_sender run)
    else Sender.send_message config delivers (Some phone) message
           (whatsapp_sender run) in
  if success then
    (S i, mkCampaign (S (successful run)) (failed run)
            (Contacts.update_contact_status phone "contacted" false (clock i)
               (contact_manager run))
            sender)
  else
    (S i, mkCampaign (successful run) (S (failed run)) (contact_manager run) sender).

(** [send_outreach_messages], lines 25-110, from the point where the contact
    manager, the sender and the flow have been built; the waiting between
    two messages changes nothing of the state and is left out. *)
Definition send_outreach_messages (limit : option Z) (dry_run : bool)
    (flow : option FlowDoc) (cm : ContactManager) (sender : WhatsAppSender)
  : Campaign :=
  let contacts := Contacts.get_pending_contacts limit cm in
  match contacts with
  | [] => mkCampaign 0 0 cm sender
  | _ =>
      let template := message_template flow in
      let '(_, run) :=
        fold_left (outreach_step template dry_run) contacts
          (1%nat, mkCampaign 0 0 cm sender) in
      mkCampaign (successful run) (failed run)
        (Contacts.save_contacts (contact_manager run)) (whatsapp_sender run)
  end.

End Script.

End Outreach.

(** ** The webhook ([app.py]) *)

(** The fields of the form the webhook reads; [None] is a missing key. *)
Record Form := mkForm {
  From : option string;
  Body : option string;
  ProfileName : option string
}.

Record Server := mkServer {
  dialogue : World;
  contacts : ContactManager
}.

Module App.

Definition apology : string :=
  "Sorry, I encountered an error. Please try again later.".

Section Webhook.

Variable dialogue_data : FlowDoc.
Variable llm : GeminiAdapter.
Variable reply : model_reply.

(** [webhook], lines 39-123; [now] is the time of the status update.  The
    result is the text of the reply and the HTTP status. *)
Definition webhook (form : Form) (now : string) (srv : Server)
  : (string * Z) * Server :=
  let from_number := default "Unknown" (From form) in
  let message_body := PyStr.strip (default "" (Body form)) in
  let profile_name :=
    if Sender.truthy (ProfileName form) then ProfileName form
    else FullName <$> Contacts.get_contact_by_phone from_number (contacts srv) in
  match process_message dialogue_data llm reply from_number message_body
          profile_name (dialogue srv) with
  | (Raise _, w) => ((apology, 200), mkServer w (contacts srv))
  | (Return (response_text, is_end), w) =>
      let '(state, w') :=
        if is_end then
          match get_user_state from_number w with
          | (Return u, w') => (Some u, w')
          | (Raise _, w') => (None, w')
          end
        else (None, w) in
      let cm :=
        if is_end then
          match state with
          | Some u =>
              if bool_decide (outcome u = Some "qualified") then
                Contacts.update_contact_status from_number "qualified" true now
                  (contacts srv)
              else if bool_decide (outcome u = Some "disqualified") then
                Contacts.update_contact_status from_number "disqualified" true now
                  (contacts srv)
              else Contacts.mark_replied from_number true now (contacts srv)
          | None => contacts srv
          end
        else Contacts.mark_replied from_number false now (contacts srv) in
      ((response_text, 200), mkServer w' cm)
  end.

End Webhook.

Record Stats := mkStats {
  total_users : nat;
  active_conversations : nat;
  stat_qualified : nat;
  stat_disqualified : nat
}.

Definition count_users (test : UserState -> bool) (w : World) : nat :=
  length (List.filter test (snd <$> map_to_list (user_states w))).

(** [stats], lines 148-164, over the senders in memory. *)
Definition stats (w : World) : Stats :=
  mkStats (size (user_states w))
    (count_users (fun s => negb (bool_decide (current_state s = "END"))) w)
    (count_users (fun s => bool_decide (outcome s = Some "qualified")) w)
    (count_users (fun s => bool_decide (outcome s = Some "disqualified")) w).

End App.

(** ** Notions for the contact sheet, the sender and the webhook *)

(** A string of digits and plus signs. *)
Definition phone_chars_only (s : string) : bool :=
  forallb Contacts.phone_char (list_ascii_of_string s).

(** A status that [get_statistics] counts in no bucket of its own. *)
Definition other_status (c : Contact) : bool :=
  negb (bool_decide (Status c = "pending") || bool_decide (Status c = "contacted")
        || bool_decide (Status c = "qualified")
        || bool_decide (Status c = "disqualified")).

(** The rows of the sheet in memory. *)
Definition rows (cm : ContactManager) : list Contact := default [] (contacts_df cm).

(** A row after a campaign, against the row before: same name and number,
    and the status kept or turned to contacted. *)
Definition kept_or_contacted (r r' : Contact) : Prop :=
  PhoneNumber r' = PhoneNumber r /\ FullName r' = FullName r /\
  (Status r' = Status r \/ Status r' = "contacted").

(** ** A contact sheet and a sender configuration used in the examples *)

Module SampleSheet.

Definition ahmed : Contact :=
  mkContact "Ahmed Ali" "+971501234567" "pending" None "mortgage".
Definition sarah : Contact :=
  mkContact "Sarah Khan" "+971509876543" "contacted" None "mortgage".
Definition mohammed : Contact :=
  mkContact "Mohammed Hassan" "+971507654321" "qualified" None "mortgage".
Definition layla : Contact :=
  mkContact "Layla Omar" "+971500000001" "contacted" None "mortgage".

Definition sheet : ContactManager :=
  mkContactManager (Some [ahmed; sarah; mohammed; layla])
    [ahmed; sarah; mohammed; layla] true.

Definition sandbox : SenderConfig :=
  mkSenderConfig true (Some "whatsapp:+971501234567").

Definition delivers : string -> string -> bool := fun _ _ => true.

Definition clock : nat -> string := fun _ => "2025-01-15T09:00:00".

Definition now : string := "2025-01-15T10:30:00".

(** A second sender. *)
Definition other_phone : string := "whatsapp:+971500000002".

(** The world of [Sample.at_record] over a store that cannot be written. *)
Definition unwritable (u : UserState) : World :=
  mkWorld {[ Sample.phone := u ]} (mkStore (Some {[ Sample.phone := u ]}) false 0).

Definition inbound_form (body : string) : Form :=
  mkForm (Some Sample.phone) (Some body) None.

(** The statistics of [sheet]. *)
Definition statistics : Contacts.Statistics := Contacts.mkStatistics 4 1 2 1 0.

End SampleSheet.

(** * Properties *)

(** ** The string primitives on examples *)

Example lower_strip_ex : PyStr.strip (PyStr.lower "  YES Please  ") = "yes please".
Proof. reflexivity. Qed.

Example replace_ex : PyStr.replace "{name}" "Ann" "Hi {name}! {name}?" = "Hi Ann! Ann?".
Proof. reflexivity. Qed.

Example findall_ex :
  PyStr.findall_digits "about 7500 aed, 12x"
  = [PyStr.code_points "7500"; PyStr.code_points "12"].
Proof. reflexivity. Qed.

Example int_ex : PyStr.int (PyStr.code_points "007500") = 7500.
Proof. reflexivity. Qed.

(** Digits of other scripts are digits: U+0663 is the Arabic-Indic three,
    U+0665 the five, U+0660 the zero. *)
Example code_points_ex : PyStr.code_points "٣7500" = [1635; 55; 53; 48; 48]%N.
Proof. reflexivity. Qed.

Example arabic_indic_ex :
  extract_income "٣7500" = Some 37500 /\ extract_income "٥٠٠٠ aed" = Some 5000.
Proof. split; reflexivity. Qed.

(** A superscript two is a digit for [str.isdigit] but has no decimal
    value: [\d] does not match it. *)
Example superscript_ex : extract_income "m²" = None.
Proof. reflexivity. Qed.

Example greeting_ex :
  fst (process_message Sample.flow Sample.gemini_off Sample.nudge
         Sample.phone "hello" (Some "Ann") Sample.fresh)
  = Return ("Hi Ann! Interested in a home loan? Reply Yes or No.", false).
Proof. vm_compute. reflexivity. Qed.

(** ** Looking a sender up *)

Section Lookup.

Implicit Types (w : World) (p q : string) (u : UserState).

Lemma get_user_state_run w p :
  get_user_state p w = (Return (resolve w p), loaded w p).
Proof.
  unfold resolve, loaded, get_user_state.
  destruct (user_states w !! p); [done|].
  by destruct (Store.get (store w) p).
Qed.

Lemma loaded_store w p : store (loaded w p) = store w.
Proof.
  unfold loaded, get_user_state.
  destruct (user_states w !! p); [done|].
  by destruct (Store.get (store w) p).
Qed.

Lemma loaded_lookup w p : user_states (loaded w p) !! p = Some (resolve w p).
Proof.
  unfold resolve, loaded, get_user_state.
  destruct (user_states w !! p) eqn:E; [done|].
  destruct (Store.get (store w) p); simpl; by rewrite lookup_insert_eq.
Qed.

Lemma resolve_cached w p u : user_states w !! p = Some u -> resolve w p = u.
Proof. unfold resolve, get_user_state. by intros ->. Qed.

Lemma loaded_cached w p u : user_states w !! p = Some u -> loaded w p = w.
Proof. unfold loaded, get_user_state. by intros ->. Qed.

Lemma resolve_loaded w p : resolve (loaded w p) p = resolve w p.
Proof. apply resolve_cached, loaded_lookup. Qed.

Lemma loaded_idem w p : loaded (loaded w p) p = loaded w p.
Proof. eapply loaded_cached, loaded_lookup. Qed.

(** Looking one sender up does not change the record of any sender. *)
Lemma resolve_loaded_any w p q : resolve (loaded w p) q = resolve w q.
Proof.
  destruct (decide (p = q)) as [->|Hne]; [apply resolve_loaded|].
  unfold resolve at 1 2, get_user_state. rewrite loaded_store.
  assert (user_states (loaded w p) !! q = user_states w !! q) as ->.
  { unfold loaded, get_user_state.
    destruct (user_states w !! p); [done|].
    destruct (Store.get (store w) p); simpl; by rewrite lookup_insert_ne. }
  destruct (user_states w !! q); [done|].
  by destruct (Store.get (store w) q).
Qed.

Lemma resolve_fresh w p :
  user_states w !! p = None -> Store.get (store w) p = None ->
  resolve w p = new_user_state.
Proof. unfold resolve, get_user_state. by intros -> ->. Qed.

(** [update_user_state] in one step. *)
Lemma update_user_state_run w p state data :
  update_user_state p state data w =
  let u := update_data data
             (set_message_count (message_count (resolve w p) + 1)
                (set_current_state state (resolve w p))) in
  (Return tt,
   mkWorld (<[p := u]> (user_states (loaded w p))) (Store.set p u (store w))).
Proof.
  unfold update_user_state, bind. rewrite get_user_state_run. simpl.
  by rewrite loaded_store.
Qed.

(** *** Outcomes are set at the end only *)

Lemma well_kept_resolve w p : well_kept w -> open_or_ended (resolve w p).
Proof.
  intros [Hmem Hfile]. unfold resolve, get_user_state.
  destruct (user_states w !! p) as [u|] eqn:Eu; [by apply (Hmem p)|].
  destruct (Store.get (store w) p) as [u|] eqn:Ef; [by apply (Hfile p)|].
  by left.
Qed.

Lemma well_kept_open w p :
  well_kept w -> current_state (resolve w p) <> "END" -> outcome (resolve w p) = None.
Proof. intros Hw Hne. by destruct (well_kept_resolve w p Hw). Qed.

Lemma well_kept_loaded w p : well_kept w -> well_kept (loaded w p).
Proof.
  intros Hw. pose proof (well_kept_resolve w p Hw) as Hr.
  destruct Hw as [Hmem Hfile]. split.
  - intros q u Hq. destruct (decide (p = q)) as [<-|Hne].
    + rewrite loaded_lookup in Hq. by injection Hq as <-.
    + apply (Hmem q). rewrite <- Hq. unfold loaded, get_user_state.
      destruct (user_states w !! p); [done|].
      destruct (Store.get (store w) p); simpl; by rewrite lookup_insert_ne.
  - rewrite loaded_store. exact Hfile.
Qed.

Lemma well_kept_put w p u :
  well_kept w -> open_or_ended u ->
  well_kept (mkWorld (<[p := u]> (user_states w)) (store w)).
Proof.
  intros [Hmem Hfile] Hu. split; [|exact Hfile]. simpl.
  intros q u' Hq. destruct (decide (p = q)) as [<-|Hne].
  - rewrite lookup_insert_eq in Hq. by injection Hq as <-.
  - rewrite lookup_insert_ne in Hq by done. by apply (Hmem q).
Qed.

Lemma well_kept_store_set w p u :
  well_kept w -> open_or_ended u ->
  well_kept (mkWorld (user_states w) (Store.set p u (store w))).
Proof.
  intros [Hmem Hfile] Hu. split; [exact Hmem|]. simpl.
  intros q u'. unfold Store.get, Store.set, Store._write_all, Store._read_all.
  destruct (writable (store w)) eqn:Hwr; simpl.
  - destruct (decide (p = q)) as [<-|Hne].
    + rewrite lookup_insert_eq. by intros [= <-].
    + rewrite lookup_insert_ne by done. apply (Hfile q).
  - apply (Hfile q).
Qed.

End Lookup.

(** ** Digit runs *)

Section DigitRuns.

Import PyStr.

Lemma append_cons c s t : String c s +:+ t = String c (s +:+ t).
Proof. reflexivity. Qed.


Lemma append_empty cur : cur +:+ "" = cur.
Proof. induction cur as [|x cur IH]; [done|]. by rewrite append_cons, IH. Qed.

(** *** Bytes *)

Ltac by_byte c := destruct c as [[] [] [] [] [] [] [] []]; vm_compute; by auto.

Lemma is_cont_lower_char c : is_cont (lower_char c) = is_cont c.
Proof. by_byte c. Qed.

Lemma cont_lower_char c : cont (lower_char c) = cont c.
Proof. by_byte c. Qed.

Lemma lower_char_high c : (ord c <? 128)%N = false -> lower_char c = c.
Proof. by_byte c. Qed.

Lemma lower_char_low c : (ord c <? 128)%N = true -> (ord (lower_char c) <? 128)%N = true.
Proof. by_byte c. Qed.

Lemma lower_char_decimal c :
  (ord c <? 128)%N = true ->
  is_decimal (ord (lower_char c)) = is_decimal (ord c) /\
  (is_decimal (ord c) = true -> lower_char c = c).
Proof. by_byte c. Qed.

Lemma space_low c : is_space c = true -> (ord c <? 128)%N = true.
Proof. by_byte c. Qed.

Lemma space_not_decimal c : is_space c = true -> is_decimal (ord c) = false.
Proof. by_byte c. Qed.

Lemma space_not_cont c : is_space c = true -> is_cont c = false.
Proof. by_byte c. Qed.

(** *** Characters under lower-casing and trimming *)

Lemma payload_lower n acc s : payload n acc (lower s) = payload n acc s.
Proof.
  revert acc s. induction n as [|n IH]; intros acc [|c s]; simpl; try done.
  by rewrite is_cont_lower_char, cont_lower_char, IH.
Qed.

Lemma code_point_at_low c s : (ord c <? 128)%N = true -> code_point_at c s = (ord c, O).
Proof. intros Hc. unfold code_point_at. cbv zeta. by rewrite Hc. Qed.

(** On ASCII text the characters are the bytes. *)
Lemma code_points_ascii s :
  Forall (fun c => (ord c < 128)%N) (list_ascii_of_string s) ->
  code_points s = map ord (list_ascii_of_string s).
Proof.
  unfold code_points. induction s as [|c s IH]; [done|].
  intros [Hc Hs]%Forall_cons. cbn [code_points_from list_ascii_of_string map].
  rewrite (code_point_at_low c s) by by apply N.ltb_lt.
  simpl. by rewrite IH.
Qed.

(** Lower-casing changes ASCII letters only: a character of several bytes
    is read as before, a character of one byte is a digit or not as before,
    and a digit is left as it is. *)
Lemma code_point_at_lower c s :
  snd (code_point_at (lower_char c) (lower s)) = snd (code_point_at c s) /\
  is_decimal (fst (code_point_at (lower_char c) (lower s)))
    = is_decimal (fst (code_point_at c s)) /\
  (is_decimal (fst (code_point_at c s)) = true ->
   fst (code_point_at (lower_char c) (lower s)) = fst (code_point_at c s)).
Proof.
  destruct (ord c <? 128)%N eqn:Hc.
  - rewrite (code_point_at_low c s Hc).
    rewrite (code_point_at_low _ (lower s) (lower_char_low c Hc)). simpl.
    destruct (lower_char_decimal c Hc) as [Hsame Hkept].
    split; [done|]. split; [done|]. intros Hd. by rewrite Hkept.
  - rewrite (lower_char_high c Hc).
    assert (code_point_at c (lower s) = code_point_at c s) as ->; [|done].
    unfold code_point_at. cbv zeta. by rewrite !payload_lower.
Qed.

(** Lower-casing leaves the digit runs alone. *)
Lemma findall_lower skip cur s :
  findall_digits_from cur (code_points_from skip (lower s))
  = findall_digits_from cur (code_points_from skip s).
Proof.
  revert skip cur. induction s as [|c s IH]; intros skip cur; [done|].
  destruct skip as [|k]; [|apply IH].
  cbn [lower code_points_from findall_digits_from].
  destruct (code_point_at_lower c s) as (-> & -> & Hkept).
  destruct (is_decimal (fst (code_point_at c s))) eqn:Hd.
  - rewrite Hkept by done. apply IH.
  - by rewrite IH.
Qed.

(** So does trimming, on the left and on the right. *)
Lemma findall_lstrip s : findall_digits (lstrip s) = findall_digits s.
Proof.
  induction s as [|c s IH]; simpl; [done|].
  destruct (is_space c) eqn:Hc; [|done].
  rewrite IH. unfold findall_digits, code_points.
  cbn [code_points_from]. rewrite (code_point_at_low c s (space_low c Hc)).
  simpl. by rewrite (space_not_decimal c Hc).
Qed.

Lemma rstrip_step c s :
  rstrip (String c s)
  = match rstrip s with
    | "" => if is_space c then "" else String c ""
    | r => String c r
    end.
Proof. reflexivity. Qed.

Lemma payload_rstrip n acc s : payload n acc (rstrip s) = payload n acc s.
Proof.
  revert n acc. induction s as [|c s IH]; intros n acc; [done|].
  rewrite rstrip_step. destruct n as [|n]; [by destruct (rstrip s), (is_space c)|].
  destruct (rstrip s) as [|x r] eqn:Hr.
  - destruct (is_space c) eqn:Hc; simpl.
    + by rewrite (space_not_cont c Hc).
    + destruct (is_cont c); [|done]. by rewrite <- IH.
  - simpl. destruct (is_cont c); [|done]. rewrite <- IH. done.
Qed.

Lemma code_point_at_rstrip c s : code_point_at c (rstrip s) = code_point_at c s.
Proof. unfold code_point_at. cbv zeta. by rewrite !payload_rstrip. Qed.

Lemma findall_rstrip skip cur s :
  findall_digits_from cur (code_points_from skip (rstrip s))
  = findall_digits_from cur (code_points_from skip s).
Proof.
  revert skip cur. induction s as [|c s IH]; intros skip cur; [done|].
  assert (findall_digits_from cur (code_points_from skip (String c (rstrip s)))
          = findall_digits_from cur (code_points_from skip (String c s))) as Hstep.
  { destruct skip as [|k]; [|apply IH].
    cbn [code_points_from findall_digits_from]. rewrite code_point_at_rstrip.
    destruct (is_decimal _); by rewrite IH. }
  rewrite rstrip_step. destruct (rstrip s) as [|x r] eqn:Hr; [|exact Hstep].
  destruct (is_space c) eqn:Hc; [|exact Hstep].
  rewrite <- Hstep. destruct skip as [|k]; [|done].
  cbn [code_points_from findall_digits_from].
  rewrite (code_point_at_low c "" (space_low c Hc)). simpl.
  rewrite (space_not_decimal c Hc). simpl. by rewrite app_nil_r.
Qed.

Lemma findall_strip_lower s :
  findall_digits (strip (lower s)) = findall_digits s.
Proof.
  unfold strip, findall_digits at 1, code_points. rewrite findall_rstrip.
  fold (code_points (lstrip (lower s))). fold (findall_digits (lstrip (lower s))).
  rewrite findall_lstrip. apply findall_lower.
Qed.

(** *** Runs *)

(** Characters without a digit in front of a run are skipped. *)
Lemma findall_skip a text :
  no_digit a = true -> findall_digits_from [] (a ++ text) = findall_digits_from [] text.
Proof.
  unfold no_digit. induction a as [|cp a IH]; simpl; [done|].
  intros [Hc Ha]%andb_true_iff. apply negb_true_iff in Hc. rewrite Hc. simpl.
  by apply IH.
Qed.

(** A run of digits is read up to the first character that is not one. *)
Lemma findall_run cur run b :
  all_digits run = true -> starts_with_digit b = false ->
  findall_digits_from cur (run ++ b) = flush (cur ++ run) ++ findall_digits_from [] b.
Proof.
  unfold all_digits. revert cur. induction run as [|cp run IH]; intros cur; simpl.
  - intros _ Hb. rewrite app_nil_r.
    destruct b as [|x b]; simpl in *; [by rewrite app_nil_r|].
    by rewrite Hb.
  - intros [Hc Hd]%andb_true_iff Hb.
    rewrite Hc, IH by done. by rewrite <- app_assoc.
Qed.

(** The first maximal run of digits of a message is its first number. *)
Lemma findall_first_run message a run b :
  code_points message = a ++ run ++ b ->
  no_digit a = true -> all_digits run = true -> run <> [] ->
  starts_with_digit b = false ->
  findall_digits (strip (lower message)) = run :: findall_digits_from [] b.
Proof.
  intros Hm Ha Hd Hne Hb. rewrite findall_strip_lower.
  unfold findall_digits. rewrite Hm, findall_skip by done.
  rewrite findall_run by done. simpl. by destruct run.
Qed.

Lemma findall_no_digit s : no_digit (code_points s) = true -> findall_digits s = [].
Proof.
  intros Hs. unfold findall_digits. rewrite <- (app_nil_r (code_points s)).
  by rewrite findall_skip.
Qed.

(** *** The value of a run *)

Lemma int_from_snoc acc run cp :
  int_from acc (run ++ [cp]) = 10 * int_from acc run + digit_value cp.
Proof. revert acc. induction run as [|x run IH]; intros acc; simpl; [done|apply IH]. Qed.

Lemma decimal_range cp v : decimal cp = Some v -> 0 <= v <= 9.
Proof.
  unfold decimal.
  destruct (List.find _ decimal_zeros) as [zero|] eqn:Hfind; [|done].
  intros [= <-]. apply find_some in Hfind as [_ Hin].
  apply andb_true_iff in Hin as [_ Hlt%N.ltb_lt]. lia.
Qed.

Lemma decimal_ascii (i : N) : (i < 10)%N -> decimal (48 + i) = Some (Z.of_N i).
Proof.
  intros Hi. unfold decimal, decimal_zeros. cbn [List.find].
  replace ((48 <=? 48 + i) && (48 + i <? 48 + 10))%N with true.
  - f_equal. lia.
  - symmetry. apply andb_true_iff. split; [apply N.leb_le|apply N.ltb_lt]; lia.
Qed.

End DigitRuns.

(** ** The conversation store *)

Lemma store_get_set_other (st : ConversationStore) (p q : string) (u : UserState) :
  p <> q -> writable st = true ->
  Store.get (Store.set p u st) q = Store.get st q.
Proof.
  intros Hne Hw. unfold Store.get, Store.set, Store._write_all, Store._read_all.
  rewrite Hw. simpl. by rewrite lookup_insert_ne.
Qed.

Lemma store_get_set_same (st : ConversationStore) (p : string) (u : UserState) :
  writable st = true -> Store.get (Store.set p u st) p = Some u.
Proof.
  intros Hw. unfold Store.get, Store.set, Store._write_all, Store._read_all.
  rewrite Hw. simpl. apply lookup_insert_eq.
Qed.

(** C8.  A conversation record written with [ConversationStore.set] is read
    back unchanged, field by field, by [ConversationStore.get], also by a
    process started afterwards with an empty in-memory map; the write is
    one that reaches the file. *)
Theorem store_set_get_roundtrip (st : ConversationStore) (p : string) (u : UserState) :
  writable st = true ->
  Store.get (Store.set p u st) p = Some u /\
  (forall u', Store.get (Store.set p u st) p = Some u' ->
     current_state u' = current_state u /\
     conversation_data u' = conversation_data u /\
     message_count u' = message_count u /\
     retry_count u' = retry_count u /\
     outcome u' = outcome u) /\
  resolve (mkWorld ∅ (Store.set p u st)) p = u.
Proof.
  intros Hw.
  pose proof (store_get_set_same st p u Hw) as Hget.
  split; [exact Hget|]. split.
  - intros u' Hu'. rewrite Hget in Hu'. by injection Hu' as <-.
  - unfold resolve, get_user_state. simpl. rewrite lookup_empty.
    by rewrite Hget.
Qed.

Lemma store_set_get_roundtrip_witness :
  Store.get
    (Store.set Sample.phone
       (mkUserState "QUESTION_3" (Sample.answers 8000) 5 1 None)
       (mkStore None true 0))
    Sample.phone
  = Some (mkUserState "QUESTION_3" (Sample.answers 8000) 5 1 None).
Proof.
  apply (store_set_get_roundtrip (mkStore None true 0) Sample.phone
           (mkUserState "QUESTION_3" (Sample.answers 8000) 5 1 None)).
  reflexivity.
Defined.

(** ** The terminal state *)

Section Engine.

Variable dialogue_data : FlowDoc.
Variable llm : GeminiAdapter.
Variable reply : model_reply.

Implicit Types (w : World) (p q message : string) (u : UserState).

Local Abbreviation process := (process_message dialogue_data llm reply).

Lemma process_message_END w p message user_name :
  current_state (resolve w p) = "END" ->
  process p message user_name w = (Return (closing_message, true), loaded w p).
Proof.
  intros HEND. unfold process_message, bind.
  rewrite get_user_state_run, HEND. reflexivity.
Qed.

(** C3.  Once a sender's record is at [END], every later message gets the
    closing message with [ended = true], nothing is raised, the store is
    left as it is and every sender's record stays what it was. *)
Theorem terminal_idempotent w p (inbound : list (string * option string)) :
  current_state (resolve w p) = "END" ->
  fst (process_all dialogue_data llm reply p inbound w)
    = map (fun _ => Return (closing_message, true)) inbound /\
  store (snd (process_all dialogue_data llm reply p inbound w)) = store w /\
  (forall q, resolve (snd (process_all dialogue_data llm reply p inbound w)) q
             = resolve w q).
Proof.
  revert w. induction inbound as [|[message user_name] rest IH]; intros w HEND.
  - simpl. auto.
  - simpl. rewrite (process_message_END w p message user_name HEND).
    assert (current_state (resolve (loaded w p) p) = "END") as HEND'
      by (by rewrite resolve_loaded).
    destruct (IH _ HEND') as (Hr & Hs & Hq).
    destruct (process_all dialogue_data llm reply p rest (loaded w p))
      as [rs w2] eqn:E.
    simpl in *. split; [by rewrite Hr|]. split.
    + by rewrite Hs, loaded_store.
    + intros q. by rewrite Hq, resolve_loaded_any.
Qed.

(** ** First contact *)

Lemma process_message_INITIAL w p message user_name :
  current_state (resolve w p) = "INITIAL" ->
  process p message user_name w =
  _handle_initial dialogue_data p user_name (loaded w p).
Proof.
  intros HINIT. unfold process_message, bind.
  rewrite get_user_state_run, HINIT. reflexivity.
Qed.

(** C6.  A sender without a record in memory or in the store starts from
    the record [INITIAL], no answers, both counters zero, no outcome; the
    first call answers with the greeting template in which [{name}] is
    replaced by the display name, or by "there" when none is given, and
    does not end the conversation. *)
Theorem first_contact_greeting w p message user_name name :
  user_states w !! p = None ->
  Store.get (store w) p = None ->
  greeted_as user_name name ->
  resolve w p = mkUserState "INITIAL" ∅ 0 0 None /\
  fst (process p message user_name w)
    = Return (PyStr.replace "{name}" name (greeting_template dialogue_data), false).
Proof.
  intros Hmem Hfile Hname.
  pose proof (resolve_fresh w p Hmem Hfile) as Hnew.
  split; [exact Hnew|].
  rewrite process_message_INITIAL by (by rewrite Hnew).
  unfold _handle_initial, bind. rewrite update_user_state_run. simpl.
  unfold greeting_template. destruct Hname as [n Hn| |]; try reflexivity.
  by rewrite bool_decide_eq_false_2.
Qed.

End Engine.

Lemma terminal_idempotent_witness :
  fst (process_all Sample.flow Sample.gemini_on Sample.nudge Sample.phone
         [("hello", None); ("anyone there?", Some "Ann")]
         (Sample.at_state "END" 7))
  = [Return (closing_message, true); Return (closing_message, true)].
Proof.
  apply (terminal_idempotent Sample.flow Sample.gemini_on Sample.nudge
           (Sample.at_state "END" 7) Sample.phone
           [("hello", None); ("anyone there?", Some "Ann")]).
  reflexivity.
Defined.

Lemma first_contact_greeting_witness :
  fst (process_message Sample.flow Sample.gemini_off Sample.nudge
         Sample.phone "hi" None Sample.fresh)
  = Return ("Hi there! Interested in a home loan? Reply Yes or No.", false).
Proof.
  apply (first_contact_greeting Sample.flow Sample.gemini_off Sample.nudge
           Sample.fresh Sample.phone "hi" None "there").
  - reflexivity.
  - reflexivity.
  - constructor.
Defined.

(** ** Answer states *)

Lemma update_data_singleton (k : string) (v : scalar) (u : UserState) :
  update_data (Some {[ k := v ]}) u
  = set_conversation_data (<[k := v]> (conversation_data u)) u.
Proof.
  unfold update_data. rewrite bool_decide_eq_false_2.
  - by rewrite insert_union_singleton_l.
  - apply insert_non_empty.
Qed.

Lemma resolve_written w p u : resolve (written w p u) p = u.
Proof. apply resolve_cached. unfold written. simpl. apply lookup_insert_eq. Qed.

Lemma written_store_get w p u :
  writable (store w) = true -> Store.get (store (written w p u)) p = Some u.
Proof. intros Hw. unfold written. simpl. by apply store_get_set_same. Qed.

Section Answers.

Variable dialogue_data : FlowDoc.
Variable llm : GeminiAdapter.
Variable reply : model_reply.

Implicit Types (w : World) (p q message : string) (u : UserState) (sd : StateDef).

Local Abbreviation process := (process_message dialogue_data llm reply).

Lemma update_user_state_moved w p state :
  update_user_state p state None w
  = (Return tt, written w p (moved_to state (resolve w p))).
Proof. by rewrite update_user_state_run. Qed.

Lemma update_user_state_stored w p state k v :
  update_user_state p state (Some {[ k := v ]}) w
  = (Return tt,
     written w p
       (set_conversation_data
          (<[k := v]> (conversation_data (resolve w p)))
          (moved_to state (resolve w p)))).
Proof.
  rewrite update_user_state_run. cbv zeta. by rewrite update_data_singleton.
Qed.

(** The income answer state, branch by branch. *)
Lemma process_message_income w p message user_name sd :
  current_state (resolve w p) = "AWAITING_ANSWER_2" ->
  states dialogue_data !! "AWAITING_ANSWER_2" = Some sd ->
  process p message user_name w =
  match extract_income (PyStr.strip (PyStr.lower message)) with
  | None =>
      (Return (branch_reply sd sd_on_invalid "Please provide a numeric value.", false),
       loaded w p)
  | Some income =>
      if income <? default 5000 (sd_minimum_income sd) then
        (Return (branch_reply sd sd_on_below_minimum "Thank you for your interest.",
                 true),
         written w p (moved_to "END" (resolve w p)))
      else
        (Return (branch_reply sd sd_on_valid "Thank you!", false),
         written w p
           (set_conversation_data
              (<[default "monthly_income" (sd_store_as sd) := SInt income]>
                 (conversation_data (resolve w p)))
              (moved_to "QUESTION_3" (resolve w p))))
  end.
Proof.
  intros Hcur Hsd. unfold process_message, bind at 1.
  rewrite get_user_state_run, Hcur. cbv zeta.
  rewrite bool_decide_eq_false_2 by done.
  rewrite bool_decide_eq_false_2 by done.
  rewrite Hsd.
  rewrite bool_decide_eq_false_2 by done.
  change (PyStr.startswith "AWAITING_ANSWER" "AWAITING_ANSWER_2") with true.
  cbv iota. unfold _handle_answer, bind at 1.
  rewrite get_user_state_run, Hsd.
  rewrite bool_decide_eq_false_2 by done.
  rewrite bool_decide_eq_true_2 by done.
  rewrite loaded_idem. simpl.
  destruct (extract_income _) as [income|]; [|done].
  destruct (income <? _).
  - unfold bind. rewrite update_user_state_moved.
    unfold written. by rewrite resolve_loaded, loaded_idem, loaded_store.
  - unfold bind. rewrite update_user_state_stored.
    unfold written. by rewrite resolve_loaded, loaded_idem, loaded_store.
Qed.

(** Setting the outcome and closing the conversation. *)
Lemma conclude_run w p v (text : string) :
  (put_user_state p (set_outcome v (resolve w p)) ;;;
   update_user_state p "END" None ;;; ret (text, true)) (loaded w p)
  = (Return (text, true),
     written w p (moved_to "END" (set_outcome v (resolve w p)))).
Proof.
  unfold bind, put_user_state. rewrite update_user_state_moved.
  unfold ret, written. f_equal.
  rewrite (resolve_cached _ p (set_outcome v (resolve w p)))
    by (simpl; apply lookup_insert_eq).
  rewrite (loaded_cached _ p (set_outcome v (resolve w p)))
    by (simpl; apply lookup_insert_eq).
  simpl. by rewrite insert_insert_eq, ?loaded_idem, ?loaded_store.
Qed.

(** The evaluator as a function of the stored answers and the rules. *)
Lemma handle_eligibility_run w p :
  _handle_eligibility dialogue_data p w =
  let u := resolve w p in
  let d := conversation_data u in
  let r := rules_of dialogue_data in
  match income_ok r d with
  | None => (Raise (TypeError ">="), loaded w p)
  | Some enough =>
      if employment_ok r d && enough && residency_ok r d then
        (Return (qualified_message dialogue_data, true),
         written w p (moved_to "END" (set_outcome (Some "qualified") u)))
      else
        (Return (not_qualified_message dialogue_data, true),
         written w p (moved_to "END" (set_outcome (Some "disqualified") u)))
  end.
Proof.
  unfold _handle_eligibility, bind at 1. rewrite get_user_state_run.
  cbv zeta. unfold income_ok, employment_ok, residency_ok, rules_of.
  destruct (default (SInt 0) (conversation_data (resolve w p) !! "monthly_income"))
    as [s|i]; [done|].
  unfold bind at 1. unfold scalar_ge, ret at 1.
  set (pass := _ && _ && _).
  destruct pass; apply conclude_run.
Qed.

(** C7.  At the income answer state the income is the first maximal run
    of digits of the lower-cased, trimmed message, read in base ten.  When
    the characters of the message are [a] without a digit, then the digits
    [run], then [b] that does not start with a digit, the extracted income is
    the integer [int run], stored under the state's field name once it
    reaches the minimum; the run 7500 gives the integer 7500 and, a digit
    of another script being a digit, the Arabic-Indic three before it makes
    the run 37500; the value of a run is ten times the value of the digits
    before the last plus the last digit, and the ASCII digits have the
    values 0 to 9.  A message
    without a digit gets the invalid-input reply, the store and every record
    left as they were.  Digits are the decimal digits of Unicode, as for
    [\d] and [int]; the run has at most 4300 of them, the interpreter's
    limit for the conversion. *)
Theorem income_is_first_digit_run w p message user_name sd :
  current_state (resolve w p) = "AWAITING_ANSWER_2" ->
  states dialogue_data !! "AWAITING_ANSWER_2" = Some sd ->
  (forall a run b,
     PyStr.code_points message = a ++ run ++ b ->
     PyStr.no_digit a = true ->
     run <> [] -> PyStr.all_digits run = true -> (length run <= 4300)%nat ->
     PyStr.starts_with_digit b = false ->
     extract_income (PyStr.strip (PyStr.lower message)) = Some (PyStr.int run) /\
     (default 5000 (sd_minimum_income sd) <= PyStr.int run ->
      exists w',
        process p message user_name w
          = (Return (branch_reply sd sd_on_valid "Thank you!", false), w') /\
        conversation_data (resolve w' p)
          !! default "monthly_income" (sd_store_as sd)
        = Some (SInt (PyStr.int run)))) /\
  (PyStr.int (PyStr.code_points "7500") = 7500 /\
   PyStr.all_digits (PyStr.code_points "٣7500") = true /\
   PyStr.int (PyStr.code_points "٣7500") = 37500 /\
   PyStr.int [] = 0 /\
   (forall run cp v,
      PyStr.decimal cp = Some v ->
      0 <= v <= 9 /\ PyStr.int (run ++ [cp]) = 10 * PyStr.int run + v) /\
   (forall i, (i < 10)%N -> PyStr.decimal (48 + i) = Some (Z.of_N i))) /\
  (PyStr.no_digit (PyStr.code_points message) = true ->
     process p message user_name w
       = (Return (branch_reply sd sd_on_invalid "Please provide a numeric value.",
                  false),
          loaded w p) /\
     store (loaded w p) = store w /\
     (forall q, resolve (loaded w p) q = resolve w q)).
Proof.
  intros Hcur Hsd. split; [|split].
  - intros a run b Hm Ha Hne Hrun _ Hb.
    assert (extract_income (PyStr.strip (PyStr.lower message))
            = Some (PyStr.int run)) as Hinc.
    { unfold extract_income. by rewrite (findall_first_run message a run b). }
    split; [exact Hinc|]. intros Hmin.
    rewrite (process_message_income w p _ user_name sd Hcur Hsd), Hinc.
    rewrite (proj2 (Z.ltb_ge _ _)) by exact Hmin.
    eexists. split; [reflexivity|].
    rewrite resolve_written. simpl. apply lookup_insert_eq.
  - do 4 (split; [reflexivity|]). split; [|apply decimal_ascii].
    intros run cp v Hv. split; [by apply (decimal_range cp)|].
    unfold PyStr.int. rewrite int_from_snoc. unfold PyStr.digit_value.
    by rewrite Hv.
  - intros Hno.
    rewrite (process_message_income w p _ user_name sd Hcur Hsd).
    unfold extract_income.
    rewrite findall_strip_lower, findall_no_digit by done.
    split; [done|]. split; [apply loaded_store|].
    intros q. apply resolve_loaded_any.
Qed.

(** C9.  At the income answer state an income below the configured minimum
    ends the conversation: the sender moves to [END], [ended] is true, and
    the outcome of the record is the one it had.  In a well-kept world, as
    the engine keeps them, that outcome is [None], and it stays [None] in
    memory and in the record written to the store; it is not set to
    disqualified. *)
Theorem below_minimum_keeps_outcome w p message user_name sd income :
  current_state (resolve w p) = "AWAITING_ANSWER_2" ->
  states dialogue_data !! "AWAITING_ANSWER_2" = Some sd ->
  extract_income (PyStr.strip (PyStr.lower message)) = Some income ->
  income < default 5000 (sd_minimum_income sd) ->
  exists w',
    process p message user_name w
      = (Return (branch_reply sd sd_on_below_minimum "Thank you for your interest.",
                 true), w') /\
    current_state (resolve w' p) = "END" /\
    outcome (resolve w' p) = outcome (resolve w p) /\
    (well_kept w \/ outcome (resolve w p) = None ->
     outcome (resolve w' p) = None /\
     (writable (store w) = true ->
      exists u, Store.get (store w') p = Some u /\
                current_state u = "END" /\ outcome u = None)).
Proof.
  intros Hcur Hsd Hinc Hlt.
  rewrite (process_message_income w p _ user_name sd Hcur Hsd), Hinc.
  rewrite (proj2 (Z.ltb_lt _ _)) by exact Hlt.
  eexists. split; [reflexivity|].
  rewrite resolve_written. simpl. split; [done|]. split; [done|].
  intros Hkept.
  assert (outcome (resolve w p) = None) as Hnone.
  { destruct Hkept as [Hkept|Hnone]; [|exact Hnone].
    apply well_kept_open; [exact Hkept|]. by rewrite Hcur. }
  split; [done|]. intros Hw.
  eexists. split; [by apply written_store_get|]. done.
Qed.

(** C10.  An income equal to the configured minimum is not below it: the
    answer is accepted, stored, and the sender moves on to the next
    question; and the evaluator's threshold, when it is the same minimum,
    accepts that value, so answers whose other two rules pass qualify. *)
Theorem income_at_minimum_passes w p message user_name sd m :
  current_state (resolve w p) = "AWAITING_ANSWER_2" ->
  states dialogue_data !! "AWAITING_ANSWER_2" = Some sd ->
  default 5000 (sd_minimum_income sd) = m ->
  extract_income (PyStr.strip (PyStr.lower message)) = Some m ->
  (exists w',
     process p message user_name w
       = (Return (branch_reply sd sd_on_valid "Thank you!", false), w') /\
     current_state (resolve w' p) = "QUESTION_3" /\
     conversation_data (resolve w' p)
       !! default "monthly_income" (sd_store_as sd) = Some (SInt m)) /\
  (forall w2 q,
     default 5000 (r_monthly_income_minimum (rules_of dialogue_data)) = m ->
     conversation_data (resolve w2 q) !! "monthly_income" = Some (SInt m) ->
     employment_ok (rules_of dialogue_data) (conversation_data (resolve w2 q)) = true ->
     residency_ok (rules_of dialogue_data) (conversation_data (resolve w2 q)) = true ->
     exists w3,
       _handle_eligibility dialogue_data q w2
         = (Return (qualified_message dialogue_data, true), w3) /\
       outcome (resolve w3 q) = Some "qualified").
Proof.
  intros Hcur Hsd Hmin Hinc. split.
  - rewrite (process_message_income w p _ user_name sd Hcur Hsd), Hinc, Hmin.
    rewrite Z.ltb_irrefl.
    eexists. split; [reflexivity|].
    rewrite resolve_written. simpl. split; [done|]. apply lookup_insert_eq.
  - intros w2 q Hrule Hstored Hemp Hres.
    rewrite handle_eligibility_run. cbv zeta.
    unfold income_ok. rewrite Hstored, Hrule, Hemp, Hres. simpl.
    rewrite Z.leb_refl. simpl.
    eexists. split; [reflexivity|]. by rewrite resolve_written.
Qed.

End Answers.

(** ** Calls that only re-prompt *)

Section Reprompts.

Variable dialogue_data : FlowDoc.
Variable llm : GeminiAdapter.
Variable reply : model_reply.

Implicit Types (w : World) (p q message : string) (u : UserState) (sd : StateDef).

Local Abbreviation process := (process_message dialogue_data llm reply).

(** The routing of [process_message] for a state of the flow document. *)
Lemma process_message_route w p message user_name sd :
  current_state (resolve w p) <> "INITIAL" ->
  current_state (resolve w p) <> "END" ->
  states dialogue_data !! current_state (resolve w p) = Some sd ->
  process p message user_name w =
  (let id := current_state (resolve w p) in
   let m := PyStr.strip (PyStr.lower message) in
   if bool_decide (id = "AWAITING_INTEREST")
   then _handle_interest_response dialogue_data llm reply p m
   else if PyStr.startswith "AWAITING_ANSWER" id
   then _handle_answer dialogue_data p m id
   else if bool_decide (id = "EVALUATE_ELIGIBILITY")
   then _handle_eligibility dialogue_data p
   else if PyStr.startswith "QUESTION" id
   then _handle_question p sd
   else _handle_error dialogue_data p) (loaded w p).
Proof.
  intros Hi He Hsd. unfold process_message, bind at 1.
  rewrite get_user_state_run. cbv zeta.
  rewrite !bool_decide_eq_false_2 by done. by rewrite Hsd.
Qed.

(** The unclear branch of the gate, generator disabled: the static text. *)
Lemma gate_unclear_disabled w p m sd :
  states dialogue_data !! "AWAITING_INTEREST" = Some sd ->
  PyStr.any_in (default [] (sd_positive_keywords sd)) m = false ->
  PyStr.any_in (default [] (sd_negative_keywords sd)) m = false ->
  is_enabled llm = false ->
  _handle_interest_response dialogue_data llm reply p m w
  = (Return (branch_reply sd sd_on_unclear "Please reply with Yes or No.", false), w).
Proof.
  intros Hsd Hpos Hneg Hoff. unfold _handle_interest_response.
  rewrite Hsd. simpl. by rewrite Hpos, Hneg, Hoff.
Qed.

(** The unclear branch of the gate, generator enabled: line 189 reads the
    unbound name and the call raises, whatever the retry count. *)
Lemma gate_unclear_enabled w p m sd :
  states dialogue_data !! "AWAITING_INTEREST" = Some sd ->
  PyStr.any_in (default [] (sd_positive_keywords sd)) m = false ->
  PyStr.any_in (default [] (sd_negative_keywords sd)) m = false ->
  is_enabled llm = true ->
  _handle_interest_response dialogue_data llm reply p m w
  = (Raise (NameError "user_state"), w).
Proof.
  intros Hsd Hpos Hneg Hon. unfold _handle_interest_response.
  rewrite Hsd. simpl. by rewrite Hpos, Hneg, Hon.
Qed.

Lemma handle_answer_reprompt w p m id :
  reprompts dialogue_data llm id m -> id <> "AWAITING_INTEREST" ->
  exists text,
    _handle_answer dialogue_data p m id (loaded w p)
    = (Return (text, false), loaded w p).
Proof.
  intros Hre Hid. unfold _handle_answer, bind at 1.
  rewrite get_user_state_run, loaded_idem.
  destruct Hre as [m sd Hsd H1 H2|m sd Hsd Hinc|m sd Hsd H1 H2
                  |id m sd Hsd Hpre Hn1 Hn2 Hn3|m sd Hsd H1 H2 Hoff];
    [| | | |done]; rewrite Hsd.
  - simpl. rewrite H1, H2. by eexists.
  - simpl. rewrite Hinc. by eexists.
  - simpl. rewrite H1, H2. by eexists.
  - rewrite !bool_decide_eq_false_2 by done. by eexists.
Qed.

(** C5, as the engine has it.  A call that only re-prompts, for an invalid
    answer at one of the three answer states or for an unclear reply at the
    gate while the generator is disabled, answers without ending the
    conversation and writes nothing: the store is not written, and every
    record keeps its state identifier and both counters. *)
Theorem reprompt_writes_nothing w p message user_name :
  reprompts dialogue_data llm (current_state (resolve w p))
    (PyStr.strip (PyStr.lower message)) ->
  exists text w',
    process p message user_name w = (Return (text, false), w') /\
    ~ store_written w w' /\
    store w' = store w /\
    (forall q, resolve w' q = resolve w q).
Proof.
  intros Hre.
  assert (exists sd, states dialogue_data !! current_state (resolve w p) = Some sd)
    as [sd Hsd] by (destruct Hre; eauto).
  assert (current_state (resolve w p) <> "INITIAL") as Hi
    by (intros E; rewrite E in Hre; inversion Hre; discriminate).
  assert (current_state (resolve w p) <> "END") as He
    by (intros E; rewrite E in Hre; inversion Hre; discriminate).
  assert (exists text,
    process p message user_name w = (Return (text, false), loaded w p))
    as [text Hrun].
  { rewrite (process_message_route w p message user_name sd Hi He Hsd). cbv zeta.
    destruct (decide (current_state (resolve w p) = "AWAITING_INTEREST")) as [E|E].
    - rewrite bool_decide_eq_true_2 by done. rewrite E in Hre.
      inversion Hre as [| | |id m sd' Hsd' Hpre|m sd' Hsd' H1 H2 Hoff]; subst;
        [discriminate|].
      eexists. by apply gate_unclear_disabled.
    - rewrite bool_decide_eq_false_2 by done.
      assert (PyStr.startswith "AWAITING_ANSWER" (current_state (resolve w p)) = true)
        as -> by (destruct Hre; done).
      by apply handle_answer_reprompt. }
  exists text, (loaded w p). split; [exact Hrun|].
  unfold store_written. rewrite loaded_store. split; [lia|]. split; [done|].
  intros q. apply resolve_loaded_any.
Qed.

(** Whatever the flow, the sender and the retry count: an unclear reply at
    the gate raises as soon as the generator is enabled. *)
Lemma process_message_gate_enabled w p message user_name sd :
  current_state (resolve w p) = "AWAITING_INTEREST" ->
  states dialogue_data !! "AWAITING_INTEREST" = Some sd ->
  PyStr.any_in (default [] (sd_positive_keywords sd))
    (PyStr.strip (PyStr.lower message)) = false ->
  PyStr.any_in (default [] (sd_negative_keywords sd))
    (PyStr.strip (PyStr.lower message)) = false ->
  is_enabled llm = true ->
  process p message user_name w = (Raise (NameError "user_state"), loaded w p).
Proof.
  intros Hcur Hsd Hpos Hneg Hon.
  rewrite (process_message_route w p message user_name sd);
    rewrite ?Hcur; [|done..].
  by apply (gate_unclear_enabled _ _ _ sd).
Qed.

End Reprompts.

Example no_income_flow_run :
  fst (process_all Sample.no_income_flow Sample.gemini_off Sample.nudge Sample.phone
         [("hi", None); ("Yes please", None); ("ok", None); ("Salaried", None);
          ("ok", None); ("Expat", None)]
         Sample.fresh)
  = [Return ("Hi there! Interested in a home loan? Reply Yes or No.", false);
     Return ("Great! A few quick questions.", false);
     Return ("Are you salaried or self-employed?", false);
     Return ("Got it!", false);
     Return ("UAE National or Expatriate?", false);
     Return ("You qualify! Book a call: https://calendly.com/advisor", true)].
Proof. vm_compute. reflexivity. Qed.

Example no_income_flow_answers :
  conversation_data
    (resolve
       (snd (process_all Sample.no_income_flow Sample.gemini_off Sample.nudge
               Sample.phone
               [("hi", None); ("Yes please", None); ("ok", None); ("Salaried", None);
                ("ok", None); ("Expat", None)]
               Sample.fresh))
       Sample.phone)
  = Sample.two_answers.
Proof. vm_compute. reflexivity. Qed.

(** ** Eligibility *)

Section Eligibility.

Variable dialogue_data : FlowDoc.

Implicit Types (w : World) (p q : string) (d : gmap string scalar) (r : Rules).

Lemma eligibility_decided w p enough :
  income_ok (rules_of dialogue_data) (conversation_data (resolve w p)) = Some enough ->
  let pass :=
    employment_ok (rules_of dialogue_data) (conversation_data (resolve w p))
    && enough
    && residency_ok (rules_of dialogue_data) (conversation_data (resolve w p)) in
  exists w',
    _handle_eligibility dialogue_data p w
      = (Return (if pass then qualified_message dialogue_data
                 else not_qualified_message dialogue_data, true), w') /\
    outcome (resolve w' p) = Some (if pass then "qualified" else "disqualified") /\
    current_state (resolve w' p) = "END".
Proof.
  intros Hinc pass. rewrite handle_eligibility_run. cbv zeta. rewrite Hinc.
  fold pass. destruct pass; eexists; (split; [reflexivity|]);
    by rewrite resolve_written.
Qed.

(** C4, as the engine has it.  The evaluator is a function of the stored
    answers and the rules: it qualifies exactly when the three rules pass
    together, and two evaluations over equal answers give equal results.
    A missing field is read as the empty string (employment, residency) or
    as 0 (income), so it fails its rule when the rule's list does not hold
    the empty string, respectively when the minimum is positive.  With the
    rules salaried or self-employed, minimum 5000, national or expatriate,
    the answers salaried, 8000, expatriate qualify and the reply is the
    template with the scheduling link put in; with 3000 they are
    disqualified; both end the conversation. *)
Theorem eligibility_by_rules w p :
  let d := conversation_data (resolve w p) in
  let r := rules_of dialogue_data in
  (forall enough,
     income_ok r d = Some enough ->
     exists w',
       _handle_eligibility dialogue_data p w
         = (Return (if employment_ok r d && enough && residency_ok r d
                    then qualified_message dialogue_data
                    else not_qualified_message dialogue_data, true), w') /\
       outcome (resolve w' p)
         = Some (if employment_ok r d && enough && residency_ok r d
                 then "qualified" else "disqualified") /\
       current_state (resolve w' p) = "END") /\
  (forall w2 p2,
     conversation_data (resolve w2 p2) = d ->
     fst (_handle_eligibility dialogue_data p2 w2)
       = fst (_handle_eligibility dialogue_data p w) /\
     (is_Some (income_ok r d) ->
      outcome (resolve (snd (_handle_eligibility dialogue_data p2 w2)) p2)
        = outcome (resolve (snd (_handle_eligibility dialogue_data p w)) p))) /\
  (d !! "employment_type" = None -> "" ∉ default [] (r_employment_type r) ->
     employment_ok r d = false) /\
  (d !! "residency_status" = None -> "" ∉ default [] (r_residency_status r) ->
     residency_ok r d = false) /\
  (d !! "monthly_income" = None -> 0 < default 5000 (r_monthly_income_minimum r) ->
     income_ok r d = Some false) /\
  (r = mkRules (Some ["salaried"; "self-employed"]) (Some 5000)
               (Some ["uae_national"; "expatriate"]) ->
   d !! "employment_type" = Some (SStr "salaried") ->
   d !! "residency_status" = Some (SStr "expatriate") ->
   (d !! "monthly_income" = Some (SInt 8000) ->
    exists w',
      _handle_eligibility dialogue_data p w
        = (Return (PyStr.replace "{calendly_link}" (calendly_link dialogue_data)
                     (qualified_template dialogue_data), true), w') /\
      outcome (resolve w' p) = Some "qualified") /\
   (d !! "monthly_income" = Some (SInt 3000) ->
    exists w',
      _handle_eligibility dialogue_data p w
        = (Return (not_qualified_message dialogue_data, true), w') /\
      outcome (resolve w' p) = Some "disqualified")).
Proof.
  intros d r. split; [|split; [|split; [|split; [|split]]]].
  - intros enough Hinc. by apply eligibility_decided.
  - intros w2 p2 Hd. rewrite !handle_eligibility_run. cbv zeta. rewrite Hd.
    fold d r. destruct (income_ok r d) as [enough|] eqn:Hinc.
    + destruct (employment_ok r d && enough && residency_ok r d); simpl;
        by rewrite !resolve_written.
    + split; [done|]. by intros [? ?].
  - intros Hmiss Hno. unfold employment_ok. rewrite Hmiss. simpl.
    by apply bool_decide_eq_false_2.
  - intros Hmiss Hno. unfold residency_ok. rewrite Hmiss. simpl.
    by apply bool_decide_eq_false_2.
  - intros Hmiss Hpos. unfold income_ok. rewrite Hmiss. simpl. f_equal.
    apply Z.leb_gt. exact Hpos.
  - intros Hr Hemp Hres. split; intros Hinc.
    + destruct (eligibility_decided w p true) as (w' & Hrun & Hout & _).
      { fold d r. unfold income_ok. by rewrite Hinc, Hr. }
      fold d r in Hrun, Hout.
      assert (employment_ok r d && true && residency_ok r d = true) as Hpass.
      { unfold employment_ok, residency_ok. by rewrite Hemp, Hres, Hr. }
      rewrite Hpass in Hrun, Hout. by exists w'.
    + destruct (eligibility_decided w p false) as (w' & Hrun & Hout & _).
      { fold d r. unfold income_ok. by rewrite Hinc, Hr. }
      fold d r in Hrun, Hout.
      rewrite andb_false_r in Hrun, Hout. by exists w'.
Qed.

End Eligibility.

(** ** The engine keeps outcomes for ended conversations *)

Lemma well_kept_written w p u :
  well_kept w -> open_or_ended u -> well_kept (written w p u).
Proof.
  intros Hw Hu. unfold written. rewrite <- (loaded_store w p).
  pose proof (well_kept_put (loaded w p) p u (well_kept_loaded w p Hw) Hu) as Hput.
  exact (well_kept_store_set _ p u Hput Hu).
Qed.

Lemma open_moved_to state u : outcome u = None -> open_or_ended (moved_to state u).
Proof. intros Hu. by left. Qed.

Lemma open_stored state d u :
  outcome u = None -> open_or_ended (set_conversation_data d (moved_to state u)).
Proof. intros Hu. by left. Qed.

Lemma ended_moved_to u : open_or_ended (moved_to "END" u).
Proof. by right. Qed.

Section Invariant.

Variable dialogue_data : FlowDoc.
Variable llm : GeminiAdapter.
Variable reply : model_reply.

Implicit Types (w : World) (p q message : string) (u : UserState) (sd : StateDef).

Lemma handle_eligibility_well_kept w p :
  well_kept w -> well_kept (snd (_handle_eligibility dialogue_data p w)).
Proof.
  intros Hw. rewrite handle_eligibility_run. cbv zeta.
  destruct (income_ok _ _) as [enough|]; [|by apply well_kept_loaded].
  destruct (_ && _ && _); simpl; apply well_kept_written; auto using ended_moved_to.
Qed.

Lemma handle_error_well_kept w p :
  well_kept w -> well_kept (snd (_handle_error dialogue_data p w)).
Proof.
  intros Hw. unfold _handle_error, bind. rewrite update_user_state_moved. simpl.
  apply well_kept_written; auto using ended_moved_to.
Qed.

Lemma handle_question_well_kept w p sd :
  well_kept w -> outcome (resolve w p) = None ->
  well_kept (snd (_handle_question p sd w)).
Proof.
  intros Hw Hopen. unfold _handle_question, bind. rewrite update_user_state_moved.
  simpl. apply well_kept_written; auto using open_moved_to.
Qed.

Lemma handle_initial_well_kept w p user_name :
  well_kept w -> outcome (resolve w p) = None ->
  well_kept (snd (_handle_initial dialogue_data p user_name w)).
Proof.
  intros Hw Hopen. unfold _handle_initial, bind. rewrite update_user_state_moved.
  simpl. apply well_kept_written; auto using open_moved_to.
Qed.

Lemma handle_interest_response_well_kept w p m :
  well_kept w -> outcome (resolve w p) = None ->
  well_kept (snd (_handle_interest_response dialogue_data llm reply p m w)).
Proof.
  intros Hw Hopen. unfold _handle_interest_response.
  destruct (PyStr.any_in _ m).
  { unfold bind. rewrite update_user_state_moved. simpl.
    apply well_kept_written; auto using open_moved_to. }
  destruct (PyStr.any_in _ m).
  { unfold bind. rewrite update_user_state_moved. simpl.
    apply well_kept_written; auto using ended_moved_to. }
  by destruct (is_enabled llm).
Qed.

Lemma handle_answer_well_kept w p m id :
  well_kept w -> outcome (resolve w p) = None ->
  well_kept (snd (_handle_answer dialogue_data p m id w)).
Proof.
  intros Hw Hopen. pose proof (well_kept_loaded w p Hw) as Hl.
  assert (outcome (resolve (loaded w p) p) = None) as Hopen'
    by (by rewrite resolve_loaded).
  unfold _handle_answer, bind at 1. rewrite get_user_state_run.
  repeat case_bool_decide.
  - repeat (destruct (PyStr.any_in _ m));
      try (unfold bind; rewrite update_user_state_stored; simpl;
           apply well_kept_written; auto using open_stored); done.
  - destruct (extract_income m) as [income|]; [|done].
    destruct (income <? _); unfold bind.
    + rewrite update_user_state_moved. simpl.
      apply well_kept_written; auto using ended_moved_to.
    + rewrite update_user_state_stored. simpl.
      apply well_kept_written; auto using open_stored.
  - repeat (destruct (PyStr.any_in _ m));
      try (unfold bind at 1; rewrite update_user_state_stored;
           apply handle_eligibility_well_kept;
           apply well_kept_written; auto using open_stored); done.
  - done.
Qed.

(** Every call of [process_message] leaves a well-kept world well kept,
    whether it returns or raises. *)
Lemma process_message_well_kept w p message user_name :
  well_kept w ->
  well_kept (snd (process_message dialogue_data llm reply p message user_name w)).
Proof.
  intros Hw. pose proof (well_kept_loaded w p Hw) as Hl.
  unfold process_message, bind at 1. rewrite get_user_state_run. cbv zeta.
  case_bool_decide as Hi.
  { apply handle_initial_well_kept; [done|].
    rewrite resolve_loaded. apply well_kept_open; [done|]. by rewrite Hi. }
  case_bool_decide as He; [done|].
  assert (outcome (resolve (loaded w p) p) = None) as Hopen
    by (rewrite resolve_loaded; by apply well_kept_open).
  destruct (states dialogue_data !! _) as [sd|];
    [|by apply handle_error_well_kept].
  case_bool_decide; [by apply handle_interest_response_well_kept|].
  destruct (PyStr.startswith "AWAITING_ANSWER" _);
    [by apply handle_answer_well_kept|].
  case_bool_decide; [by apply handle_eligibility_well_kept|].
  destruct (PyStr.startswith "QUESTION" _);
    [by apply handle_question_well_kept|by apply handle_error_well_kept].
Qed.

Lemma process_all_well_kept w p inbound :
  well_kept w ->
  well_kept (snd (process_all dialogue_data llm reply p inbound w)).
Proof.
  revert w. induction inbound as [|[message user_name] rest IH]; intros w Hw; [done|].
  simpl.
  pose proof (process_message_well_kept w p message user_name Hw) as Hstep.
  destruct (process_message dialogue_data llm reply p message user_name w)
    as [r w1].
  specialize (IH w1 Hstep).
  by destruct (process_all dialogue_data llm reply p rest w1).
Qed.

End Invariant.

Lemma fresh_well_kept (writes_so_far : nat) (can_write : bool) :
  well_kept (mkWorld ∅ (mkStore (Some ∅) can_write writes_so_far)).
Proof.
  split; intros q u; unfold Store.get, Store._read_all; simpl;
    by rewrite lookup_empty.
Qed.

(** ** The properties on the sample flow *)

Lemma income_is_first_digit_run_witness :
  extract_income (PyStr.strip (PyStr.lower "About 7500 AED ")) = Some 7500.
Proof.
  destruct (income_is_first_digit_run Sample.flow Sample.gemini_off Sample.nudge
              (Sample.at_state "AWAITING_ANSWER_2" 4) Sample.phone
              "About 7500 AED " None Sample.income_answer
              eq_refl eq_refl) as [Hrun _].
  destruct (Hrun (PyStr.code_points "About ") (PyStr.code_points "7500")
              (PyStr.code_points " AED "))
    as [Hinc _].
  - reflexivity.
  - reflexivity.
  - discriminate.
  - reflexivity.
  - simpl. lia.
  - reflexivity.
  - exact Hinc.
Defined.

Example income_stored_ex :
  conversation_data
    (resolve
       (snd (process_message Sample.flow Sample.gemini_off Sample.nudge Sample.phone
               "about 7500 aed" None (Sample.at_state "AWAITING_ANSWER_2" 4)))
       Sample.phone) !! "monthly_income"
  = Some (SInt 7500).
Proof. vm_compute. reflexivity. Qed.

Lemma below_minimum_keeps_outcome_witness :
  exists w',
    process_message Sample.flow Sample.gemini_off Sample.nudge Sample.phone
      "3000 dirhams" None (Sample.at_state "AWAITING_ANSWER_2" 4)
    = (Return ("Thank you for your interest. We cannot help right now.", true), w') /\
    current_state (resolve w' Sample.phone) = "END" /\
    outcome (resolve w' Sample.phone) = None.
Proof.
  destruct (below_minimum_keeps_outcome Sample.flow Sample.gemini_off Sample.nudge
              (Sample.at_state "AWAITING_ANSWER_2" 4) Sample.phone
              "3000 dirhams" None Sample.income_answer 3000
              eq_refl eq_refl eq_refl eq_refl)
    as (w' & Hrun & Hend & Hout & _).
  exists w'. split; [exact Hrun|]. split; [exact Hend|]. exact Hout.
Defined.

Lemma income_at_minimum_passes_witness :
  exists w',
    process_message Sample.flow Sample.gemini_off Sample.nudge Sample.phone
      "5000" None (Sample.at_state "AWAITING_ANSWER_2" 4)
    = (Return ("Thank you!", false), w') /\
    current_state (resolve w' Sample.phone) = "QUESTION_3" /\
    conversation_data (resolve w' Sample.phone) !! "monthly_income"
    = Some (SInt 5000).
Proof.
  destruct (income_at_minimum_passes Sample.flow Sample.gemini_off Sample.nudge
              (Sample.at_state "AWAITING_ANSWER_2" 4) Sample.phone
              "5000" None Sample.income_answer 5000
              eq_refl eq_refl eq_refl eq_refl)
    as [Hrun _].
  exact Hrun.
Defined.

Lemma reprompt_writes_nothing_witness :
  exists text w',
    process_message Sample.flow Sample.gemini_off Sample.nudge Sample.phone
      "no idea" None (Sample.at_state "AWAITING_ANSWER_2" 4)
    = (Return (text, false), w') /\
    ~ store_written (Sample.at_state "AWAITING_ANSWER_2" 4) w'.
Proof.
  destruct (reprompt_writes_nothing Sample.flow Sample.gemini_off Sample.nudge
              (Sample.at_state "AWAITING_ANSWER_2" 4) Sample.phone "no idea" None)
    as (text & w' & Hrun & Hnot & _).
  { change (reprompts Sample.flow Sample.gemini_off "AWAITING_ANSWER_2" "no idea").
    apply (reprompt_income _ _ _ Sample.income_answer); reflexivity. }
  exists text, w'. split; [exact Hrun|exact Hnot].
Defined.

(** C5, as stated, fails.  The sender is at the employment answer state with
    three messages counted, the message "hello" matches no keyword: the engine
    answers with the invalid-input text and stays in the state, and the store
    has not been written. *)
Lemma reprompt_persists_counters_fails :
  ~ reprompt_persists_counters Sample.flow Sample.gemini_off Sample.nudge
      (Sample.at_state "AWAITING_ANSWER_1" 3) Sample.phone "hello" None.
Proof.
  intros Hclaim.
  destruct (Hclaim "Please answer Salaried or Self-employed."
              (Sample.at_state "AWAITING_ANSWER_1" 3)) as [Hwritten _].
  - vm_compute. reflexivity.
  - reflexivity.
  - unfold store_written in Hwritten. simpl in Hwritten. lia.
Qed.

Lemma eligibility_by_rules_witness :
  exists w',
    _handle_eligibility Sample.flow Sample.phone
      (Sample.at_record
         (mkUserState "EVALUATE_ELIGIBILITY" (Sample.answers 8000) 6 0 None))
    = (Return ("You qualify! Book a call: https://calendly.com/advisor", true), w') /\
    outcome (resolve w' Sample.phone) = Some "qualified".
Proof.
  destruct (eligibility_by_rules Sample.flow
              (Sample.at_record
                 (mkUserState "EVALUATE_ELIGIBILITY" (Sample.answers 8000) 6 0 None))
              Sample.phone)
    as (_ & _ & _ & _ & _ & Hexample).
  destruct (Hexample eq_refl eq_refl eq_refl) as [Hqualified _].
  exact (Hqualified eq_refl).
Defined.

Example disqualified_ex :
  fst (_handle_eligibility Sample.flow Sample.phone
         (Sample.at_record
            (mkUserState "EVALUATE_ELIGIBILITY" (Sample.answers 3000) 6 0 None)))
  = Return ("Thank you for your time.", true).
Proof. vm_compute. reflexivity. Qed.

(** C4, as stated, fails.  With the evaluator's minimum at 0 and no income
    among the answers, the missing field passes its rule and the sender is
    qualified. *)
Lemma missing_field_fails_fails :
  ~ missing_field_fails Sample.no_income_flow
      (Sample.at_record
         (mkUserState "EVALUATE_ELIGIBILITY" Sample.two_answers 5 0 None))
      Sample.phone.
Proof.
  intros Hclaim.
  set (w := Sample.at_record
              (mkUserState "EVALUATE_ELIGIBILITY" Sample.two_answers 5 0 None)) in *.
  assert (outcome
            (resolve (snd (_handle_eligibility Sample.no_income_flow Sample.phone w))
               Sample.phone)
          = Some "disqualified") as Hout.
  { apply (Hclaim
             (ltac:(exists "monthly_income"; split; [set_solver|reflexivity]))
             "You qualify! Book a call: https://calendly.com/advisor").
    vm_compute. reflexivity. }
  vm_compute in Hout. discriminate Hout.
Qed.

(** C1 at the failing input.  The sender is at the Yes/No gate, the generator
    is enabled and the message matches no keyword: the call raises
    [NameError] instead of returning a reply. *)
Theorem unclear_reply_raises_with_generator :
  process_message Sample.flow Sample.gemini_on Sample.nudge Sample.phone
    "maybe later" (Some "Ann") (Sample.at_state "AWAITING_INTEREST" 1)
  = (Raise (NameError "user_state"), Sample.at_state "AWAITING_INTEREST" 1).
Proof. vm_compute. reflexivity. Qed.

(** C2 at the failing input.  With the cap at 2, the generator enabled and a
    retry count of 0, the first unclear attempt raises before the counter is
    touched: the retry count is still 0, in memory and in the store, and
    the store has not been written. *)
Theorem first_unclear_attempt_raises_uncounted :
  let w := Sample.at_state "AWAITING_INTEREST" 1 in
  let run := process_message Sample.flow Sample.gemini_on Sample.nudge Sample.phone
               "what is this?" None w in
  eh_max_retries (error_handling Sample.flow) = Some 2 /\
  is_enabled Sample.gemini_on = true /\
  retry_count (resolve w Sample.phone) = 0 /\
  fst run = Raise (NameError "user_state") /\
  retry_count (resolve (snd run) Sample.phone) = 0 /\
  (retry_count <$> Store.get (store (snd run)) Sample.phone) = Some 0 /\
  ~ store_written w (snd run).
Proof.
  cbv zeta. repeat split; try (vm_compute; reflexivity).
  unfold store_written. vm_compute. lia.
Qed.

(** With the generator disabled the same attempt gets the static text. *)
Example unclear_reply_without_generator :
  process_message Sample.flow Sample.gemini_off Sample.nudge Sample.phone
    "what is this?" None (Sample.at_state "AWAITING_INTEREST" 1)
  = (Return ("Sorry, I did not get that. Please reply Yes or No.", false),
     Sample.at_state "AWAITING_INTEREST" 1).
Proof. vm_compute. reflexivity. Qed.

(** A whole conversation that stops at the income question: the record ends
    at [END] without an outcome. *)
Example below_minimum_run :
  let run := process_all Sample.flow Sample.gemini_off Sample.nudge Sample.phone
               [("hi", Some "Ann"); ("yes", None); ("ok", None); ("salaried", None);
                ("ok", None); ("around 3000", None)]
               Sample.fresh in
  last (fst run)
    = Some (Return ("Thank you for your interest. We cannot help right now.", true)) /\
  Store.get (store (snd run)) Sample.phone
    = Some (mkUserState "END" {[ "employment_type" := SStr "salaried" ]} 6 0 None).
Proof. vm_compute. split; reflexivity. Qed.

(** * The rest of the engine *)

(** ** What a call can do to the world *)

Lemma store_get_set_frame (st : ConversationStore) (p q : string) (u : UserState) :
  p <> q -> Store.get (Store.set p u st) q = Store.get st q.
Proof.
  intros Hne. unfold Store.get, Store.set, Store._write_all, Store._read_all.
  destruct (writable st); simpl; [|done]. by rewrite lookup_insert_ne.
Qed.

Lemma loaded_lookup_other w p q :
  p <> q -> user_states (loaded w p) !! q = user_states w !! q.
Proof.
  intros Hne. unfold loaded, get_user_state.
  destruct (user_states w !! p); [done|].
  destruct (Store.get (store w) p); simpl; by rewrite lookup_insert_ne.
Qed.

Lemma resolve_written_other w p q u :
  p <> q -> resolve (written w p u) q = resolve w q.
Proof.
  intros Hne. unfold resolve at 1 2, get_user_state, written. simpl.
  rewrite lookup_insert_ne, loaded_lookup_other, store_get_set_frame by done.
  destruct (user_states w !! q); [done|]. by destruct (Store.get (store w) q).
Qed.

Lemma written_loaded w p u : written (loaded w p) p u = written w p u.
Proof. unfold written. by rewrite loaded_idem, loaded_store. Qed.

Lemma loaded_written w p u : loaded (written w p u) p = written w p u.
Proof. apply (loaded_cached _ p u). unfold written. simpl. apply lookup_insert_eq. Qed.

Lemma advance_moved_to state u : advance u (moved_to state u).
Proof. by split. Qed.

Lemma advance_stored state d u :
  advance u (set_conversation_data d (moved_to state u)).
Proof. by split. Qed.

Lemma advance_concluded v u : advance u (moved_to "END" (set_outcome v u)).
Proof. by split. Qed.

Lemma touched_once w p u : advance (resolve w p) u -> touched w p 1 (written w p u).
Proof.
  intros Hadv. rewrite <- written_loaded.
  apply touched_update; [constructor|]. by rewrite resolve_loaded.
Qed.

Lemma touched_twice w p u1 u2 :
  advance (resolve w p) u1 -> advance u1 u2 ->
  touched w p 2 (written (written w p u1) p u2).
Proof.
  intros H1 H2. apply touched_update; [by apply touched_once|].
  by rewrite resolve_written.
Qed.

Lemma reached_lookup w p : reached w p (loaded w p).
Proof. exists 0%nat. split; [lia|constructor]. Qed.

Lemma reached_once w p u : advance (resolve w p) u -> reached w p (written w p u).
Proof. intros Hadv. exists 1%nat. split; [lia|by apply touched_once]. Qed.

Lemma reached_twice w p u1 u2 :
  advance (resolve w p) u1 -> advance u1 u2 ->
  reached w p (written (written w p u1) p u2).
Proof. intros H1 H2. exists 2%nat. split; [lia|by apply touched_twice]. Qed.

Section Shape.

Variable dialogue_data : FlowDoc.
Variable llm : GeminiAdapter.
Variable reply : model_reply.

Implicit Types (w : World) (p q message : string) (u : UserState) (sd : StateDef).

Lemma moved_reached w p state (r : string * bool) :
  reached w p (snd ((update_user_state p state None ;;; ret r) (loaded w p))).
Proof.
  unfold bind. rewrite update_user_state_moved. simpl.
  rewrite written_loaded, resolve_loaded.
  apply reached_once, advance_moved_to.
Qed.

Lemma stored_reached w p state k v (r : string * bool) :
  reached w p
    (snd ((update_user_state p state (Some {[ k := v ]}) ;;; ret r) (loaded w p))).
Proof.
  unfold bind. rewrite update_user_state_stored. simpl.
  rewrite written_loaded, resolve_loaded.
  apply reached_once, advance_stored.
Qed.

Lemma handle_eligibility_reached_from w p u1 :
  advance (resolve w p) u1 ->
  reached w p (snd (_handle_eligibility dialogue_data p (written w p u1))).
Proof.
  intros Hadv. rewrite handle_eligibility_run. cbv zeta.
  rewrite resolve_written, loaded_written.
  destruct (income_ok _ _) as [enough|]; [|by apply reached_once].
  destruct (_ && _ && _); simpl; apply reached_twice; auto using advance_concluded.
Qed.

Lemma handle_eligibility_reached w p :
  reached w p (snd (_handle_eligibility dialogue_data p (loaded w p))).
Proof.
  rewrite handle_eligibility_run. cbv zeta.
  rewrite resolve_loaded, loaded_idem, !written_loaded.
  destruct (income_ok _ _) as [enough|]; [|apply reached_lookup].
  destruct (_ && _ && _); simpl; apply reached_once, advance_concluded.
Qed.

Lemma chained_reached w p k v :
  reached w p
    (snd ((update_user_state p "EVALUATE_ELIGIBILITY" (Some {[ k := v ]}) ;;;
           _handle_eligibility dialogue_data p) (loaded w p))).
Proof.
  unfold bind at 1. rewrite update_user_state_stored.
  rewrite written_loaded, resolve_loaded.
  apply handle_eligibility_reached_from, advance_stored.
Qed.

Lemma handle_answer_reached w p m id :
  reached w p (snd (_handle_answer dialogue_data p m id (loaded w p))).
Proof.
  unfold _handle_answer, bind at 1. rewrite get_user_state_run, loaded_idem.
  repeat case_bool_decide.
  - repeat (destruct (PyStr.any_in _ m));
      auto using stored_reached, reached_lookup.
  - destruct (extract_income m) as [income|]; [|apply reached_lookup].
    destruct (income <? _); auto using stored_reached, moved_reached.
  - repeat (destruct (PyStr.any_in _ m));
      auto using chained_reached, reached_lookup.
  - apply reached_lookup.
Qed.

Lemma handle_interest_response_reached w p m :
  reached w p
    (snd (_handle_interest_response dialogue_data llm reply p m (loaded w p))).
Proof.
  unfold _handle_interest_response.
  destruct (PyStr.any_in _ m); [apply moved_reached|].
  destruct (PyStr.any_in _ m); [apply moved_reached|].
  destruct (is_enabled llm); apply reached_lookup.
Qed.

(** Every call looks the sender up and then rewrites and stores its record
    at most twice, each time through [update_user_state]; nothing else in
    the world is assigned, whether the call returns or raises. *)
Lemma process_message_reached w p message user_name :
  reached w p (snd (process_message dialogue_data llm reply p message user_name w)).
Proof.
  unfold process_message, bind at 1. rewrite get_user_state_run. cbv zeta.
  case_bool_decide; [apply moved_reached|].
  case_bool_decide; [apply reached_lookup|].
  destruct (states dialogue_data !! _) as [sd|]; [|apply moved_reached].
  case_bool_decide; [apply handle_interest_response_reached|].
  destruct (PyStr.startswith "AWAITING_ANSWER" _); [apply handle_answer_reached|].
  case_bool_decide; [apply handle_eligibility_reached|].
  destruct (PyStr.startswith "QUESTION" _); apply moved_reached.
Qed.

End Shape.

Lemma touched_other w p q n w' :
  touched w p n w' -> p <> q ->
  user_states w' !! q = user_states w !! q /\
  Store.get (store w') q = Store.get (store w) q.
Proof.
  intros Ht Hne. induction Ht as [|n w1 u Ht [IHm IHs] Hadv].
  - split; [by apply loaded_lookup_other|by rewrite loaded_store].
  - unfold written. simpl.
    rewrite lookup_insert_ne, loaded_lookup_other, store_get_set_frame by done.
    by split.
Qed.

Lemma touched_counters w p n w' :
  touched w p n w' ->
  message_count (resolve w' p) = message_count (resolve w p) + Z.of_nat n /\
  retry_count (resolve w' p) = retry_count (resolve w p) /\
  writes (store w') = (writes (store w) + n)%nat /\
  writable (store w') = writable (store w).
Proof.
  intros Ht. induction Ht as [|n w1 u Ht (IHm & IHr & IHw & IHa) [Hm Hr]].
  - rewrite resolve_loaded, loaded_store. repeat split; lia.
  - rewrite resolve_written. unfold written. simpl.
    rewrite Hm, Hr, IHm, IHr, IHw, IHa. repeat split; lia.
Qed.

Section Calls.

Variable dialogue_data : FlowDoc.
Variable llm : GeminiAdapter.
Variable reply : model_reply.

Implicit Types (w : World) (p q message : string) (u : UserState) (sd : StateDef).

Local Abbreviation process := (process_message dialogue_data llm reply).

(** X1.  A call for one sender leaves every other sender alone: the record
    in memory, the record in the store and the record the engine would work
    on are what they were, whether the call returns or raises. *)
Theorem other_senders_untouched w p q message user_name :
  p <> q ->
  user_states (snd (process p message user_name w)) !! q = user_states w !! q /\
  Store.get (store (snd (process p message user_name w))) q = Store.get (store w) q /\
  resolve (snd (process p message user_name w)) q = resolve w q.
Proof.
  intros Hne.
  destruct (process_message_reached dialogue_data llm reply w p message user_name)
    as (n & _ & Ht).
  destruct (touched_other _ _ q _ _ Ht Hne) as [Hm Hs].
  split; [exact Hm|]. split; [exact Hs|].
  unfold resolve, get_user_state. rewrite Hm, Hs.
  destruct (user_states w !! q); [done|]. by destruct (Store.get (store w) q).
Qed.

(** X2.  One call moves the message counter of the sender up by the number
    of times its record is stored, which is none, one or two; the store is
    opened for writing that many times; and the retry counter is never
    changed. *)
Theorem counters_per_call w p message user_name :
  exists n : nat,
    (n <= 2)%nat /\
    message_count (resolve (snd (process p message user_name w)) p)
      = message_count (resolve w p) + Z.of_nat n /\
    writes (store (snd (process p message user_name w)))
      = (writes (store w) + n)%nat /\
    retry_count (resolve (snd (process p message user_name w)) p)
      = retry_count (resolve w p).
Proof.
  destruct (process_message_reached dialogue_data llm reply w p message user_name)
    as (n & Hn & Ht).
  destruct (touched_counters _ _ _ _ Ht) as (Hm & Hr & Hw & _).
  exists n. auto.
Qed.

End Calls.

(** ** The store follows the memory *)

Lemma coherent_written w p u :
  writable (store w) = true -> coherent w -> coherent (written w p u).
Proof.
  intros Hwr Hco q u'. unfold written. simpl.
  destruct (decide (p = q)) as [<-|Hne].
  - rewrite lookup_insert_eq. intros [= <-]. by apply store_get_set_same.
  - rewrite lookup_insert_ne, loaded_lookup_other, store_get_set_frame by done.
    apply Hco.
Qed.

Lemma coherent_loaded w p :
  coherent w -> current_state (resolve w p) <> "INITIAL" -> coherent (loaded w p).
Proof.
  intros Hco Hknown q u.
  destruct (decide (p = q)) as [<-|Hne].
  - rewrite loaded_lookup, loaded_store. intros [= <-].
    unfold resolve, get_user_state in *.
    destruct (user_states w !! p) as [u|] eqn:Em; [by apply Hco|].
    by destruct (Store.get (store w) p) as [u|] eqn:Es.
  - rewrite loaded_lookup_other, loaded_store by done. apply Hco.
Qed.

Lemma touched_coherent w p n w' :
  writable (store w) = true -> coherent w ->
  current_state (resolve w p) <> "INITIAL" ->
  touched w p n w' -> coherent w'.
Proof.
  intros Hwr Hco Hknown Ht. induction Ht as [|n w1 u Ht IH Hadv].
  - by apply coherent_loaded.
  - apply coherent_written; [|exact IH].
    destruct (touched_counters _ _ _ _ Ht) as (_ & _ & _ & ->). exact Hwr.
Qed.

Lemma coherent_restart w q :
  coherent w -> is_Some (user_states w !! q) ->
  resolve (restarted w) q = resolve w q.
Proof.
  intros Hco [u Hu]. rewrite (resolve_cached w q u Hu).
  unfold resolve, get_user_state, restarted. simpl.
  rewrite lookup_empty. by rewrite (Hco q u Hu).
Qed.

Section Durability.

Variable dialogue_data : FlowDoc.
Variable llm : GeminiAdapter.
Variable reply : model_reply.

Implicit Types (w : World) (p q message : string) (u : UserState).

Local Abbreviation process := (process_message dialogue_data llm reply).

Lemma process_message_coherent w p message user_name :
  writable (store w) = true -> coherent w ->
  coherent (snd (process p message user_name w)).
Proof.
  intros Hwr Hco.
  destruct (decide (current_state (resolve w p) = "INITIAL")) as [Hi|Hi].
  - rewrite process_message_INITIAL by done.
    unfold _handle_initial, bind. rewrite update_user_state_moved. simpl.
    rewrite written_loaded. by apply coherent_written.
  - destruct (process_message_reached dialogue_data llm reply w p message user_name)
      as (n & _ & Ht).
    by apply (touched_coherent w p n).
Qed.

Lemma process_message_writable w p message user_name :
  writable (store (snd (process p message user_name w))) = writable (store w).
Proof.
  destruct (process_message_reached dialogue_data llm reply w p message user_name)
    as (n & _ & Ht).
  by destruct (touched_counters _ _ _ _ Ht) as (_ & _ & _ & ->).
Qed.

(** X3.  While the file of the store can be written, the store holds after
    every call the record the memory holds for each sender in memory, the
    call raising or not; a process started again over that store resumes
    each of these senders from the same record. *)
Theorem store_follows_memory w p message user_name :
  writable (store w) = true -> coherent w ->
  coherent (snd (process p message user_name w)) /\
  (forall q,
     is_Some (user_states (snd (process p message user_name w)) !! q) ->
     resolve (restarted (snd (process p message user_name w))) q
       = resolve (snd (process p message user_name w)) q).
Proof.
  intros Hwr Hco.
  pose proof (process_message_coherent w p message user_name Hwr Hco) as Hco'.
  split; [exact Hco'|]. intros q Hq. by apply coherent_restart.
Qed.

Lemma serve_well_kept inbound w :
  well_kept w -> well_kept (snd (serve dialogue_data llm reply inbound w)).
Proof.
  revert w. induction inbound as [|[[p message] user_name] rest IH]; intros w Hw;
    [done|].
  simpl.
  pose proof (process_message_well_kept dialogue_data llm reply
                w p message user_name Hw) as Hstep.
  destruct (process_message dialogue_data llm reply p message user_name w)
    as [r w1].
  specialize (IH w1 Hstep).
  by destruct (serve dialogue_data llm reply rest w1).
Qed.

(** X4.  Whatever messages the senders send and in whatever order, a record
    that carries an outcome is a record at [END], in memory and in the
    store: the engine sets an outcome only together with the move to [END]
    and never leaves [END]. *)
Theorem outcome_only_at_end inbound w q u :
  well_kept w ->
  user_states (snd (serve dialogue_data llm reply inbound w)) !! q = Some u \/
  Store.get (store (snd (serve dialogue_data llm reply inbound w))) q = Some u ->
  outcome u <> None ->
  current_state u = "END".
Proof.
  intros Hw Hu Hout.
  destruct (serve_well_kept inbound w Hw) as [Hmem Hfile].
  assert (open_or_ended u) as [Hnone|Hend]
    by (destruct Hu as [Hu|Hu]; [by apply (Hmem q)|by apply (Hfile q)]).
  - by destruct Hout.
  - exact Hend.
Qed.

End Durability.

(** ** Keywords *)

Section Keywords.

Import PyStr.




Lemma startswith_elim k s : startswith k s = true -> exists b, s = k +:+ b.
Proof.
  revert s. induction k as [|x k IH]; intros s; simpl; [by exists s|].
  destruct s as [|y s]; [done|]. destruct (ascii_dec x y) as [<-|]; [|done].
  intros [b ->]%IH. by exists b.
Qed.

Lemma contains_unfold k s :
  contains k s = startswith k s ||
                 match s with EmptyString => false | String _ s' => contains k s' end.
Proof. by destruct s. Qed.


Lemma contains_elim k s : contains k s = true -> exists a b, s = a +:+ k +:+ b.
Proof.
  induction s as [|x s IH]; rewrite contains_unfold.
  - rewrite orb_false_r. intros [b ->]%startswith_elim. by exists "", b.
  - intros [[b ->]%startswith_elim|[a [b ->]]%IH]%orb_true_iff.
    + by exists "", b.
    + by exists (String x a), b.
Qed.


Lemma rstrip_cons c s :
  rstrip (String c s) =
  match rstrip s with
  | EmptyString => if is_space c then EmptyString else String c EmptyString
  | r => String c r
  end.
Proof. reflexivity. Qed.






Lemma lower_char_not_upper c : is_upper (lower_char c) = false.
Proof. by destruct c as [[] [] [] [] [] [] [] []]. Qed.

Lemma has_upper_lower s : has_upper (lower s) = false.
Proof.
  unfold has_upper. induction s as [|c s IH]; [done|]. simpl.
  by rewrite lower_char_not_upper.
Qed.

Lemma has_upper_app a b : has_upper (a +:+ b) = has_upper a || has_upper b.
Proof.
  unfold has_upper. induction a as [|c a IH]; [done|]. rewrite append_cons. simpl.
  by rewrite IH, orb_assoc.
Qed.

Lemma has_upper_lstrip s : has_upper s = false -> has_upper (lstrip s) = false.
Proof.
  unfold has_upper. induction s as [|c s IH]; [done|]. simpl.
  intros [Hc Hs]%orb_false_iff. destruct (is_space c); [by apply IH|].
  simpl. by rewrite Hc.
Qed.

Lemma has_upper_rstrip s : has_upper s = false -> has_upper (rstrip s) = false.
Proof.
  unfold has_upper. induction s as [|c s IH]; [done|]. simpl.
  intros [Hc Hs]%orb_false_iff. specialize (IH Hs).
  destruct (rstrip s) as [|x r].
  - destruct (is_space c); [done|]. simpl. by rewrite Hc.
  - change (list_ascii_of_string (String c (String x r)))
      with (c :: list_ascii_of_string (String x r)).
    simpl existsb. rewrite Hc. exact IH.
Qed.

End Keywords.

Section Gate.

Variable dialogue_data : FlowDoc.
Variable llm : GeminiAdapter.
Variable reply : model_reply.

Implicit Types (w : World) (p q message : string) (u : UserState) (sd : StateDef).

Local Abbreviation process := (process_message dialogue_data llm reply).



End Gate.

(** X6.  A keyword of the flow that holds an upper-case letter matches no
    message: messages are lower-cased before they are compared and keywords
    are not. *)
Theorem upper_case_keyword_never_matches (keywords : list string) (message : string) :
  (forall k, k ∈ keywords -> has_upper k = true) ->
  PyStr.any_in keywords (PyStr.strip (PyStr.lower message)) = false.
Proof.
  intros Hupper. unfold PyStr.any_in.
  apply not_true_is_false. intros [k [Hk Hc]]%existsb_exists.
  apply list_elem_of_In in Hk. specialize (Hupper k Hk).
  apply contains_elim in Hc as (a & b & Hs).
  assert (has_upper (PyStr.strip (PyStr.lower message)) = false) as Hnone.
  { unfold PyStr.strip. apply has_upper_rstrip, has_upper_lstrip, has_upper_lower. }
  rewrite Hs, !has_upper_app, Hupper in Hnone.
  by rewrite orb_true_r in Hnone.
Qed.

(** ** Errors, resets and the chained evaluation *)

Section Recovery.

Variable dialogue_data : FlowDoc.
Variable llm : GeminiAdapter.
Variable reply : model_reply.

Implicit Types (w : World) (p q message : string) (u : UserState) (sd : StateDef).

Local Abbreviation process := (process_message dialogue_data llm reply).

Lemma handle_error_run w p :
  _handle_error dialogue_data p (loaded w p)
  = (Return (technical_error_message dialogue_data, true),
     written w p (moved_to "END" (resolve w p))).
Proof.
  unfold _handle_error, bind. rewrite update_user_state_moved. simpl.
  by rewrite written_loaded, resolve_loaded.
Qed.

Lemma first_contact_after_reset w p message user_name name :
  user_states w !! p = None ->
  Store.get (store w) p = None ->
  greeted_as user_name name ->
  fst (process p message user_name w)
    = Return (PyStr.replace "{name}" name (greeting_template dialogue_data), false).
Proof.
  intros Hmem Hfile Hname.
  rewrite process_message_INITIAL by (by rewrite (resolve_fresh w p Hmem Hfile)).
  unfold _handle_initial, bind. rewrite update_user_state_run. simpl.
  unfold greeting_template. destruct Hname as [n Hn| |]; try reflexivity.
  by rewrite bool_decide_eq_false_2.
Qed.

(** X7.  A sender whose stored state identifier the engine cannot route
    (unknown to the flow document, or of no kind the engine handles) gets the
    flow's technical-error message with [ended = true] and is moved to
    [END] with one more message counted; the next message gets the closing
    message. *)
Theorem unroutable_state_ends w p message user_name next_message next_name :
  unroutable dialogue_data (current_state (resolve w p)) ->
  process p message user_name w
    = (Return (technical_error_message dialogue_data, true),
       written w p (moved_to "END" (resolve w p))) /\
  fst (process p next_message next_name
         (written w p (moved_to "END" (resolve w p))))
    = Return (closing_message, true).
Proof.
  intros (Hi & He & Hbad). split.
  - unfold process_message, bind at 1. rewrite get_user_state_run. cbv zeta.
    rewrite !bool_decide_eq_false_2 by done.
    destruct Hbad as [->|(Hg & Ha & Hv & Hq)]; [apply handle_error_run|].
    destruct (states dialogue_data !! _); [|apply handle_error_run].
    rewrite !bool_decide_eq_false_2 by done. rewrite Ha, Hq.
    apply handle_error_run.
  - rewrite process_message_END; [done|]. by rewrite resolve_written.
Qed.

(** X8.  [reset_user] on a store that can be written forgets the sender, in
    memory and in the store, and leaves the other senders alone; the
    sender's next message is greeted as a first contact. *)
Theorem reset_user_forgets w p message user_name name :
  writable (store w) = true ->
  greeted_as user_name name ->
  user_states (snd (reset_user p w)) !! p = None /\
  Store.get (store (snd (reset_user p w))) p = None /\
  (forall q, p <> q -> resolve (snd (reset_user p w)) q = resolve w q) /\
  fst (process p message user_name (snd (reset_user p w)))
    = Return (PyStr.replace "{name}" name (greeting_template dialogue_data), false).
Proof.
  intros Hwr Hname. unfold reset_user. simpl.
  assert (forall q, Store.get (Store.delete p (store w)) q
                    = if decide (p = q) then None else Store.get (store w) q) as Hget.
  { intros q. unfold Store.delete, Store.get, Store._write_all, Store._read_all.
    case_bool_decide as Hin; rewrite ?Hwr; simpl.
    - rewrite lookup_delete. by destruct (decide (p = q)).
    - destruct (decide (p = q)) as [<-|]; [|done].
      apply eq_None_not_Some. exact Hin. }
  assert (delete p (user_states w) !! p = None) as Hmem by apply lookup_delete_eq.
  assert (Store.get (Store.delete p (store w)) p = None) as Hfile.
  { rewrite Hget. by destruct (decide (p = p)). }
  split; [exact Hmem|]. split; [exact Hfile|]. split.
  - intros q Hne. unfold resolve, get_user_state. simpl.
    rewrite lookup_delete_ne by done. rewrite Hget.
    destruct (decide (p = q)); [done|].
    destruct (user_states w !! q); [done|]. by destruct (Store.get (store w) q).
  - by apply first_contact_after_reset.
Qed.

(** X9.  [reset_user] on a store that cannot be written deletes the sender
    from memory only: the failed write is swallowed, the store still holds
    the record, and the sender's next lookup restores it. *)
Theorem reset_user_undone_when_unwritable w p u :
  writable (store w) = false ->
  Store.get (store w) p = Some u ->
  user_states (snd (reset_user p w)) !! p = None /\
  resolve (snd (reset_user p w)) p = u.
Proof.
  intros Hwr Hu. unfold reset_user. simpl.
  split; [apply lookup_delete_eq|].
  unfold resolve, get_user_state. simpl. rewrite lookup_delete_eq.
  assert (Store.get (Store.delete p (store w)) p = Some u) as ->; [|done].
  unfold Store.delete, Store.get, Store._write_all, Store._read_all in *.
  case_bool_decide; rewrite ?Hwr; simpl; exact Hu.
Qed.

End Recovery.

Section Evaluation.

Variable dialogue_data : FlowDoc.
Variable llm : GeminiAdapter.
Variable reply : model_reply.

Implicit Types (w : World) (p q message : string) (u : UserState) (sd : StateDef).

Local Abbreviation process := (process_message dialogue_data llm reply).

Lemma chained_run w p k v :
  (update_user_state p "EVALUATE_ELIGIBILITY" (Some {[ k := v ]}) ;;;
   _handle_eligibility dialogue_data p) (loaded w p)
  = _handle_eligibility dialogue_data p
      (written w p
         (set_conversation_data (<[k := v]> (conversation_data (resolve w p)))
            (moved_to "EVALUATE_ELIGIBILITY" (resolve w p)))).
Proof.
  unfold bind. rewrite update_user_state_stored.
  by rewrite written_loaded, resolve_loaded.
Qed.

(** X10.  The residency answer is evaluated in the same call: a message that
    matches a residency keyword (national tried first) stores the canonical
    value under the state's field name and, the income being a number, ends
    the conversation at once.  The record is then at [END] with the answer
    stored, two more messages counted, the retry counter as it was and the
    outcome the three rules give on the answers including the new one; the
    store has been written twice. *)
Theorem residency_answer_concludes w p message user_name sd v enough :
  current_state (resolve w p) = "AWAITING_ANSWER_3" ->
  states dialogue_data !! "AWAITING_ANSWER_3" = Some sd ->
  matched_residency sd (PyStr.strip (PyStr.lower message)) = Some v ->
  income_ok (rules_of dialogue_data)
    (<[default "residency_status" (sd_store_as sd) := SStr v]>
       (conversation_data (resolve w p))) = Some enough ->
  let d := <[default "residency_status" (sd_store_as sd) := SStr v]>
             (conversation_data (resolve w p)) in
  let pass := employment_ok (rules_of dialogue_data) d && enough
              && residency_ok (rules_of dialogue_data) d in
  exists w',
    process p message user_name w
      = (Return (if pass then qualified_message dialogue_data
                 else not_qualified_message dialogue_data, true), w') /\
    resolve w' p
      = mkUserState "END" d (message_count (resolve w p) + 2)
          (retry_count (resolve w p))
          (Some (if pass then "qualified" else "disqualified")) /\
    writes (store w') = (writes (store w) + 2)%nat.
Proof.
  intros Hcur Hsd Hmatch Hinc d pass.
  change (income_ok (rules_of dialogue_data) d = Some enough) in Hinc.
  rewrite (process_message_route dialogue_data llm reply w p _ user_name sd);
    rewrite ?Hcur; [|done..].
  cbv zeta. rewrite bool_decide_eq_false_2 by done.
  change (PyStr.startswith "AWAITING_ANSWER" "AWAITING_ANSWER_3") with true.
  cbv iota. unfold _handle_answer, bind at 1.
  rewrite get_user_state_run, loaded_idem, Hsd.
  rewrite !bool_decide_eq_false_2 by done.
  rewrite bool_decide_eq_true_2 by done.
  assert (forall v',
    v' = v ->
    exists w',
      (update_user_state p "EVALUATE_ELIGIBILITY"
         (Some {[ default "residency_status" (sd_store_as sd) := SStr v' ]}) ;;;
       _handle_eligibility dialogue_data p) (loaded w p)
        = (Return (if pass then qualified_message dialogue_data
                   else not_qualified_message dialogue_data, true), w') /\
      resolve w' p
        = mkUserState "END" d (message_count (resolve w p) + 2)
            (retry_count (resolve w p))
            (Some (if pass then "qualified" else "disqualified")) /\
      writes (store w') = (writes (store w) + 2)%nat) as Hrun.
  { intros v' ->. rewrite chained_run, handle_eligibility_run. cbv zeta.
    rewrite resolve_written. simpl conversation_data. fold d. rewrite Hinc.
    fold pass. destruct pass; eexists; (split; [reflexivity|]);
      rewrite resolve_written; unfold written; simpl;
      (split; [|lia]);
      unfold moved_to, set_outcome, set_conversation_data, set_message_count,
        set_current_state; simpl; f_equal; lia. }
  unfold matched_residency in Hmatch.
  change (default no_state (Some sd)) with sd.
  destruct (PyStr.any_in (valid_keywords sd "uae_national") _).
  { apply Hrun. by injection Hmatch. }
  destruct (PyStr.any_in (valid_keywords sd "expatriate") _); [|done].
  apply Hrun. by injection Hmatch.
Qed.

Lemma evaluation_type_error w p message user_name sd :
  current_state (resolve w p) = "EVALUATE_ELIGIBILITY" ->
  states dialogue_data !! "EVALUATE_ELIGIBILITY" = Some sd ->
  income_ok (rules_of dialogue_data) (conversation_data (resolve w p)) = None ->
  process p message user_name w = (Raise (TypeError ">="), loaded w p).
Proof.
  intros Hcur Hsd Hinc.
  rewrite (process_message_route dialogue_data llm reply w p _ user_name sd);
    rewrite ?Hcur; [|done..].
  cbv zeta. rewrite bool_decide_eq_false_2 by done.
  change (PyStr.startswith "AWAITING_ANSWER" "EVALUATE_ELIGIBILITY") with false.
  cbv iota. rewrite bool_decide_eq_true_2 by done.
  rewrite handle_eligibility_run. cbv zeta.
  by rewrite resolve_loaded, loaded_idem, Hinc.
Qed.

(** X11.  A sender waiting for evaluation whose stored income is text and
    not a number is stuck: every message raises [TypeError] at the
    comparison with the minimum, and the store and the sender's record stay
    as they are, so the next message raises again. *)
Theorem evaluation_type_error_sticks w p (inbound : list (string * option string)) sd :
  current_state (resolve w p) = "EVALUATE_ELIGIBILITY" ->
  states dialogue_data !! "EVALUATE_ELIGIBILITY" = Some sd ->
  income_ok (rules_of dialogue_data) (conversation_data (resolve w p)) = None ->
  fst (process_all dialogue_data llm reply p inbound w)
    = map (fun _ => Raise (TypeError ">=")) inbound /\
  store (snd (process_all dialogue_data llm reply p inbound w)) = store w /\
  resolve (snd (process_all dialogue_data llm reply p inbound w)) p = resolve w p.
Proof.
  revert w. induction inbound as [|[message user_name] rest IH];
    intros w Hcur Hsd Hinc; [done|].
  simpl. rewrite (evaluation_type_error w p message user_name sd Hcur Hsd Hinc).
  destruct (IH (loaded w p)) as (Hr & Hs & Hq);
    rewrite ?resolve_loaded; try done.
  destruct (process_all dialogue_data llm reply p rest (loaded w p)) as [rs w2].
  simpl in *. split; [by rewrite Hr|]. split.
  - by rewrite Hs, loaded_store.
  - by rewrite Hq, resolve_loaded.
Qed.

End Evaluation.

(** * The contact sheet *)

(** ** Phone numbers *)

Section Phones.

Import PyStr Contacts.

Lemma phone_char_not_space c : phone_char c = true -> is_space c = false.
Proof. by destruct c as [[] [] [] [] [] [] [] []]. Qed.

Lemma space_not_phone_char c : is_space c = true -> phone_char c = false.
Proof. by destruct c as [[] [] [] [] [] [] [] []]. Qed.

Lemma phone_char_not_w c : phone_char c = true -> c <> "w"%char.
Proof. by destruct c as [[] [] [] [] [] [] [] []]. Qed.

Lemma filter_chars_only s : phone_chars_only (filter_chars phone_char s) = true.
Proof.
  unfold phone_chars_only. induction s as [|c s IH]; [done|]. simpl.
  destruct (phone_char c) eqn:Hc; [|done]. simpl. by rewrite Hc.
Qed.


Lemma filter_chars_app a b :
  filter_chars phone_char (a +:+ b)
  = filter_chars phone_char a +:+ filter_chars phone_char b.
Proof.
  induction a as [|c a IH]; [done|]. rewrite append_cons. simpl.
  destruct (phone_char c); [|done]. by rewrite append_cons, IH.
Qed.

Lemma filter_chars_lstrip s :
  filter_chars phone_char (lstrip s) = filter_chars phone_char s.
Proof.
  induction s as [|c s IH]; [done|]. simpl.
  destruct (is_space c) eqn:Hc; [|done]. by rewrite (space_not_phone_char c Hc).
Qed.

Lemma filter_chars_rstrip s :
  filter_chars phone_char (rstrip s) = filter_chars phone_char s.
Proof.
  induction s as [|c s IH]; [done|]. rewrite rstrip_cons.
  simpl filter_chars at 2. rewrite <- IH.
  destruct (rstrip s) as [|x r]; [|done].
  destruct (is_space c) eqn:Hc; [|done]. by rewrite (space_not_phone_char c Hc).
Qed.

Lemma filter_chars_strip s :
  filter_chars phone_char (strip s) = filter_chars phone_char s.
Proof. unfold strip. by rewrite filter_chars_rstrip, filter_chars_lstrip. Qed.

Lemma lstrip_id s : phone_chars_only s = true -> lstrip s = s.
Proof.
  unfold phone_chars_only. destruct s as [|c s]; [done|]. simpl.
  intros [Hc _]%andb_true_iff. by rewrite (phone_char_not_space c Hc).
Qed.

Lemma rstrip_id s : phone_chars_only s = true -> rstrip s = s.
Proof.
  unfold phone_chars_only. induction s as [|c s IH]; [done|]. simpl forallb.
  intros [Hc Hs]%andb_true_iff. rewrite rstrip_cons, IH by done.
  destruct s; [|done]. by rewrite (phone_char_not_space c Hc).
Qed.

Lemma strip_id s : phone_chars_only s = true -> strip s = s.
Proof. intros Hs. unfold strip. by rewrite lstrip_id, rstrip_id. Qed.

Lemma phone_chars_only_app a b :
  phone_chars_only (a +:+ b) = phone_chars_only a && phone_chars_only b.
Proof.
  unfold phone_chars_only. induction a as [|c a IH]; [done|]. rewrite append_cons.
  simpl. by rewrite IH, andb_assoc.
Qed.

Lemma phone_chars_only_tail s :
  phone_chars_only s = true -> phone_chars_only (tail s) = true.
Proof.
  unfold phone_chars_only. destruct s as [|c s]; [done|]. simpl.
  by intros [_ Hs]%andb_true_iff.
Qed.

(** The result of cleaning, from the kept characters. *)
Lemma clean_phone_number_kept s :
  _clean_phone_number (Some s) =
  let kept := filter_chars phone_char s in
  if startswith "+" kept then kept
  else if startswith "971" kept then "+" +:+ kept
  else if startswith "0" kept then "+971" +:+ tail kept
  else "+971" +:+ kept.
Proof.
  unfold _clean_phone_number. cbv zeta. rewrite filter_chars_strip.
  by destruct (startswith "+" _).
Qed.

Lemma clean_phone_number_shape s :
  startswith "+" (_clean_phone_number (Some s)) = true /\
  phone_chars_only (_clean_phone_number (Some s)) = true.
Proof.
  rewrite clean_phone_number_kept. cbv zeta.
  pose proof (filter_chars_only s) as Hk.
  set (kept := filter_chars phone_char s) in *.
  destruct (startswith "+" kept) eqn:Hplus; [done|].
  destruct (startswith "971" kept); [split; [done|]|].
  { by rewrite phone_chars_only_app, Hk. }
  destruct (startswith "0" kept); (split; [done|]);
    rewrite phone_chars_only_app, ?Hk, ?phone_chars_only_tail; done.
Qed.

Lemma startswith_cons a p b s :
  startswith (String a p) (String b s)
  = if ascii_dec a b then startswith p s else false.
Proof. reflexivity. Qed.

Lemma no_whatsapp_prefix s :
  phone_chars_only s = true -> startswith "whatsapp:" s = false.
Proof.
  unfold phone_chars_only. destruct s as [|c s]; [done|]. simpl forallb.
  intros [Hc _]%andb_true_iff. rewrite startswith_cons.
  destruct (ascii_dec "w" c) as [<-|]; [|done]. by apply phone_char_not_w in Hc.
Qed.

Lemma replace_whatsapp_id s :
  phone_chars_only s = true -> replace "whatsapp:" "" s = s.
Proof.
  unfold replace, phone_chars_only. induction s as [|c s IH]; [done|].
  simpl forallb. intros [Hc Hs]%andb_true_iff.
  change (replace_from "whatsapp:" "" 0 (String c s))
    with (if startswith "whatsapp:" (String c s)
          then "" +:+ replace_from "whatsapp:" "" 8 s
          else String c (replace_from "whatsapp:" "" 0 s)).
  rewrite no_whatsapp_prefix, IH; [done..|].
  unfold phone_chars_only. simpl. by rewrite Hc, Hs.
Qed.

(** The key both lookups and updates search the sheet with is the cleaned
    number: the removal of a [whatsapp:] prefix never finds one. *)
Lemma search_key_clean phone :
  search_key phone = _clean_phone_number (Some phone).
Proof.
  unfold search_key. cbv zeta.
  destruct (clean_phone_number_shape phone) as [_ Hchars].
  by rewrite no_whatsapp_prefix.
Qed.

Lemma replied_key_clean phone :
  replace "whatsapp:" "" (_clean_phone_number (Some phone))
  = search_key phone.
Proof.
  rewrite search_key_clean. apply replace_whatsapp_id.
  by destruct (clean_phone_number_shape phone).
Qed.



End Phones.

(** ** Rows and statuses *)

Section Sheet.

Import Contacts.

Implicit Types (cm : ContactManager) (df : list Contact) (c : Contact).

Lemma filter_sublist (test : Contact -> bool) df : List.filter test df `sublist_of` df.
Proof.
  induction df as [|c df IH]; [done|]. simpl.
  destruct (test c); [by apply sublist_skip|by apply sublist_cons].
Qed.

Lemma filter_all (test : Contact -> bool) df :
  Forall (fun c => test c = true) (List.filter test df).
Proof.
  induction df as [|c df IH]; [done|]. simpl.
  destruct (test c) eqn:Hc; [by constructor|done].
Qed.

Lemma head_sublist n df : head n df `sublist_of` df.
Proof. unfold head. destruct (0 <=? n); apply sublist_take. Qed.

Lemma head_length n df : 0 < n -> (length (head n df) <= Z.to_nat n)%nat.
Proof.
  intros Hn. unfold head. rewrite (proj2 (Z.leb_le 0 n)) by lia.
  rewrite length_take. lia.
Qed.

(** X14.  [get_pending_contacts] returns pending rows only, in the order of
    the sheet; a positive limit bounds their number; without a limit, or
    with the limit 0, every pending row is returned. *)
Theorem pending_contacts_selected (limit : option Z) cm :
  Forall (fun c => Status c = "pending") (get_pending_contacts limit cm) /\
  get_pending_contacts limit cm `sublist_of` rows cm /\
  (forall n, limit = Some n -> 0 < n ->
     (length (get_pending_contacts limit cm) <= Z.to_nat n)%nat) /\
  (limit = None \/ limit = Some 0 ->
     get_pending_contacts limit cm = List.filter is_pending (rows cm)).
Proof.
  unfold get_pending_contacts, rows.
  destruct (contacts_df cm) as [df|]; simpl.
  2: { split; [done|]. split; [done|]. split; [simpl; lia|by intros _]. }
  assert (Forall (fun c => Status c = "pending") (List.filter is_pending df)) as Hall.
  { eapply Forall_impl; [apply filter_all|]. intros c Hc.
    by apply bool_decide_eq_true_1 in Hc. }
  split; [|split; [|split]].
  - destruct limit as [n|]; [|done]. case_bool_decide; [done|].
    unfold head. destruct (0 <=? n); by apply Forall_take.
  - destruct limit as [n|]; [|apply filter_sublist].
    case_bool_decide; [apply filter_sublist|].
    etrans; [apply head_sublist|apply filter_sublist].
  - intros n -> Hn. rewrite bool_decide_eq_false_2 by lia. by apply head_length.
  - intros [-> | ->]; [done|]. by rewrite bool_decide_eq_true_2.
Qed.

Lemma has_phone_set_status key status now c :
  has_phone key (set_status key status now c) = has_phone key c.
Proof. unfold set_status. by destruct (has_phone key c) eqn:Hc. Qed.

Lemma filter_map_set_status key status now df :
  List.filter (has_phone key) (map (set_status key status now) df)
  = map (set_status key status now) (List.filter (has_phone key) df).
Proof.
  induction df as [|c df IH]; [done|]. simpl.
  rewrite has_phone_set_status. destruct (has_phone key c); simpl; by rewrite IH.
Qed.

Lemma existsb_filter key df :
  existsb (has_phone key) df = true <-> List.filter (has_phone key) df <> [].
Proof.
  induction df as [|c df IH]; simpl; [done|].
  destruct (has_phone key c); simpl; [done|exact IH].
Qed.

Lemma save_contacts_df cm : contacts_df (save_contacts cm) = contacts_df cm.
Proof.
  unfold save_contacts. destruct (contacts_df cm) eqn:E; [|done].
  by destruct (excel_writable cm).
Qed.

Lemma map_set_status_phones key status now df :
  map PhoneNumber (map (set_status key status now) df) = map PhoneNumber df /\
  map FullName (map (set_status key status now) df) = map FullName df.
Proof.
  induction df as [|c df [IHp IHn]]; [done|]. simpl. rewrite IHp, IHn.
  unfold set_status. by destruct (has_phone key c).
Qed.

(** The sheet in memory after an update that found the number. *)
Lemma update_contact_status_rows phone status save now cm df :
  contacts_df cm = Some df ->
  contacts_df (update_contact_status phone status save now cm)
  = Some (if existsb (has_phone (search_key phone)) df
          then map (set_status (search_key phone) status now) df else df).
Proof.
  intros Hdf. unfold update_contact_status. rewrite Hdf. cbv zeta.
  destruct (existsb _ df); [|done].
  destruct save; [by rewrite save_contacts_df|done].
Qed.

(** X15.  After [update_contact_status] the contact found under the number
    carries the new status and the time of the update, with its name as
    before; the names and the numbers of all rows are as before and a row
    with another number is unchanged; a number the sheet does not hold
    changes nothing, in memory or in the file. *)
Theorem update_then_lookup phone status save now cm df :
  contacts_df cm = Some df ->
  (forall c, get_contact_by_phone phone cm = Some c ->
     exists c',
       get_contact_by_phone phone (update_contact_status phone status save now cm)
         = Some c' /\
       Status c' = status /\ LastContacted c' = Some now /\
       FullName c' = FullName c /\ PhoneNumber c' = PhoneNumber c) /\
  map PhoneNumber (rows (update_contact_status phone status save now cm))
    = map PhoneNumber df /\
  map FullName (rows (update_contact_status phone status save now cm))
    = map FullName df /\
  (forall r, r ∈ rows (update_contact_status phone status save now cm) ->
     PhoneNumber r <> search_key phone -> r ∈ df) /\
  (get_contact_by_phone phone cm = None ->
     update_contact_status phone status save now cm = cm).
Proof.
  intros Hdf.
  pose proof (update_contact_status_rows phone status save now cm df Hdf) as Hrows.
  split; [|split; [|split; [|split]]].
  - intros c Hc. unfold get_contact_by_phone in *. rewrite Hrows. rewrite Hdf in Hc.
    destruct (List.filter (has_phone (search_key phone)) df) as [|c0 l] eqn:Hf;
      [done|]. injection Hc as ->.
    rewrite (proj2 (existsb_filter _ df)) by (by rewrite Hf).
    rewrite filter_map_set_status, Hf. simpl.
    assert (has_phone (search_key phone) c = true) as Hhas.
    { pose proof (filter_all (has_phone (search_key phone)) df) as Hall.
      rewrite Hf in Hall. by inversion Hall. }
    eexists. split; [reflexivity|]. unfold set_status. by rewrite Hhas.
  - unfold rows. rewrite Hrows. simpl. destruct (existsb _ df); [|done].
    apply map_set_status_phones.
  - unfold rows. rewrite Hrows. simpl. destruct (existsb _ df); [|done].
    apply map_set_status_phones.
  - unfold rows. rewrite Hrows. simpl. intros r Hr Hne.
    destruct (existsb _ df); [|done].
    apply list_elem_of_fmap in Hr as (r0 & -> & Hr0).
    unfold set_status in *. destruct (has_phone (search_key phone) r0) eqn:Hh; [|done].
    simpl in Hne. unfold has_phone in Hh. by apply bool_decide_eq_true_1 in Hh.
  - unfold get_contact_by_phone, update_contact_status. rewrite Hdf. cbv zeta.
    destruct (List.filter _ df) eqn:Hf; [|done]. intros _.
    destruct (existsb _ df) eqn:He; [|done].
    apply existsb_filter in He. by rewrite Hf in He.
Qed.

Lemma mark_replied_unfold phone save now cm df :
  contacts_df cm = Some df ->
  mark_replied phone save now cm =
  match List.filter (has_phone (search_key phone)) df with
  | [] => cm
  | first :: _ =>
      if bool_decide (Status first = "pending")
         || bool_decide (Status first = "contacted")
      then
        let cm' :=
          mkContactManager
            (Some (map (set_status (search_key phone) "replied" now) df))
            (excel cm) (excel_writable cm) in
        if save then save_contacts cm' else cm'
      else cm
  end.
Proof.
  intros Hdf. unfold mark_replied. rewrite Hdf. cbv zeta.
  by rewrite replied_key_clean.
Qed.

(** X16.  [mark_replied] goes by the status of the contact found under the
    number: a contact that is pending or contacted becomes replied, with
    the time of the update; a contact with any other status, such as
    qualified, disqualified or replied, leaves the manager as it is, and so
    does a number the sheet does not hold. *)
Theorem mark_replied_by_status phone save now cm :
  (forall c, get_contact_by_phone phone cm = Some c ->
     Status c = "pending" \/ Status c = "contacted" ->
     exists c',
       get_contact_by_phone phone (mark_replied phone save now cm) = Some c' /\
       Status c' = "replied" /\ LastContacted c' = Some now /\
       FullName c' = FullName c) /\
  (forall c, get_contact_by_phone phone cm = Some c ->
     Status c <> "pending" -> Status c <> "contacted" ->
     mark_replied phone save now cm = cm) /\
  (get_contact_by_phone phone cm = None -> mark_replied phone save now cm = cm).
Proof.
  destruct (contacts_df cm) as [df|] eqn:Hdf.
  2: { unfold get_contact_by_phone, mark_replied. rewrite Hdf. by repeat split. }
  rewrite (mark_replied_unfold phone save now cm df Hdf).
  unfold get_contact_by_phone at 1 3 4. rewrite Hdf.
  destruct (List.filter (has_phone (search_key phone)) df) as [|c0 l] eqn:Hf.
  { by repeat split. }
  split; [|split; [|done]].
  - intros c [= <-] Hst.
    assert (bool_decide (Status c0 = "pending")
            || bool_decide (Status c0 = "contacted") = true) as ->.
    { destruct Hst as [-> | ->]; reflexivity. }
    cbv zeta.
    assert (has_phone (search_key phone) c0 = true) as Hhas.
    { pose proof (filter_all (has_phone (search_key phone)) df) as Hall.
      rewrite Hf in Hall. by inversion Hall. }
    unfold get_contact_by_phone.
    assert (contacts_df
              (if save
               then save_contacts
                      (mkContactManager
                         (Some (map (set_status (search_key phone) "replied" now) df))
                         (excel cm) (excel_writable cm))
               else mkContactManager
                      (Some (map (set_status (search_key phone) "replied" now) df))
                      (excel cm) (excel_writable cm))
            = Some (map (set_status (search_key phone) "replied" now) df)) as ->.
    { destruct save; [by rewrite save_contacts_df|done]. }
    rewrite filter_map_set_status, Hf. simpl.
    eexists. split; [reflexivity|]. unfold set_status. by rewrite Hhas.
  - intros c [= <-] Hp Hc.
    by rewrite !bool_decide_eq_false_2.
Qed.

Lemma count_partition df :
  (count_status "pending" df + count_status "contacted" df
   + count_status "qualified" df + count_status "disqualified" df
   + length (List.filter other_status df))%nat = length df.
Proof.
  unfold count_status. induction df as [|c df IH]; [done|]. simpl.
  unfold other_status at 1.
  repeat case_bool_decide; simpl; try lia; congruence.
Qed.

(** X17.  The four counts of [get_statistics] and the rows of any other
    status add up to the total: a row whose status is none of pending,
    contacted, qualified, disqualified (a replied contact, say) is counted
    in the total only, and the four counts never exceed the total. *)
Theorem statistics_partition cm st :
  get_statistics cm = Some st ->
  (pending st + contacted st + qualified st + disqualified st
   + length (List.filter other_status (rows cm)))%nat = total st /\
  (pending st + contacted st + qualified st + disqualified st <= total st)%nat.
Proof.
  unfold get_statistics, rows. destruct (contacts_df cm) as [df|]; [|done].
  intros [= <-]. simpl. pose proof (count_partition df). lia.
Qed.

End Sheet.

(** * The sender and the outreach script *)

Section Sending.

Import Sender.

Variable config : SenderConfig.
Variable delivers : string -> string -> bool.

Implicit Types (s : WhatsAppSender) (call : string * string).

Lemma send_message_calls to_number message s :
  api_calls (snd (send_message config delivers to_number message s)) = api_calls s \/
  exists address,
    sandbox_allows config address = true /\
    api_calls (snd (send_message config delivers to_number message s))
      = api_calls s ++ [(address, message)].
Proof.
  unfold send_message. destruct to_number as [to|]; [|by left].
  destruct (sandbox_allows config (whatsapp_address to)) eqn:Hallow; [|by left].
  right. by exists (whatsapp_address to).
Qed.

Lemma bulk_step_calls template recipient results s call :
  call ∈ api_calls (snd (bulk_step config delivers template recipient (results, s))) ->
  call ∈ api_calls s \/ sandbox_allows config (fst call) = true.
Proof.
  unfold bulk_step.
  set (phone := or_else _ _). set (message := PyStr.replace _ _ _).
  pose proof (send_message_calls phone message s) as Hcalls.
  destruct (send_message config delivers phone message s) as [success s'].
  simpl in Hcalls.
  assert (call ∈ api_calls s' -> call ∈ api_calls s \/
          sandbox_allows config (fst call) = true) as Hin.
  { destruct Hcalls as [->|(address & Hallow & ->)]; [by left|].
    intros [Hold|Hnew%list_elem_of_singleton]%elem_of_app; [by left|].
    right. by rewrite Hnew. }
  by destruct success.
Qed.

Lemma bulk_fold_calls template recipients acc call :
  call ∈ api_calls
           (snd (fold_left (fun acc r => bulk_step config delivers template r acc)
                   recipients acc)) ->
  call ∈ api_calls (snd acc) \/ sandbox_allows config (fst call) = true.
Proof.
  revert acc. induction recipients as [|r recipients IH]; intros acc; [by left|].
  simpl. intros [Hin|Hallow]%IH; [|by right].
  destruct acc as [results s]. by apply (bulk_step_calls template r results).
Qed.

(** X18.  In sandbox mode with a test recipient configured, the sender calls
    the API for that recipient only: every call made by [send_message] or
    by [send_bulk_messages] goes to an address that, spaces aside, is the
    test recipient; a message for anyone else is refused without a call. *)
Theorem sandbox_sends_to_test_recipient_only t :
  TWILIO_SANDBOX config = true ->
  TEST_RECIPIENT_NUMBER config = Some t -> t <> "" ->
  (forall to_number message s,
     no_spaces (whatsapp_address to_number) <> no_spaces t ->
     send_message config delivers (Some to_number) message s = (false, s)) /\
  (forall recipients template s call,
     call ∈ api_calls (snd (send_bulk_messages config delivers recipients template s)) ->
     call ∈ api_calls s \/ no_spaces (fst call) = no_spaces t).
Proof.
  intros Hsandbox Htest Ht.
  assert (forall address,
            sandbox_allows config address
            = bool_decide (no_spaces address = no_spaces t)) as Hallow.
  { intros address. unfold sandbox_allows. rewrite Hsandbox, Htest.
    by destruct t. }
  split.
  - intros to_number message s Hother. unfold send_message.
    by rewrite Hallow, bool_decide_eq_false_2.
  - intros recipients template s call Hcall. unfold send_bulk_messages in Hcall.
    apply bulk_fold_calls in Hcall as [Hold|Hnew]; [by left|].
    right. rewrite Hallow in Hnew. by apply bool_decide_eq_true_1 in Hnew.
Qed.

Lemma bulk_step_counts template recipient results s :
  let results' := fst (bulk_step config delivers template recipient (results, s)) in
  bulk_total results' = bulk_total results /\
  (bulk_successful results' + bulk_failed results'
   = S (bulk_successful results + bulk_failed results))%nat /\
  (length (bulk_errors results') - bulk_failed results'
   = length (bulk_errors results) - bulk_failed results)%nat /\
  (bulk_failed results' - length (bulk_errors results')
   = bulk_failed results - length (bulk_errors results))%nat.
Proof.
  unfold bulk_step.
  destruct (send_message config delivers _ _ s) as [[] s']; simpl;
    rewrite ?length_app; simpl; lia.
Qed.

Lemma bulk_fold_counts template recipients acc :
  let results := fst acc in
  let results' :=
    fst (fold_left (fun acc r => bulk_step config delivers template r acc)
           recipients acc) in
  bulk_total results' = bulk_total results /\
  (bulk_successful results' + bulk_failed results'
   = bulk_successful results + bulk_failed results + length recipients)%nat /\
  (length (bulk_errors results') - bulk_failed results'
   = length (bulk_errors results) - bulk_failed results)%nat /\
  (bulk_failed results' - length (bulk_errors results')
   = bulk_failed results - length (bulk_errors results))%nat.
Proof.
  revert acc. induction recipients as [|r recipients IH]; intros acc.
  - simpl. lia.
  - simpl. destruct (IH (bulk_step config delivers template r acc))
      as (Ht & Hs & He1 & He2).
    destruct acc as [results s].
    destruct (bulk_step_counts template r results s) as (Ht' & Hs' & He1' & He2').
    simpl in *. lia.
Qed.

(** X19.  The summary of [send_bulk_messages] adds up: the total is the
    number of recipients, every recipient is counted once as successful or
    as failed, and the list of errors has one entry for each failure. *)
Theorem bulk_results_add_up (recipients : list Recipient) (template : string) s :
  let results := fst (send_bulk_messages config delivers recipients template s) in
  bulk_total results = length recipients /\
  (bulk_successful results + bulk_failed results)%nat = length recipients /\
  length (bulk_errors results) = bulk_failed results.
Proof.
  unfold send_bulk_messages.
  destruct (bulk_fold_counts template recipients
              (mkBulkResults (length recipients) 0 0 [], s))
    as (Ht & Hs & He1 & He2).
  simpl in *. lia.
Qed.

End Sending.

Section Campaigns.

Import Contacts Outreach.

Variable config : SenderConfig.
Variable delivers : string -> string -> bool.
Variable clock : nat -> string.

Implicit Types (cm : ContactManager) (df : list Contact) (c r : Contact).

Lemma rows_save_contacts cm : rows (save_contacts cm) = rows cm.
Proof. unfold rows. by rewrite save_contacts_df. Qed.

Lemma map_set_status_absent key status now df :
  existsb (has_phone key) df = false -> map (set_status key status now) df = df.
Proof.
  induction df as [|c df IH]; [done|]. simpl.
  intros [Hc Hdf]%orb_false_iff. unfold set_status at 1. by rewrite Hc, IH.
Qed.

(** The rows after an update, whether or not the number is found. *)
Lemma rows_update_contact_status phone status save now cm :
  rows (update_contact_status phone status save now cm)
  = map (set_status (search_key phone) status now) (rows cm).
Proof.
  unfold rows. destruct (contacts_df cm) as [df|] eqn:Hdf.
  - rewrite (update_contact_status_rows phone status save now cm df Hdf). simpl.
    destruct (existsb _ df) eqn:He; [done|]. by rewrite map_set_status_absent.
  - unfold update_contact_status. rewrite Hdf. simpl. by rewrite Hdf.
Qed.

Lemma kept_or_contacted_refl df : Forall2 kept_or_contacted df df.
Proof. apply Forall2_same_length_lookup_2; [done|]. intros i r r' -> [= ->]. by repeat split; left. Qed.

Lemma kept_or_contacted_set key now df :
  Forall2 kept_or_contacted df (map (set_status key "contacted" now) df).
Proof.
  induction df as [|c df IH]; [constructor|]. simpl. constructor; [|exact IH].
  unfold set_status. destruct (has_phone key c); repeat split; auto.
Qed.

Lemma kept_or_contacted_trans df1 df2 df3 :
  Forall2 kept_or_contacted df1 df2 -> Forall2 kept_or_contacted df2 df3 ->
  Forall2 kept_or_contacted df1 df3.
Proof.
  intros H12. revert df3. induction H12 as [|r1 r2 l1 l2 (Hp & Hn & Hs) H12 IH];
    intros df3 H23; inversion H23 as [|? r3 ? l3 (Hp' & Hn' & Hs') H23']; subst;
    constructor; [|by apply IH].
  repeat split; [congruence..|].
  destruct Hs' as [Hs'|Hs']; [|by right]. rewrite Hs'. exact Hs.
Qed.

Lemma outreach_step_rows template dry_run i run c :
  let run' := snd (outreach_step config delivers clock template dry_run (i, run) c) in
  (successful run' + failed run' = S (successful run + failed run))%nat /\
  Forall2 kept_or_contacted (rows (contact_manager run)) (rows (contact_manager run')).
Proof.
  unfold outreach_step.
  destruct (if dry_run then _ else _) as [[] sender]; simpl.
  - split; [lia|]. rewrite rows_update_contact_status. apply kept_or_contacted_set.
  - split; [lia|]. apply kept_or_contacted_refl.
Qed.

Lemma outreach_fold_rows template dry_run contacts i run :
  let run' :=
    snd (fold_left (outreach_step config delivers clock template dry_run)
           contacts (i, run)) in
  (successful run' + failed run'
   = successful run + failed run + length contacts)%nat /\
  Forall2 kept_or_contacted (rows (contact_manager run)) (rows (contact_manager run')).
Proof.
  revert i run. induction contacts as [|c contacts IH]; intros i run.
  - simpl. split; [lia|apply kept_or_contacted_refl].
  - cbn [fold_left].
    destruct (outreach_step_rows template dry_run i run c) as [Hcount Hrows].
    destruct (outreach_step config delivers clock template dry_run (i, run) c)
      as [i1 run1] eqn:Hstep.
    destruct (IH i1 run1) as [Hcount' Hrows']. cbn [snd length] in *.
    split; [lia|]. by eapply kept_or_contacted_trans.
Qed.

(** X20.  A campaign counts every selected contact once, as successful or as
    failed, and leaves the sheet with the same rows in the same order, each
    with its name and number and with its status either as it was or turned
    to contacted. *)
Theorem campaign_keeps_rows (limit : option Z) (dry_run : bool)
    (flow : option FlowDoc) cm (sender : WhatsAppSender) :
  let run := send_outreach_messages config delivers clock limit dry_run flow
               cm sender in
  (successful run + failed run)%nat = length (get_pending_contacts limit cm) /\
  Forall2 kept_or_contacted (rows cm) (rows (contact_manager run)).
Proof.
  unfold send_outreach_messages.
  destruct (get_pending_contacts limit cm) as [|c contacts] eqn:Hsel.
  { simpl. split; [done|apply kept_or_contacted_refl]. }
  destruct (outreach_fold_rows (message_template flow) dry_run (c :: contacts) 1%nat
              (mkCampaign 0 0 cm sender)) as [Hcount Hrows].
  destruct (fold_left _ (c :: contacts) _) as [i run]. simpl in *.
  split; [lia|]. by rewrite rows_save_contacts.
Qed.

Lemma dry_step template i run c :
  let run' := snd (outreach_step config delivers clock template true (i, run) c) in
  whatsapp_sender run' = whatsapp_sender run /\
  failed run' = failed run /\
  rows (contact_manager run')
  = map (set_status (search_key (PhoneNumber c)) "contacted" (clock i))
      (rows (contact_manager run)).
Proof. unfold outreach_step. simpl. by rewrite rows_update_contact_status. Qed.

Lemma contacted_stays df df' r' :
  Forall2 kept_or_contacted df df' -> r' ∈ df' ->
  exists r, r ∈ df /\ kept_or_contacted r r'.
Proof.
  intros H12 Hin. apply list_elem_of_lookup in Hin as [i Hi].
  destruct (Forall2_lookup_r _ _ _ _ _ H12 Hi) as (r & Hr & Hk).
  exists r. split; [|exact Hk]. apply list_elem_of_lookup. by exists i.
Qed.

Lemma dry_fold template contacts i run :
  let run' :=
    snd (fold_left (outreach_step config delivers clock template true)
           contacts (i, run)) in
  whatsapp_sender run' = whatsapp_sender run /\
  failed run' = failed run /\
  (forall c r, c ∈ contacts -> r ∈ rows (contact_manager run') ->
     PhoneNumber r = search_key (PhoneNumber c) -> Status r = "contacted").
Proof.
  revert i run. induction contacts as [|c contacts IH]; intros i run.
  - simpl. split; [done|]. split; [done|]. intros c r Hc. by apply elem_of_nil in Hc.
  - cbn [fold_left]. destruct (dry_step template i run c) as (Hs & Hf & Hrows).
    pose proof (outreach_fold_rows template true contacts) as Hfold.
    destruct (outreach_step config delivers clock template true (i, run) c)
      as [i1 run1] eqn:Hstep.
    destruct (IH i1 run1) as (Hs' & Hf' & Hmarked).
    specialize (Hfold i1 run1) as [_ Hkept].
    cbn [snd] in *. split; [congruence|]. split; [congruence|].
    intros c0 r [->|Hc0]%elem_of_cons Hr Hphone; [|by eapply Hmarked].
    destruct (contacted_stays _ _ r Hkept Hr) as (r1 & Hr1 & Hp & _ & Hst).
    destruct Hst as [Hst|Hst]; [|exact Hst]. rewrite Hst.
    rewrite Hrows in Hr1. apply list_elem_of_fmap in Hr1 as (r0 & -> & Hr0).
    unfold set_status in *.
    destruct (has_phone (search_key (PhoneNumber c)) r0) eqn:Hh; [done|].
    simpl in Hp. unfold has_phone in Hh. apply bool_decide_eq_false_1 in Hh.
    congruence.
Qed.

Lemma update_contact_status_unsaved phone status now cm :
  excel_writable (update_contact_status phone status false now cm)
    = excel_writable cm /\
  (forall df, contacts_df cm = Some df ->
     exists df', contacts_df (update_contact_status phone status false now cm)
                 = Some df').
Proof.
  destruct (contacts_df cm) as [df|] eqn:Hdf.
  - unfold update_contact_status. rewrite Hdf. cbv zeta.
    destruct (existsb _ df); simpl; (split; [done|]); intros df0 _;
      rewrite ?Hdf; eauto.
  - split; [|done]. unfold update_contact_status. by rewrite Hdf.
Qed.

Lemma campaign_writable template dry_run contacts i run :
  let run' :=
    snd (fold_left (outreach_step config delivers clock template dry_run)
           contacts (i, run)) in
  excel_writable (contact_manager run') = excel_writable (contact_manager run) /\
  (forall df, contacts_df (contact_manager run) = Some df ->
     exists df', contacts_df (contact_manager run') = Some df').
Proof.
  revert i run. induction contacts as [|c contacts IH]; intros i run.
  - simpl. split; [done|]. eauto.
  - cbn [fold_left].
    assert (let run1 := snd (outreach_step config delivers clock template dry_run
                               (i, run) c) in
            excel_writable (contact_manager run1)
              = excel_writable (contact_manager run) /\
            (forall df, contacts_df (contact_manager run) = Some df ->
               exists df', contacts_df (contact_manager run1) = Some df')) as Hstep.
    { unfold outreach_step.
      destruct (if dry_run then _ else _) as [[] sender]; simpl; [|eauto].
      apply update_contact_status_unsaved. }
    destruct (outreach_step config delivers clock template dry_run (i, run) c)
      as [i1 run1].
    destruct (IH i1 run1) as [Hw Hdf]. cbn [snd] in *.
    destruct Hstep as [Hw1 Hdf1]. split; [congruence|].
    intros df Hsome. destruct (Hdf1 df Hsome) as [df1 H1]. by apply (Hdf df1).
Qed.

(** X21.  A dry run calls the API for no one and counts no failure, but it
    does update the sheet: every row whose number is the cleaned number of a
    selected contact is marked contacted, and the sheet is saved to the file
    when the file can be written. *)
Theorem dry_run_marks_contacted (limit : option Z) (flow : option FlowDoc)
    cm (sender : WhatsAppSender) :
  let run := send_outreach_messages config delivers clock limit true flow
               cm sender in
  whatsapp_sender run = sender /\
  failed run = 0%nat /\
  (forall c r, c ∈ get_pending_contacts limit cm -> r ∈ rows (contact_manager run) ->
     PhoneNumber r = search_key (PhoneNumber c) -> Status r = "contacted") /\
  (get_pending_contacts limit cm <> [] -> excel_writable cm = true ->
     excel (contact_manager run) = rows (contact_manager run)).
Proof.
  unfold send_outreach_messages.
  destruct (get_pending_contacts limit cm) as [|c contacts] eqn:Hsel.
  { simpl. split; [done|]. split; [done|]. split; [|done].
    intros c r Hc. by apply elem_of_nil in Hc. }
  destruct (dry_fold (message_template flow) (c :: contacts) 1%nat
              (mkCampaign 0 0 cm sender)) as (Hs & Hf & Hmarked).
  pose proof (campaign_writable (message_template flow) true (c :: contacts) 1%nat
                (mkCampaign 0 0 cm sender)) as [Hwr Hdf].
  destruct (fold_left _ (c :: contacts) _) as [i run]. simpl in *.
  split; [exact Hs|]. split; [exact Hf|]. split.
  - intros c0 r Hc0. rewrite rows_save_contacts. by apply Hmarked.
  - intros _ Hw. unfold save_contacts, rows.
    assert (is_Some (contacts_df cm)) as [df0 Hdf0].
    { unfold get_pending_contacts in Hsel. by destruct (contacts_df cm). }
    destruct (Hdf df0 Hdf0) as [df ->]. by rewrite Hwr, Hw.
Qed.

End Campaigns.

(** * The webhook *)

Section Webhooks.

Import App.

Variable dialogue_data : FlowDoc.
Variable llm : GeminiAdapter.
Variable reply : model_reply.

Implicit Types (srv : Server) (form : Form) (sd : StateDef).

(** X22.  An exception of the engine reaches the sender as the fixed
    apology: at the Yes/No gate with the generator enabled, a message that
    matches no keyword is answered with the apology and the status 200, the
    contact sheet is left as it is (the contact is not marked replied) and
    the sender stays at the gate. *)
Theorem webhook_apologises_when_engine_raises form now srv sd :
  let from_number := default "Unknown" (From form) in
  let m := PyStr.strip (PyStr.lower (PyStr.strip (default "" (Body form)))) in
  current_state (resolve (dialogue srv) from_number) = "AWAITING_INTEREST" ->
  states dialogue_data !! "AWAITING_INTEREST" = Some sd ->
  PyStr.any_in (default [] (sd_positive_keywords sd)) m = false ->
  PyStr.any_in (default [] (sd_negative_keywords sd)) m = false ->
  is_enabled llm = true ->
  webhook dialogue_data llm reply form now srv
  = ((apology, 200),
     mkServer (loaded (dialogue srv) from_number) (contacts srv)) /\
  current_state (resolve (loaded (dialogue srv) from_number) from_number)
  = "AWAITING_INTEREST".
Proof.
  intros from_number m Hcur Hsd Hpos Hneg Hon. unfold webhook. cbv zeta.
  fold from_number.
  rewrite (process_message_gate_enabled dialogue_data llm reply
             (dialogue srv) from_number _ _ sd Hcur Hsd Hpos Hneg Hon).
  split; [done|]. by rewrite resolve_loaded.
Qed.

(** X23.  A sender turned away at the income question is recorded as
    replied, not as disqualified: the engine ends the conversation without
    an outcome, so the webhook answers with the below-minimum message and
    updates the sheet through [mark_replied], saving it. *)
Theorem webhook_marks_low_income_replied form now srv sd income :
  let from_number := default "Unknown" (From form) in
  let m := PyStr.strip (PyStr.lower (PyStr.strip (default "" (Body form)))) in
  well_kept (dialogue srv) ->
  current_state (resolve (dialogue srv) from_number) = "AWAITING_ANSWER_2" ->
  states dialogue_data !! "AWAITING_ANSWER_2" = Some sd ->
  extract_income m = Some income ->
  income < default 5000 (sd_minimum_income sd) ->
  webhook dialogue_data llm reply form now srv
  = ((branch_reply sd sd_on_below_minimum "Thank you for your interest.", 200),
     mkServer
       (written (dialogue srv) from_number
          (moved_to "END" (resolve (dialogue srv) from_number)))
       (Contacts.mark_replied from_number true now (contacts srv))).
Proof.
  intros from_number m Hkept Hcur Hsd Hinc Hlt. unfold webhook. cbv zeta.
  fold from_number.
  rewrite (process_message_income dialogue_data llm reply
             (dialogue srv) from_number _ _ sd Hcur Hsd).
  fold m. rewrite Hinc, (proj2 (Z.ltb_lt _ _)) by exact Hlt.
  rewrite get_user_state_run, resolve_written, loaded_written.
  assert (outcome (resolve (dialogue srv) from_number) = None) as Hnone.
  { apply well_kept_open; [exact Hkept|]. by rewrite Hcur. }
  simpl outcome. rewrite Hnone.
  by rewrite !bool_decide_eq_false_2.
Qed.

End Webhooks.

Section Statistics.

Import App.

Lemma count_open_or_ended (l : list UserState) :
  Forall open_or_ended l ->
  (length (List.filter (fun s => negb (bool_decide (current_state s = "END"))) l)
   + length (List.filter (fun s => bool_decide (outcome s = Some "qualified")) l)
   + length (List.filter (fun s => bool_decide (outcome s = Some "disqualified")) l)
   <= length l)%nat.
Proof.
  induction 1 as [|s l Hs Hl IH]; [done|]. simpl.
  repeat case_bool_decide; simpl; try lia;
    destruct Hs as [Hs|Hs]; congruence.
Qed.

(** X24.  In the memory the engine keeps, the figures of the [stats]
    endpoint do not overlap: a sender counted as qualified or as
    disqualified has ended and is not counted as active, so the three
    figures together never exceed the number of users. *)
Theorem stats_do_not_overlap (w : World) :
  well_kept w ->
  (active_conversations (stats w) + stat_qualified (stats w)
   + stat_disqualified (stats w) <= total_users (stats w))%nat.
Proof.
  intros [Hmem _]. unfold stats, count_users. simpl.
  rewrite <- length_map_to_list, <- (length_fmap snd).
  apply count_open_or_ended. apply Forall_forall. intros u Hu.
  apply list_elem_of_fmap in Hu as ([q u'] & -> & Hq).
  apply elem_of_map_to_list in Hq. by apply (Hmem q).
Qed.

End Statistics.

(** * The store and the generator *)

(** X25.  [ConversationStore.delete] removes the record of the sender when
    the file can be written, whatever was set before, and leaves the other
    senders' records; deleting a sender the store does not hold opens the
    file for no write. *)
Theorem store_delete_forgets (st : ConversationStore) (p : string) :
  (writable st = true -> Store.get (Store.delete p st) p = None) /\
  (forall u, writable st = true ->
     Store.get (Store.delete p (Store.set p u st)) p = None) /\
  (forall q, p <> q -> Store.get (Store.delete p st) q = Store.get st q) /\
  (Store.get st p = None -> Store.delete p st = st).
Proof.
  assert (forall st', writable st' = true -> Store.get (Store.delete p st') p = None)
    as Hgone.
  { intros st' Hw. unfold Store.delete, Store.get, Store._write_all, Store._read_all.
    case_bool_decide as Hin; rewrite ?Hw; simpl.
    - apply lookup_delete_eq.
    - by apply eq_None_not_Some. }
  split; [apply Hgone|]. split; [|split].
  - intros u Hw. apply Hgone. unfold Store.set, Store._write_all. simpl. exact Hw.
  - intros q Hne. unfold Store.delete, Store.get, Store._write_all, Store._read_all.
    case_bool_decide; [|done]. destruct (writable st); simpl; [|done].
    by rewrite lookup_delete_ne.
  - unfold Store.delete, Store.get. intros ->.
    rewrite bool_decide_eq_false_2; [done|]. by intros [? ?].
Qed.






(** * The further properties on the samples *)

Lemma at_record_coherent u : coherent (Sample.at_record u).
Proof.
  intros q u'. unfold Sample.at_record, Store.get, Store._read_all. simpl.
  done.
Qed.

Lemma at_record_well_kept u : open_or_ended u -> well_kept (Sample.at_record u).
Proof.
  intros Hu. split; intros q u'; unfold Sample.at_record, Store.get, Store._read_all;
    simpl; intros [<- <-]%lookup_singleton_Some; exact Hu.
Qed.

Lemma other_senders_untouched_witness :
  resolve
    (snd (process_message Sample.flow Sample.gemini_off Sample.nudge Sample.phone
            "yes" None (Sample.at_state "AWAITING_INTEREST" 1)))
    SampleSheet.other_phone
  = resolve (Sample.at_state "AWAITING_INTEREST" 1) SampleSheet.other_phone.
Proof.
  apply (other_senders_untouched Sample.flow Sample.gemini_off Sample.nudge
           (Sample.at_state "AWAITING_INTEREST" 1) Sample.phone
           SampleSheet.other_phone "yes" None).
  discriminate.
Defined.

Lemma store_follows_memory_witness :
  coherent
    (snd (process_message Sample.flow Sample.gemini_off Sample.nudge Sample.phone
            "salaried" None (Sample.at_state "AWAITING_ANSWER_1" 3))).
Proof.
  apply (store_follows_memory Sample.flow Sample.gemini_off Sample.nudge
           (Sample.at_state "AWAITING_ANSWER_1" 3) Sample.phone "salaried" None).
  - reflexivity.
  - apply at_record_coherent.
Defined.

Lemma outcome_only_at_end_witness :
  current_state
    (resolve
       (snd (serve Sample.flow Sample.gemini_off Sample.nudge
               [(Sample.phone, "hi", None); (SampleSheet.other_phone, "hello", None);
                (Sample.phone, "yes", None); (Sample.phone, "ok", None);
                (Sample.phone, "salaried", None); (Sample.phone, "ok", None);
                (Sample.phone, "8000", None); (Sample.phone, "ok", None);
                (Sample.phone, "expat", None)]
               Sample.fresh))
       Sample.phone)
  = "END".
Proof.
  apply (outcome_only_at_end Sample.flow Sample.gemini_off Sample.nudge
           [(Sample.phone, "hi", None); (SampleSheet.other_phone, "hello", None);
            (Sample.phone, "yes", None); (Sample.phone, "ok", None);
            (Sample.phone, "salaried", None); (Sample.phone, "ok", None);
            (Sample.phone, "8000", None); (Sample.phone, "ok", None);
            (Sample.phone, "expat", None)]
           Sample.fresh Sample.phone).
  - apply fresh_well_kept.
  - left. vm_compute. reflexivity.
  - vm_compute. discriminate.
Defined.


Lemma upper_case_keyword_never_matches_witness :
  PyStr.any_in ["Yes"; "OK"] (PyStr.strip (PyStr.lower "Yes, OK")) = false.
Proof.
  apply (upper_case_keyword_never_matches ["Yes"; "OK"] "Yes, OK").
  intros k Hk.
  repeat (apply elem_of_cons in Hk as [->|Hk]; [reflexivity|]).
  by apply elem_of_nil in Hk.
Defined.

Lemma unroutable_state_ends_witness :
  process_message Sample.flow Sample.gemini_off Sample.nudge Sample.phone
    "hello?" None (Sample.at_state "AWAITING_CALLBACK" 4)
  = (Return ("I'm experiencing technical difficulties.", true),
     written (Sample.at_state "AWAITING_CALLBACK" 4) Sample.phone
       (moved_to "END" (resolve (Sample.at_state "AWAITING_CALLBACK" 4) Sample.phone))).
Proof.
  apply (unroutable_state_ends Sample.flow Sample.gemini_off Sample.nudge
           (Sample.at_state "AWAITING_CALLBACK" 4) Sample.phone "hello?" None
           "again" None).
  split; [discriminate|]. split; [discriminate|]. left. reflexivity.
Defined.

Lemma reset_user_forgets_witness :
  fst (process_message Sample.flow Sample.gemini_off Sample.nudge Sample.phone
         "hi" None
         (snd (reset_user Sample.phone (Sample.at_state "QUESTION_2" 4))))
  = Return ("Hi there! Interested in a home loan? Reply Yes or No.", false).
Proof.
  apply (reset_user_forgets Sample.flow Sample.gemini_off Sample.nudge
           (Sample.at_state "QUESTION_2" 4) Sample.phone "hi" None "there").
  - reflexivity.
  - constructor.
Defined.

Lemma reset_user_undone_when_unwritable_witness :
  resolve
    (snd (reset_user Sample.phone
            (SampleSheet.unwritable (mkUserState "QUESTION_2" ∅ 4 0 None))))
    Sample.phone
  = mkUserState "QUESTION_2" ∅ 4 0 None.
Proof.
  apply (reset_user_undone_when_unwritable
           (SampleSheet.unwritable (mkUserState "QUESTION_2" ∅ 4 0 None))
           Sample.phone (mkUserState "QUESTION_2" ∅ 4 0 None)).
  - reflexivity.
  - reflexivity.
Defined.

Lemma residency_answer_concludes_witness :
  exists w',
    process_message Sample.flow Sample.gemini_off Sample.nudge Sample.phone
      "I am an Expat" None
      (Sample.at_record
         (mkUserState "AWAITING_ANSWER_3"
            (list_to_map [("employment_type", SStr "salaried");
                          ("monthly_income", SInt 8000)]) 7 0 None))
    = (Return ("You qualify! Book a call: https://calendly.com/advisor", true), w') /\
    resolve w' Sample.phone
    = mkUserState "END" (Sample.answers 8000) 9 0 (Some "qualified").
Proof.
  destruct (residency_answer_concludes Sample.flow Sample.gemini_off Sample.nudge
              (Sample.at_record
                 (mkUserState "AWAITING_ANSWER_3"
                    (list_to_map [("employment_type", SStr "salaried");
                                  ("monthly_income", SInt 8000)]) 7 0 None))
              Sample.phone "I am an Expat" None Sample.residency_answer
              "expatriate" true)
    as (w' & Hrun & Hrecord & _).
  - reflexivity.
  - reflexivity.
  - vm_compute. reflexivity.
  - vm_compute. reflexivity.
  - exists w'. split; [exact Hrun|]. rewrite Hrecord. vm_compute. reflexivity.
Defined.

Lemma evaluation_type_error_sticks_witness :
  fst (process_all Sample.flow Sample.gemini_off Sample.nudge Sample.phone
         [("hello", None); ("anyone?", None)]
         (Sample.at_record
            (mkUserState "EVALUATE_ELIGIBILITY"
               {[ "monthly_income" := SStr "plenty" ]} 6 0 None)))
  = [Raise (TypeError ">="); Raise (TypeError ">=")].
Proof.
  apply (evaluation_type_error_sticks Sample.flow Sample.gemini_off Sample.nudge
           (Sample.at_record
              (mkUserState "EVALUATE_ELIGIBILITY"
                 {[ "monthly_income" := SStr "plenty" ]} 6 0 None))
           Sample.phone [("hello", None); ("anyone?", None)]
           (Sample.evaluator Sample.rules)).
  - reflexivity.
  - reflexivity.
  - reflexivity.
Defined.


Lemma pending_contacts_selected_witness :
  (length (Contacts.get_pending_contacts (Some 1%Z) SampleSheet.sheet) <= 1)%nat.
Proof.
  destruct (pending_contacts_selected (Some 1%Z) SampleSheet.sheet)
    as (_ & _ & Hbound & _).
  apply (Hbound 1%Z); [reflexivity|lia].
Defined.

Lemma update_then_lookup_witness :
  exists c',
    Contacts.get_contact_by_phone "whatsapp:+971501234567"
      (Contacts.update_contact_status "whatsapp:+971501234567" "qualified" true
         SampleSheet.now SampleSheet.sheet)
    = Some c' /\
    Status c' = "qualified".
Proof.
  destruct (update_then_lookup "whatsapp:+971501234567" "qualified" true
              SampleSheet.now SampleSheet.sheet
              [SampleSheet.ahmed; SampleSheet.sarah; SampleSheet.mohammed;
               SampleSheet.layla] eq_refl)
    as (Hfound & _).
  destruct (Hfound SampleSheet.ahmed eq_refl) as (c' & Hget & Hstatus & _).
  exists c'. split; [exact Hget|exact Hstatus].
Defined.

Lemma mark_replied_by_status_witness :
  Contacts.mark_replied "+971 50 765 4321" true SampleSheet.now SampleSheet.sheet
  = SampleSheet.sheet.
Proof.
  destruct (mark_replied_by_status "+971 50 765 4321" true SampleSheet.now
              SampleSheet.sheet) as (_ & Hkept & _).
  apply (Hkept SampleSheet.mohammed); [reflexivity|discriminate|discriminate].
Defined.

Lemma statistics_partition_witness :
  (Contacts.pending (SampleSheet.statistics) + Contacts.contacted (SampleSheet.statistics)
   + Contacts.qualified (SampleSheet.statistics)
   + Contacts.disqualified (SampleSheet.statistics)
   <= Contacts.total (SampleSheet.statistics))%nat.
Proof.
  apply (statistics_partition SampleSheet.sheet SampleSheet.statistics).
  reflexivity.
Defined.

Lemma sandbox_sends_to_test_recipient_only_witness :
  Sender.send_message SampleSheet.sandbox SampleSheet.delivers
    (Some "+971509876543") "Hi Sarah!" (mkWhatsAppSender [])
  = (false, mkWhatsAppSender []).
Proof.
  destruct (sandbox_sends_to_test_recipient_only SampleSheet.sandbox
              SampleSheet.delivers "whatsapp:+971501234567"
              eq_refl eq_refl ltac:(discriminate)) as [Hrefused _].
  apply Hrefused. vm_compute. discriminate.
Defined.

Lemma dry_run_marks_contacted_witness :
  Outreach.whatsapp_sender
    (Outreach.send_outreach_messages SampleSheet.sandbox SampleSheet.delivers
       SampleSheet.clock None true (Some Sample.flow) SampleSheet.sheet
       (mkWhatsAppSender []))
  = mkWhatsAppSender [] /\
  excel (Outreach.contact_manager
           (Outreach.send_outreach_messages SampleSheet.sandbox SampleSheet.delivers
              SampleSheet.clock None true (Some Sample.flow) SampleSheet.sheet
              (mkWhatsAppSender [])))
  = rows (Outreach.contact_manager
            (Outreach.send_outreach_messages SampleSheet.sandbox SampleSheet.delivers
               SampleSheet.clock None true (Some Sample.flow) SampleSheet.sheet
               (mkWhatsAppSender []))).
Proof.
  destruct (dry_run_marks_contacted SampleSheet.sandbox SampleSheet.delivers
              SampleSheet.clock None (Some Sample.flow) SampleSheet.sheet
              (mkWhatsAppSender [])) as (Hsender & _ & _ & Hsaved).
  split; [exact Hsender|]. apply Hsaved; [discriminate|reflexivity].
Defined.

Lemma webhook_apologises_when_engine_raises_witness :
  fst (App.webhook Sample.flow Sample.gemini_on Sample.nudge
         (SampleSheet.inbound_form " Maybe later ") SampleSheet.now
         (mkServer (Sample.at_state "AWAITING_INTEREST" 1) SampleSheet.sheet))
  = (App.apology, 200).
Proof.
  destruct (webhook_apologises_when_engine_raises Sample.flow Sample.gemini_on
              Sample.nudge (SampleSheet.inbound_form " Maybe later ") SampleSheet.now
              (mkServer (Sample.at_state "AWAITING_INTEREST" 1) SampleSheet.sheet)
              Sample.gate eq_refl eq_refl eq_refl eq_refl eq_refl) as [-> _].
  reflexivity.
Defined.

Lemma webhook_marks_low_income_replied_witness :
  Contacts.get_contact_by_phone Sample.phone
    (contacts
       (snd (App.webhook Sample.flow Sample.gemini_off Sample.nudge
               (SampleSheet.inbound_form "about 3000") SampleSheet.now
               (mkServer (Sample.at_state "AWAITING_ANSWER_2" 4) SampleSheet.sheet))))
  = Some (mkContact "Layla Omar" "+971500000001" "replied" (Some SampleSheet.now)
            "mortgage").
Proof.
  rewrite (webhook_marks_low_income_replied Sample.flow Sample.gemini_off
             Sample.nudge (SampleSheet.inbound_form "about 3000") SampleSheet.now
             (mkServer (Sample.at_state "AWAITING_ANSWER_2" 4) SampleSheet.sheet)
             Sample.income_answer 3000).
  - vm_compute. reflexivity.
  - apply at_record_well_kept. by left.
  - reflexivity.
  - reflexivity.
  - reflexivity.
  - reflexivity.
Defined.

Lemma stats_do_not_overlap_witness :
  (App.active_conversations (App.stats (Sample.at_state "END" 9))
   + App.stat_qualified (App.stats (Sample.at_state "END" 9))
   + App.stat_disqualified (App.stats (Sample.at_state "END" 9))
   <= App.total_users (App.stats (Sample.at_state "END" 9)))%nat.
Proof.
  apply (stats_do_not_overlap (Sample.at_state "END" 9)).
  apply at_record_well_kept. by left.
Defined.

Lemma store_delete_forgets_witness :
  Store.get
    (Store.delete Sample.phone
       (Store.set Sample.phone (mkUserState "QUESTION_1" ∅ 2 0 None)
          (mkStore None true 0)))
    Sample.phone
  = None.
Proof.
  destruct (store_delete_forgets (mkStore None true 0) Sample.phone)
    as (_ & Hgone & _).
  apply Hgone. reflexivity.
Defined.

